(** * DamageScan chat: the worker pipeline and the browser's retry controller

    A shallow embedding of [src/index.ts], [src/types.ts] and of the browser
    script that talks to them.  The embedding follows the sources function by
    function and keeps their names.

    - [JS]     : the part of the JavaScript runtime the sources rely on
                 (values, exceptions, strings, [Number.prototype.toFixed]).
    - [Types]  : [types.ts], the records, the run-time type guards and the
                 configuration constants.
    - [Worker] : [index.ts], validation, retrieval, prompt building,
                 generation and fallback.
    - [Client] : the browser script, stream consumer and retry controller.
    - [Spec]   : names for what the properties talk about.
    - [Samples]: concrete inputs on which the properties are exercised.

    Conventions.  A JavaScript string is a [string]: a sequence of code units
    below 256.  A JavaScript number is a binary64 [float].  Logging
    ([console.log] and friends) has no effect on any result and is left out.
    Wall-clock readings and random identifiers are inputs of the functions
    that use them.  A chunk of a streamed body is the text decoded from one
    read. *)

From Stdlib Require Import Floats ZArith Ascii String List Lia.
From stdpp Require Import gmap strings pretty.

#[local] Set Warnings "-inexact-float,-register-all".
#[local] Open Scope Z_scope.

(** ** The JavaScript runtime *)

Module JS.

(** Values.  Objects are finite maps from property names to values. *)
Inductive jsval : Type :=
| VUndef
| VNull
| VBool (b : bool)
| VNum (x : float)
| VStr (s : string)
| VArr (l : list jsval)
| VObj (o : gmap string jsval).

(** What a [throw] carries: an [Error] with its message, or any other
    value. *)
Inductive thrown : Type :=
| JSError (message : string)
| ThrownValue (v : jsval).

(** The outcome of an evaluation that may throw. *)
Inductive result (A : Type) : Type :=
| Ok (a : A)
| Throw (e : thrown).
Arguments Ok {A} a.
Arguments Throw {A} e.

Definition bind {A B : Type} (r : result A) (k : A → result B) : result B :=
  match r with
  | Ok a => k a
  | Throw e => Throw e
  end.

#[global] Instance result_bind : MBind result := λ A B k r, bind r k.
#[global] Instance result_ret : MRet result := @Ok.

(** [try { body } catch (e) { handler e }] *)
Definition try_catch {A : Type} (body : result A) (handler : thrown → result A)
  : result A :=
  match body with
  | Ok a => Ok a
  | Throw e => handler e
  end.

(** [error instanceof Error ? error.message : dflt] *)
Definition message_or (dflt : string) (e : thrown) : string :=
  match e with
  | JSError m => m
  | ThrownValue _ => dflt
  end.

(** *** Effects

    A computation that reads and updates a state of type [S] and may throw:
    the state it leaves behind is kept also when it throws. *)

Definition Eff (S A : Type) : Type := S → result A * S.

Definition ret {S A : Type} (a : A) : Eff S A := λ s, (Ok a, s).

Definition throw {S A : Type} (e : thrown) : Eff S A := λ s, (Throw e, s).

Definition lift {S A : Type} (r : result A) : Eff S A := λ s, (r, s).

Definition gets {S A : Type} (f : S → A) : Eff S A := λ s, (Ok (f s), s).

Definition modify {S : Type} (f : S → S) : Eff S unit := λ s, (Ok tt, f s).

Definition bindE {S A B : Type} (m : Eff S A) (k : A → Eff S B) : Eff S B :=
  λ s, match m s with
       | (Ok a, s') => k a s'
       | (Throw e, s') => (Throw e, s')
       end.

#[global] Instance Eff_bind {S : Type} : MBind (Eff S) := λ A B k m, bindE m k.
#[global] Instance Eff_ret {S : Type} : MRet (Eff S) := @ret S.

(** [try { body } catch (e) { handler e }] *)
Definition try_catchM {S A : Type} (body : Eff S A) (handler : thrown → Eff S A)
  : Eff S A :=
  λ s, match body s with
       | (Ok a, s') => (Ok a, s')
       | (Throw e, s') => handler e s'
       end.

(** [try { body } finally { final }] *)
Definition try_finally {S A : Type} (body : Eff S A) (final : Eff S unit) : Eff S A :=
  λ s, match body s with
       | (r, s') =>
           match final s' with
           | (Ok _, s'') => (r, s'')
           | (Throw e, s'') => (Throw e, s'')
           end
       end.

Definition nl : string := String "010"%char "".
Definition dquote : string := String "034"%char "".

(** *** Numbers *)

Definition of_nat (n : nat) : float :=
  PrimFloat.of_uint63 (Uint63.of_Z (Z.of_nat n)).

(** *** Coercions and operators *)

(** [ToBoolean] *)
Definition truthy (v : jsval) : bool :=
  match v with
  | VUndef | VNull => false
  | VBool b => b
  | VNum x => negb (PrimFloat.is_nan x || PrimFloat.eqb x 0%float)
  | VStr s => negb (String.eqb s "")
  | VArr _ | VObj _ => true
  end.

Definition typeof_string (v : jsval) : bool :=
  match v with VStr _ => true | _ => false end.

Definition typeof_number (v : jsval) : bool :=
  match v with VNum _ => true | _ => false end.

(** [typeof v === "object"]: also true of [null]. *)
Definition typeof_object (v : jsval) : bool :=
  match v with VNull | VArr _ | VObj _ => true | _ => false end.

Definition isArray (v : jsval) : bool :=
  match v with VArr _ => true | _ => false end.

(** [v.k] for a named (non-index) property [k] of a value that is neither
    [null] nor [undefined]. *)
Definition get (v : jsval) (k : string) : jsval :=
  match v with
  | VObj o => default VUndef (o !! k)
  | VArr l => if String.eqb k "length" then VNum (of_nat (length l)) else VUndef
  | VStr s => if String.eqb k "length" then VNum (of_nat (String.length s)) else VUndef
  | _ => VUndef
  end.

(** [v.k] in general: reading a property of [null] or [undefined] throws a
    [TypeError]. *)
Definition get_throw (v : jsval) (k : string) : result jsval :=
  match v with
  | VUndef | VNull => Throw (JSError ("Cannot read properties of null or undefined"))
  | _ => Ok (get v k)
  end.

(** Views of a value whose type a guard has already established. *)
Definition as_string (v : jsval) : string :=
  match v with VStr s => s | _ => "" end.

Definition as_number (v : jsval) : float :=
  match v with VNum x => x | _ => PrimFloat.nan end.

Definition as_array (v : jsval) : list jsval :=
  match v with VArr l => l | _ => [] end.

(** [{...v}]: the own enumerable properties of [v]. *)
Definition spread (v : jsval) : gmap string jsval :=
  match v with
  | VObj o => o
  | VArr l => list_to_map (imap (λ i x, (pretty i, x)) l)
  | VStr s =>
      list_to_map
        (imap (λ i c, (pretty i, VStr (String c ""))) (list_ascii_of_string s))
  | _ => ∅
  end.

(** *** Strings *)

Definition startsWith (s p : string) : bool := String.prefix p s.

(** [s.includes(p)] *)
Fixpoint includes (s p : string) : bool :=
  String.prefix p s ||
  match s with
  | EmptyString => false
  | String _ s' => includes s' p
  end.

(** [s.substring(n)] *)
Fixpoint substring_from (n : nat) (s : string) : string :=
  match n, s with
  | O, _ => s
  | S n', String _ s' => substring_from n' s'
  | S _, EmptyString => EmptyString
  end.

(** [s.substring(0, n)] *)
Definition substring_to (n : nat) (s : string) : string :=
  String.substring 0 n s.

(** White space and line terminators among the code units below 256. *)
Definition is_white (c : ascii) : bool :=
  match c with
  | "009" | "010" | "011" | "012" | "013" | " " | "160" => true
  | _ => false
  end%char.

Fixpoint trimStart (s : string) : string :=
  match s with
  | String c s' => if is_white c then trimStart s' else s
  | EmptyString => EmptyString
  end.

Definition trim (s : string) : string :=
  String.rev (trimStart (String.rev (trimStart s))).

(** [l.join(sep)] *)
Fixpoint join (sep : string) (l : list string) : string :=
  match l with
  | [] => ""
  | [x] => x
  | x :: rest => x +:+ sep +:+ join sep rest
  end.

(** [s.split("\n")] *)
Fixpoint split_lines (s : string) : list string :=
  match s with
  | EmptyString => [""]
  | String c s' =>
      if Ascii.eqb c "010"%char then "" :: split_lines s'
      else match split_lines s' with
           | line :: rest => String c line :: rest
           | [] => [String c ""]
           end
  end.

(** *** [Number.prototype.toFixed]

    A finite non-zero binary64 number is [±m·2^e] exactly ([Prim2SF]), so
    the decimal digits asked for are computed in [Z] without rounding
    error. *)

Fixpoint zeros (n : nat) : string :=
  match n with
  | O => ""
  | S n' => String "0"%char (zeros n')
  end.

Definition digits (n : Z) : string := pretty (Z.to_N n).

(** The integer [n] shown with [f] digits after the point: [n / 10^f]. *)
Definition fixed_point (f : nat) (n : Z) : string :=
  let m := digits n in
  match f with
  | O => m
  | S _ =>
      let m' := zeros (S f - String.length m) +:+ m in
      let k := String.length m' in
      substring_to (k - f) m' +:+ "." +:+ substring_from (k - f) m'
  end.

(** The integer nearest to [m·2^e·10^f]; of two nearest, the larger. *)
Definition nearest_scaled (f : nat) (m : positive) (e : Z) : Z :=
  let num := Z.pos m * 10 ^ Z.of_nat f in
  if 0 <=? e then num * 2 ^ e
  else let den := 2 ^ (- e) in (2 * num + den) / (2 * den).

(** [m·2^e ≥ 10^21] *)
Definition ge_1e21 (m : positive) (e : Z) : bool :=
  if 0 <=? e then 10 ^ 21 <=? Z.pos m * 2 ^ e
  else 10 ^ 21 * 2 ^ (- e) <=? Z.pos m.

(** Does the integer [v] round to the binary64 number [m·2^e] (for
    [e ≥ 2])?  Both sides are doubled to stay in [Z]. *)
Definition rounds_to (m : positive) (e : Z) (v : Z) : bool :=
  let x2 := 2 * Z.pos m * 2 ^ e in
  let up := 2 ^ e in
  let down := if Z.pos m =? 2 ^ 52 then 2 ^ (e - 1) else 2 ^ e in
  if Z.even (Z.pos m)
  then (x2 - down <=? 2 * v) && (2 * v <=? x2 + up)
  else (x2 - down <? 2 * v) && (2 * v <? x2 + up).

(** The decimal with the fewest significant digits that rounds to
    [x = m·2^e]; of several with that many digits, the nearest to [x]; of
    two equally near, the one whose last digit is even.  [d] is the number
    of digits of [x] and [k] the number of digits tried. *)
Fixpoint shortest (fuel : nat) (k : nat) (m : positive) (e : Z) (x : Z) (d : nat) : Z :=
  match fuel with
  | O => x
  | S fuel' =>
      let p := 10 ^ Z.of_nat (d - k) in
      let lo := (x / p) * p in
      let hi := lo + p in
      match rounds_to m e lo, rounds_to m e hi with
      | true, true =>
          if x - lo <? hi - x then lo
          else if hi - x <? x - lo then hi
          else if Z.even (x / p) then lo else hi
      | true, false => lo
      | false, true => hi
      | false, false => shortest fuel' (S k) m e x d
      end
  end.

Fixpoint dropZeros (s : string) : string :=
  match s with
  | String "0"%char s' => dropZeros s'
  | _ => s
  end.

(** [Number::toString] of a finite number [m·2^e ≥ 10^21]: exponent
    notation. *)
Definition toString_large (m : positive) (e : Z) : string :=
  let x := Z.pos m * 2 ^ e in
  let v := digits (shortest 17 1 m e x (String.length (digits x))) in
  let sig := String.rev (dropZeros (String.rev v)) in
  match sig with
  | EmptyString => "0"
  | String c EmptyString => String c "" +:+ "e+" +:+ pretty (String.length v - 1)%nat
  | String c rest => String c "" +:+ "." +:+ rest +:+ "e+" +:+ pretty (String.length v - 1)%nat
  end.

(** [x.toFixed(f)] for [0 ≤ f ≤ 100]. *)
Definition toFixed (f : nat) (x : float) : string :=
  match Prim2SF x with
  | S754_nan => "NaN"
  | S754_infinity s => if s then "-Infinity" else "Infinity"
  | S754_zero _ => fixed_point f 0
  | S754_finite s m e =>
      (if s then "-" else "") +:+
      (if ge_1e21 m e then toString_large m e
       else fixed_point f (nearest_scaled f m e))
  end.

Definition lower_char (c : ascii) : ascii :=
  let n := nat_of_ascii c in
  if (65 <=? n)%nat && (n <=? 90)%nat then ascii_of_nat (n + 32) else c.

Fixpoint toLowerCase (s : string) : string :=
  match s with
  | EmptyString => EmptyString
  | String c s' => String (lower_char c) (toLowerCase s')
  end.

End JS.

(** ** [types.ts]: records, type guards, constants *)

Module Types.
Import JS.

Inductive Role : Type := system | user | assistant.

Definition Role_eqb (a b : Role) : bool :=
  match a, b with
  | system, system | user, user | assistant, assistant => true
  | _, _ => false
  end.

Module ChatMessage.
Record t : Type := mk { role : Role; content : string }.
End ChatMessage.
Abbreviation ChatMessage := ChatMessage.t.

(** [ragSettings] is kept as the value the client sent: the worker spreads
    it, so every property it carries matters, declared or not. *)
Module ChatRequest.
Record t : Type := mk {
  messages : list ChatMessage;
  systemPrompt : option string;
  ragSettings : jsval;
}.
End ChatRequest.
Abbreviation ChatRequest := ChatRequest.t.

Module SearchOptions.
Record t : Type := mk {
  query : string;
  max_num_results : jsval;
  score_threshold : jsval;
  rewrite_query : jsval;
}.
End SearchOptions.
Abbreviation SearchOptions := SearchOptions.t.

Module Source.
Record t : Type := mk { filename : string; score : float; relevantText : string }.
End Source.
Abbreviation Source := Source.t.

Module RAGContext.
Record t : Type := mk {
  contextText : string;
  documentCount : nat;
  averageScore : float;
  sources : list Source;
  hasContext : bool;
}.
End RAGContext.
Abbreviation RAGContext := RAGContext.t.

Module EnhancedSystemPrompt.
Record t : Type := mk {
  prompt : string;
  hasRAGContext : bool;
  contextSummary : string;
  tokenEstimate : nat;
}.
End EnhancedSystemPrompt.
Abbreviation EnhancedSystemPrompt := EnhancedSystemPrompt.t.

Module RequestContext.
Record t : Type := mk {
  userMessage : string;
  systemPrompt : option string;
  ragSettings : gmap string jsval;
  startTime : Z;
  requestId : string;
}.
End RequestContext.
Abbreviation RequestContext := RequestContext.t.

Inductive Stage : Type :=
| autorag | llm | context_building | system_prompt | streaming | validation.

Module ProcessingError.
Record t : Type := mk {
  stage : Stage;
  message : string;
  context : RequestContext;
  recoverable : bool;
  fallbackAction : option string;
}.
End ProcessingError.
Abbreviation ProcessingError := ProcessingError.t.

Module ValidationResult.
Record t : Type := mk {
  valid : bool;
  errors : list string;
  warnings : list string;
  sanitizedInput : option ChatRequest;
}.
End ValidationResult.
Abbreviation ValidationResult := ValidationResult.t.

(** *** Type guards *)

Definition is_role_name (v : jsval) : bool :=
  match v with
  | VStr s => String.eqb s "system" || String.eqb s "user" || String.eqb s "assistant"
  | _ => false
  end.

Definition isChatRequest (obj : jsval) : bool :=
  truthy obj &&
  typeof_object obj &&
  isArray (get obj "messages") &&
  forallb
    (λ msg,
       truthy msg &&
       typeof_string (get msg "role") &&
       is_role_name (get msg "role") &&
       typeof_string (get msg "content"))
    (as_array (get obj "messages")).

Definition isSearchResult (obj : jsval) : bool :=
  truthy obj &&
  typeof_object obj &&
  typeof_string (get obj "file_id") &&
  typeof_string (get obj "filename") &&
  typeof_number (get obj "score") &&
  isArray (get obj "content") &&
  forallb
    (λ content,
       truthy content &&
       typeof_string (get content "type") &&
       typeof_string (get content "text"))
    (as_array (get obj "content")).

(** *** Narrowing

    Once [isChatRequest body] holds, TypeScript reads [body] at type
    [ChatRequest].  The guard says nothing about [systemPrompt], declared
    [string | undefined], and the code reads it at that type.  The typed
    view below holds a string as it is and a value that counts as false as
    absent, which is what the code makes of both ([body.systemPrompt && ...],
    [chatRequest.systemPrompt || ...]).  A value that counts as true and is
    not a string (an array, an object, a number, [true]) is outside the
    view: the code measures and uses such a value itself.  The bodies the
    view covers are those of [Spec.prompt_typed], and the statements that
    depend on it are made of these bodies.  Of a message, [role] and
    [content] are kept. *)

Definition toRole (v : jsval) : Role :=
  match v with
  | VStr s => if String.eqb s "user" then user
              else if String.eqb s "assistant" then assistant
              else system
  | _ => system
  end.

Definition toChatMessage (msg : jsval) : ChatMessage :=
  {| ChatMessage.role := toRole (get msg "role");
     ChatMessage.content := as_string (get msg "content") |}.

Definition toChatRequest (body : jsval) : ChatRequest :=
  {| ChatRequest.messages := map toChatMessage (as_array (get body "messages"));
     ChatRequest.systemPrompt :=
       match get body "systemPrompt" with VStr s => Some s | _ => None end;
     ChatRequest.ragSettings := get body "ragSettings" |}.

(** *** Constants *)

Module DEFAULT_CONFIG.
Definition model : string := "@cf/meta/llama-3.3-70b-instruct-fp8-fast".
Definition autoragIndex : string := "damagescan-rag-1".
Definition defaultSystemPrompt : string :=
  "You are a helpful, friendly assistant. Use the provided context from the knowledge base to enhance your responses when relevant, but you can also draw from your general knowledge. If context is provided, prioritize it but explain clearly when you're using external knowledge vs. the knowledge base. Provide concise and accurate responses.".
Definition maxTokens : Z := 1024.
Definition temperature : float := 0.7%float.
Definition ragSettings : gmap string jsval :=
  {[ "maxResults" := VNum 5%float;
     "scoreThreshold" := VNum 0.1%float;
     "rewriteQuery" := VBool true ]}.
Definition streamingEnabled : bool := true.
Definition errorRetryAttempts : nat := 3.
Definition timeoutMs : Z := 30000.
End DEFAULT_CONFIG.

Module ERROR_MESSAGES.
Definition AUTORAG_UNAVAILABLE : string :=
  "Knowledge base temporarily unavailable. Using general knowledge only.".
Definition LLM_FAILURE : string :=
  "AI model temporarily unavailable. Please try again.".
Definition INVALID_REQUEST : string :=
  "Invalid request format. Please check your input.".
Definition RATE_LIMITED : string :=
  "Too many requests. Please wait a moment before trying again.".
Definition TIMEOUT : string :=
  "Request timed out. Please try again with a shorter message.".
Definition NETWORK_ERROR : string :=
  "Network error occurred. Please check your connection.".
Definition UNKNOWN_ERROR : string :=
  "An unexpected error occurred. Please try again.".
End ERROR_MESSAGES.

End Types.


(** ** [index.ts]: the worker *)

Module Worker.
Import JS Types.

Module CONFIG := Types.DEFAULT_CONFIG.

(** *** Responses and headers

    Header names are case-insensitive: a [Headers] object is a map keyed by
    the lower-cased name.  A value is stored without the HTTP white space
    around it, and a value that holds a NUL, a line feed or a carriage return
    is refused with a [TypeError]. *)

Abbreviation Headers := (gmap string string).

(** HTTP white space: tab, line feed, carriage return and space. *)
Definition http_white (c : ascii) : bool :=
  match c with
  | "009" | "010" | "013" | " " => true
  | _ => false
  end%char.

Fixpoint stripStart (s : string) : string :=
  match s with
  | String c s' => if http_white c then stripStart s' else s
  | EmptyString => EmptyString
  end.

Fixpoint stripEnd (s : string) : string :=
  match s with
  | String c s' =>
      let rest := stripEnd s' in
      if http_white c && String.eqb rest "" then "" else String c rest
  | EmptyString => EmptyString
  end.

(** The value as a [Headers] object stores it. *)
Definition normalize_value (value : string) : string :=
  stripEnd (stripStart value).

(** The code units a header value may not hold. *)
Definition forbidden (c : ascii) : bool :=
  match c with
  | "000" | "010" | "013" => true
  | _ => false
  end%char.

Fixpoint valid_value (value : string) : bool :=
  match value with
  | String c s' => negb (forbidden c) && valid_value s'
  | EmptyString => true
  end.

(** The [TypeError] of a refused value.  Its text is the runtime's; it can
    only reach the [details] of an error response. *)
Definition invalid_header_value : thrown := JSError "Invalid header value".

(** [headers.set(name, value)], for the names of the code, which are literal
    and valid. *)
Definition Headers_set (name value : string) (h : Headers) : result Headers :=
  let value := normalize_value value in
  if valid_value value then Ok (<[toLowerCase name := value]> h)
  else Throw invalid_header_value.

Definition Headers_get (name : string) (h : Headers) : option string :=
  h !! toLowerCase name.

(** [new Headers({ n1: v1, ... })] and the [headers] of a response's
    initialiser, for a table of valid values: the tables of the code are
    literal.  The values are stored as [set] stores them. *)
Definition Headers_of (l : list (string * string)) : Headers :=
  fold_left (λ h nv, <[toLowerCase nv.1 := normalize_value nv.2]> h) l ∅.

(** The body of a response: none, the provider's stream, or the payload of
    [createErrorResponse] (its [error] and what it serialises as [details]:
    the processing error and, after a failed fallback, the fallback's
    message; the time stamp is left out). *)
Inductive Body : Type :=
| NoBody
| Stream (chunks : list string)
| ErrorJson (error : string) (details : option (ProcessingError * option string)).

Module Response.
Record t : Type := mk {
  status : Z;
  statusText : string;
  headers : Headers;
  body : Body;
}.
Definition ok (r : t) : bool := (200 <=? status r) && (status r <=? 299).
End Response.
Abbreviation Response := Response.t.

(** *** The environment

    [env.AI.autorag(index).search(opts)] is called at most once per request;
    [env.AI.run(model, opts, ...)] up to twice, and its answer may differ from
    one call to the next, so the binding is given the number of earlier calls.
    A run keeps the log of the [env.AI.run] calls made, oldest first, each
    with the options sent and the outcome. *)

Module RunOptions.
Record t : Type := mk {
  messages : list ChatMessage;
  max_tokens : Z;
  temperature : float;
  stream : bool;
}.
End RunOptions.
Abbreviation RunOptions := RunOptions.t.

Record Env : Type := {
  autorag_search : jsval → SearchOptions → result jsval;
  AI_run : nat → string → RunOptions → result Response;
}.

Definition Log : Type := list (RunOptions * result Response).

Abbreviation M := (Eff Log).

(** [await env.AI.run(model, options, { returnRawResponse: true })] *)
Definition run (env : Env) (model : string) (options : RunOptions) : M Response :=
  λ log, let outcome := AI_run env (length log) model options in
         (outcome, log ++ [(options, outcome)]).

(** *** Utility functions *)

(** [a || b] on strings *)
Definition or_else (a b : string) : string :=
  if String.eqb a "" then b else a.

(** [s || dflt] where [s] may be [undefined] *)
Definition or_default (s : option string) (dflt : string) : string :=
  match s with
  | Some a => or_else a dflt
  | None => dflt
  end.

Definition is_user (msg : ChatMessage) : bool :=
  Role_eqb (ChatMessage.role msg) user.

Definition not_system (msg : ChatMessage) : bool :=
  negb (Role_eqb (ChatMessage.role msg) system).

Definition getUserMessage (messages : list ChatMessage) : string :=
  let userMessages := List.filter is_user messages in
  match last userMessages with
  | Some msg => or_else (ChatMessage.content msg) ""
  | None => ""
  end.

(** [Math.ceil(text.length / 4)] *)
Definition estimateTokens (text : string) : nat :=
  ((String.length text + 3) / 4)%nat.

Definition addCORSHeaders (headers : Headers) : result Headers :=
  headers ← Headers_set "Access-Control-Allow-Origin" "*" headers;
  headers ← Headers_set "Access-Control-Allow-Methods" "GET, POST, OPTIONS" headers;
  Headers_set "Access-Control-Allow-Headers" "Content-Type" headers.

Definition createCORSResponse : Response :=
  {| Response.status := 200;
     Response.statusText := "";
     Response.headers :=
       Headers_of [("Access-Control-Allow-Origin", "*");
                   ("Access-Control-Allow-Methods", "GET, POST, OPTIONS");
                   ("Access-Control-Allow-Headers", "Content-Type")];
     Response.body := NoBody |}.

Definition createErrorResponse (message : string) (status : Z)
    (details : option (ProcessingError * option string)) : result Response :=
  headers ← addCORSHeaders (Headers_of [("Content-Type", "application/json")]);
  Ok {| Response.status := status;
        Response.statusText := "";
        Response.headers := headers;
        Response.body := ErrorJson message details |}.

(** *** Validation

    The rules are those of the source, in its order, on the typed view of
    the body; for the rule on [systemPrompt] this is the source's on the
    bodies of [Spec.prompt_typed]. *)

Definition validateChatRequest (body : jsval) : ValidationResult :=
  if negb (isChatRequest body) then
    {| ValidationResult.valid := false;
       ValidationResult.errors := ["Invalid request structure"];
       ValidationResult.warnings := [];
       ValidationResult.sanitizedInput := None |}
  else
    let body := toChatRequest body in
    let messages := ChatRequest.messages body in
    let errors : list string := [] in
    let errors :=
      if (length messages =? 0)%nat
      then errors ++ ["At least one message is required"] else errors in
    let hasUserMessage := existsb is_user messages in
    let errors :=
      if negb hasUserMessage
      then errors ++ ["At least one user message is required"] else errors in
    let errors :=
      match ChatRequest.systemPrompt body with
      | Some systemPrompt =>
          if negb (String.eqb systemPrompt "") &&
             (10000 <? Z.of_nat (String.length systemPrompt))
          then errors ++ ["System prompt too long (max 10000 characters)"]
          else errors
      | None => errors
      end in
    let errors :=
      fold_left
        (λ errors msg,
           if 50000 <? Z.of_nat (String.length (ChatMessage.content msg))
           then errors ++ ["Message content too long (max 50000 characters)"]
           else errors)
        messages errors in
    {| ValidationResult.valid := (length errors =? 0)%nat;
       ValidationResult.errors := errors;
       ValidationResult.warnings := [];
       ValidationResult.sanitizedInput :=
         if (length errors =? 0)%nat then Some body else None |}.

(** *** Retrieval *)

Definition createEmptyRAGContext : RAGContext :=
  {| RAGContext.contextText := "";
     RAGContext.documentCount := 0;
     RAGContext.averageScore := 0%float;
     RAGContext.sources := [];
     RAGContext.hasContext := false |}.

(** [content.type === "text"] *)
Definition is_text (content : jsval) : bool :=
  match get content "type" with
  | VStr s => String.eqb s "text"
  | _ => false
  end.

(** The text of a document that passed [isSearchResult]. *)
Definition textContent (doc : jsval) : string :=
  trim (join nl
          (map (λ content, as_string (get content "text"))
               (List.filter is_text (as_array (get doc "content"))))).

(** The three variables the [forEach] callback of [buildRAGContext] updates. *)
Record Collected : Type := {
  contextParts : list string;
  sources : list Source;
  totalScore : float;
}.

(** One call of the [forEach] callback, on [doc] at position [index]. *)
Definition visit (acc : Collected) (index : nat) (doc : jsval) : Collected :=
  if negb (isSearchResult doc) then acc
  else
    let filename := as_string (get doc "filename") in
    let score := as_number (get doc "score") in
    let textContent := textContent doc in
    if truthy (VStr textContent) then
      let contextEntry :=
        "[Document " +:+ pretty (index + 1)%nat +:+ ": " +:+ filename +:+
        " (Relevance: " +:+ toFixed 2 score +:+ ")]" +:+ nl +:+ textContent in
      {| contextParts := contextParts acc ++ [contextEntry];
         sources := sources acc ++
           [{| Source.filename := filename;
               Source.score := score;
               Source.relevantText :=
                 substring_to 200 textContent +:+
                 (if (200 <? String.length textContent)%nat then "..." else "") |}];
         totalScore := (totalScore acc + score)%float |}
    else acc.

Fixpoint forEach (documents : list jsval) (index : nat) (acc : Collected) : Collected :=
  match documents with
  | [] => acc
  | doc :: rest => forEach rest (S index) (visit acc index doc)
  end.

(** [v.length === 0] *)
Definition length_is_zero (v : jsval) : bool :=
  match v with
  | VArr l => (length l =? 0)%nat
  | VStr s => (String.length s =? 0)%nat
  | VObj o => match o !! "length" with
              | Some (VNum x) => PrimFloat.eqb x 0%float
              | _ => false
              end
  | _ => false
  end.

Definition buildRAGContext (searchResult : jsval) : result RAGContext :=
  documents ← get_throw searchResult "data";
  if negb (truthy documents) || length_is_zero documents then
    Ok createEmptyRAGContext
  else
    match documents with
    | VArr documents =>
        let acc :=
          forEach documents 0%nat
            {| contextParts := []; sources := []; totalScore := 0%float |} in
        let contextText := join (nl +:+ nl) (contextParts acc) in
        let averageScore :=
          if (0 <? length documents)%nat
          then (totalScore acc / of_nat (length documents))%float
          else 0%float in
        Ok {| RAGContext.contextText := contextText;
              RAGContext.documentCount := length documents;
              RAGContext.averageScore := averageScore;
              RAGContext.sources := sources acc;
              RAGContext.hasContext := (0 <? String.length contextText)%nat |}
    | _ => Throw (JSError "documents.forEach is not a function")
    end.

Definition searchAutoRAG (query : string) (ragSettings : jsval) (env : Env)
  : result RAGContext :=
  try_catch
    (maxResults ← get_throw ragSettings "maxResults";
     scoreThreshold ← get_throw ragSettings "scoreThreshold";
     rewriteQuery ← get_throw ragSettings "rewriteQuery";
     let searchOptions :=
       {| SearchOptions.query := query;
          SearchOptions.max_num_results := maxResults;
          SearchOptions.score_threshold := scoreThreshold;
          SearchOptions.rewrite_query := rewriteQuery |} in
     index ← get_throw ragSettings "index";
     searchResult ← autorag_search env index searchOptions;
     if negb (truthy searchResult) ||
        negb (truthy (get searchResult "data")) ||
        negb (isArray (get searchResult "data"))
     then Ok createEmptyRAGContext
     else buildRAGContext searchResult)
    (λ error, Ok createEmptyRAGContext).

(** *** Prompt building *)

Definition buildEnhancedSystemPrompt (basePrompt : string) (ragContext : RAGContext)
    (includeInstructions : bool) : EnhancedSystemPrompt :=
  if negb (RAGContext.hasContext ragContext) then
    {| EnhancedSystemPrompt.prompt := basePrompt;
       EnhancedSystemPrompt.hasRAGContext := false;
       EnhancedSystemPrompt.contextSummary := "No relevant documents found in knowledge base";
       EnhancedSystemPrompt.tokenEstimate := estimateTokens basePrompt |}
  else
    let contextSummary :=
      "Found " +:+ pretty (RAGContext.documentCount ragContext) +:+
      " relevant documents (avg. relevance: " +:+
      toFixed 2 (RAGContext.averageScore ragContext) +:+ ")" in
    let enhancedPrompt :=
      basePrompt +:+ nl +:+
      nl +:+
      "KNOWLEDGE BASE CONTEXT:" +:+ nl +:+
      "You have access to relevant information from the knowledge base. " +:+
        contextSummary +:+ ":" +:+ nl +:+
      nl +:+
      RAGContext.contextText ragContext +:+ nl +:+
      nl +:+
      "INSTRUCTIONS:" +:+ nl +:+
      "- When the knowledge base context is relevant to the user's question, prioritize this information" +:+ nl +:+
      "- Reference specific documents when using knowledge base information (e.g., " +:+ dquote +:+ "according to [Document 1: filename]" +:+ dquote +:+ ")" +:+ nl +:+
      "- If the knowledge base doesn't contain relevant information for the question, rely on your general knowledge" +:+ nl +:+
      "- Be clear about when you're using knowledge base information vs. general knowledge" +:+ nl +:+
      "- Provide accurate and helpful responses based on the best available information" in
    {| EnhancedSystemPrompt.prompt := enhancedPrompt;
       EnhancedSystemPrompt.hasRAGContext := true;
       EnhancedSystemPrompt.contextSummary := contextSummary;
       EnhancedSystemPrompt.tokenEstimate := estimateTokens enhancedPrompt |}.

(** *** Generation and fallback *)

Definition runOptions (messages : list ChatMessage) : RunOptions :=
  {| RunOptions.messages := messages;
     RunOptions.max_tokens := CONFIG.maxTokens;
     RunOptions.temperature := CONFIG.temperature;
     RunOptions.stream := true |}.

Definition generateLLMResponse (messages : list ChatMessage) (context : RequestContext)
    (env : Env) : M Response :=
  try_catchM
    (response ← run env CONFIG.model (runOptions messages);
     if negb (Response.ok response) then
       throw (JSError ("LLM API error: " +:+ pretty (Response.status response) +:+
                       " " +:+ Response.statusText response))
     else
       ret {| Response.status := Response.status response;
              Response.statusText := "";
              Response.headers :=
                Headers_of [("Content-Type", "text/event-stream");
                            ("Cache-Control", "no-cache");
                            ("Connection", "keep-alive");
                            ("Access-Control-Allow-Origin", "*");
                            ("Access-Control-Allow-Methods", "GET, POST, OPTIONS");
                            ("Access-Control-Allow-Headers", "Content-Type")];
              Response.body := Response.body response |})
    (λ error, throw error).

(** The messages of the fallback call: the basic system prompt, without
    retrieval context. *)
Definition fallbackMessages (chatRequest : ChatRequest) (error : ProcessingError)
  : list ChatMessage :=
  {| ChatMessage.role := system;
     ChatMessage.content :=
       or_default (RequestContext.systemPrompt (ProcessingError.context error))
                  CONFIG.defaultSystemPrompt |}
  :: List.filter not_system (ChatRequest.messages chatRequest).

Definition handlePipelineFailure (chatRequest : ChatRequest) (error : ProcessingError)
    (env : Env) : M Response :=
  try_catchM
    (fallbackResponse ← run env CONFIG.model (runOptions (fallbackMessages chatRequest error));
     if negb (Response.ok fallbackResponse) then
       throw (JSError ("Fallback LLM also failed: " +:+
                       pretty (Response.status fallbackResponse)))
     else
       let headers := Response.headers fallbackResponse in
       headers ← lift (Headers_set "X-Fallback-Used" "true" headers);
       headers ← lift (Headers_set "X-Original-Error" (ProcessingError.message error) headers);
       headers ←
         lift (Headers_set "X-Request-ID"
                 (RequestContext.requestId (ProcessingError.context error)) headers);
       headers ← lift (addCORSHeaders headers);
       ret {| Response.status := Response.status fallbackResponse;
              Response.statusText := "";
              Response.headers := headers;
              Response.body := Response.body fallbackResponse |})
    (λ fallbackError,
       lift (createErrorResponse ERROR_MESSAGES.LLM_FAILURE 503
               (Some (error, Some (message_or "Unknown fallback error" fallbackError))))).

(** The messages of the primary call: the enhanced system prompt, then the
    client's messages without its system messages. *)
Definition enhancedMessages (chatRequest : ChatRequest) (enhancedPrompt : EnhancedSystemPrompt)
  : list ChatMessage :=
  {| ChatMessage.role := system;
     ChatMessage.content := EnhancedSystemPrompt.prompt enhancedPrompt |}
  :: List.filter not_system (ChatRequest.messages chatRequest).

(** [now] is the reading of [Date.now()] when the headers are written. *)
Definition processAutoRAGPipeline (chatRequest : ChatRequest) (context : RequestContext)
    (env : Env) (now : Z) : M Response :=
  let requestId := RequestContext.requestId context in
  try_catchM
    (ragContext ←
       lift (searchAutoRAG (RequestContext.userMessage context)
               (VObj (RequestContext.ragSettings context)) env);
     let enhancedPrompt :=
       buildEnhancedSystemPrompt
         (or_default (RequestContext.systemPrompt context) CONFIG.defaultSystemPrompt)
         ragContext true in
     response ← generateLLMResponse (enhancedMessages chatRequest enhancedPrompt) context env;
     let headers := Response.headers response in
     headers ←
       lift (Headers_set "X-Processing-Time"
               (pretty (now - RequestContext.startTime context) +:+ "ms") headers);
     headers ←
       lift (Headers_set "X-RAG-Documents"
               (pretty (RAGContext.documentCount ragContext)) headers);
     headers ←
       lift (Headers_set "X-RAG-Average-Score"
               (toFixed 3 (RAGContext.averageScore ragContext)) headers);
     headers ← lift (Headers_set "X-Request-ID" requestId headers);
     ret {| Response.status := Response.status response;
            Response.statusText := Response.statusText response;
            Response.headers := headers;
            Response.body := Response.body response |})
    (λ error,
       let processingError :=
         {| ProcessingError.stage := llm;
            ProcessingError.message := message_or "Pipeline processing failed" error;
            ProcessingError.context := context;
            ProcessingError.recoverable := true;
            ProcessingError.fallbackAction :=
              Some "Use general knowledge without RAG context" |} in
       handlePipelineFailure chatRequest processingError env).

(** *** The chat endpoint *)

(** The [RequestContext] that [handleChatRequest] builds for a validated
    request. *)
Definition requestContext (chatRequest : ChatRequest) (startTime : Z) (requestId : string)
  : RequestContext :=
  {| RequestContext.userMessage := getUserMessage (ChatRequest.messages chatRequest);
     RequestContext.systemPrompt := ChatRequest.systemPrompt chatRequest;
     RequestContext.ragSettings :=
       <["index" := VStr CONFIG.autoragIndex]>
         (spread (ChatRequest.ragSettings chatRequest) ∪ CONFIG.ragSettings);
     RequestContext.startTime := startTime;
     RequestContext.requestId := requestId |}.

(** [body] is the outcome of [await request.json()]. *)
Definition handleChatRequest (body : result jsval) (env : Env)
    (startTime now : Z) (requestId : string) : M Response :=
  let internal_error (message : string) : result Response :=
    createErrorResponse "Internal server error occurred" 500
      (Some ({| ProcessingError.stage := validation;
                ProcessingError.message := message;
                ProcessingError.context :=
                  {| RequestContext.userMessage := "Unknown";
                     RequestContext.systemPrompt := None;
                     RequestContext.ragSettings := CONFIG.ragSettings;
                     RequestContext.startTime := startTime;
                     RequestContext.requestId := requestId |};
                ProcessingError.recoverable := false;
                ProcessingError.fallbackAction := None |}, None)) in
  try_catchM
    (body ← lift body;
     let validation := validateChatRequest body in
     if negb (ValidationResult.valid validation) then
       lift (createErrorResponse
               ("Invalid request: " +:+ join ", " (ValidationResult.errors validation))
               400 None)
     else
       match ValidationResult.sanitizedInput validation with
       | Some chatRequest =>
           processAutoRAGPipeline chatRequest
             (requestContext chatRequest startTime requestId) env now
       | None => throw (JSError "Cannot read properties of undefined")
       end)
    (λ error, lift (internal_error (message_or "Unknown error" error))).

End Worker.


(** ** The browser script: stream consumer and retry controller

    The page is a state: the input fields, the three module-level variables
    [isProcessing], [messageIdCounter] and [retryAttempts], the chat history,
    the message elements of the chat, the pending [setTimeout] callbacks and
    the request bodies handed to [fetch] so far.  A message element is
    recorded as its role and the string the script wrote as its content:
    [addMessageToChat] writes it as markup ([innerHTML]), the stream
    consumer as text ([textContent]); what the browser renders from markup
    is not modelled.  Time stamps are left out of messages and bodies; the
    status indicator and the metadata panel are rendering only and are left
    out too. *)

Module Client.
Import JS Types.

Module CONFIG := Types.DEFAULT_CONFIG.

Definition maxRetryAttempts : nat := 3.

Module RequestBody.
Record t : Type := mk {
  messages : list ChatMessage;
  systemPrompt : option string;
  ragSettings : gmap string jsval;
}.
End RequestBody.
Abbreviation RequestBody := RequestBody.t.

(** How the body of a response ends: [reader.read()] reports [done], or it
    rejects. *)
Inductive StreamEnd : Type :=
| Done
| ReadFailed (e : thrown).

Module HttpResponse.
Record t : Type := mk {
  status : Z;
  statusText : string;
  chunks : list string;
  ending : StreamEnd;
}.
Definition ok (r : t) : bool := (200 <=? status r) && (status r <=? 299).
End HttpResponse.
Abbreviation HttpResponse := HttpResponse.t.

(** The callbacks the script passes to [setTimeout]. *)
Inductive Callback : Type :=
| ShowRetrying
| Resend.

Record State : Type := mkState {
  userInput : string;
  systemPromptInput : string;
  isProcessing : bool;
  messageIdCounter : nat;
  retryAttempts : nat;
  chatHistory : list ChatMessage;
  chatMessages : list (string * string);
  timers : list (Z * Callback);
  requests : list RequestBody;
}.

Definition set_userInput (v : string) (st : State) : State :=
  mkState v (systemPromptInput st) (isProcessing st) (messageIdCounter st)
    (retryAttempts st) (chatHistory st) (chatMessages st) (timers st) (requests st).

Definition set_isProcessing (v : bool) (st : State) : State :=
  mkState (userInput st) (systemPromptInput st) v (messageIdCounter st)
    (retryAttempts st) (chatHistory st) (chatMessages st) (timers st) (requests st).

Definition set_messageIdCounter (v : nat) (st : State) : State :=
  mkState (userInput st) (systemPromptInput st) (isProcessing st) v
    (retryAttempts st) (chatHistory st) (chatMessages st) (timers st) (requests st).

Definition set_retryAttempts (v : nat) (st : State) : State :=
  mkState (userInput st) (systemPromptInput st) (isProcessing st) (messageIdCounter st)
    v (chatHistory st) (chatMessages st) (timers st) (requests st).

Definition set_chatHistory (v : list ChatMessage) (st : State) : State :=
  mkState (userInput st) (systemPromptInput st) (isProcessing st) (messageIdCounter st)
    (retryAttempts st) v (chatMessages st) (timers st) (requests st).

Definition set_chatMessages (v : list (string * string)) (st : State) : State :=
  mkState (userInput st) (systemPromptInput st) (isProcessing st) (messageIdCounter st)
    (retryAttempts st) (chatHistory st) v (timers st) (requests st).

Definition set_timers (v : list (Z * Callback)) (st : State) : State :=
  mkState (userInput st) (systemPromptInput st) (isProcessing st) (messageIdCounter st)
    (retryAttempts st) (chatHistory st) (chatMessages st) v (requests st).

Definition set_requests (v : list RequestBody) (st : State) : State :=
  mkState (userInput st) (systemPromptInput st) (isProcessing st) (messageIdCounter st)
    (retryAttempts st) (chatHistory st) (chatMessages st) (timers st) v.

Abbreviation C := (Eff State).

(** *** UI state and utilities *)

Definition setProcessingState (processing : bool) : C unit :=
  modify (set_isProcessing processing).

(** [++messageIdCounter]; the identifier is the counter's new value. *)
Definition generateMessageId : C nat :=
  λ st, let n := S (messageIdCounter st) in (Ok n, set_messageIdCounter n st).

Definition role_name (role : Role) : string :=
  match role with
  | system => "system"
  | user => "user"
  | assistant => "assistant"
  end.

(** [messageEl.innerHTML = `... ${content} ...`]: the element records
    [content] as the markup written into it, not as the text a reader
    sees. *)
Definition addMessageToChat (role : Role) (content : string) : C unit :=
  modify (λ st, set_chatMessages (chatMessages st ++ [(role_name role, content)]) st).

(** The new element's position among the message elements; its content
    is empty. *)
Definition createAssistantMessageElement (messageId : nat) : C nat :=
  λ st, (Ok (length (chatMessages st)),
         set_chatMessages (chatMessages st ++ [(role_name assistant, "")]) st).

(** [contentEl.textContent = text] *)
Definition set_textContent (messageElement : nat) (text : string) : C unit :=
  modify (λ st,
    set_chatMessages (<[messageElement := (role_name assistant, text)]> (chatMessages st)) st).

Definition setTimeout (callback : Callback) (delay : Z) : C unit :=
  modify (λ st, set_timers (timers st ++ [(delay, callback)]) st).

Section Runtime.

(** [JSON.parse], which throws a [SyntaxError] on malformed text, and the
    conversion of a value to a string by [+=]. *)
Variable JSON_parse : string → result jsval.
Variable ToString : jsval → string.

(** The network: the outcome of the [n]-th call of [fetch("/api/chat", ...)]. *)
Variable fetch : nat → RequestBody → result HttpResponse.

(** *** The stream consumer *)

(** [responseText += value] *)
Definition append_value (responseText : string) (value : jsval) : string :=
  responseText +:+ match value with VStr s => s | _ => ToString value end.

(** The body of the loop over the lines of a chunk: the text fragment the
    line contributes to the response, if any. *)
Definition line_fragment (line : string) : option string :=
  if String.eqb (trim line) "" || startsWith line ":" then None
  else
    let parsed : option (result jsval) :=
      if startsWith line "data: " then Some (JSON_parse (substring_from 6 line))
      else if negb (String.eqb (trim line) "") then Some (JSON_parse line)
      else None in
    match parsed with
    | None => None
    | Some parsed =>
        match jsonData ← parsed; get_throw jsonData "response" with
        | Ok response =>
            if truthy response then Some (append_value "" response) else None
        | Throw parseError =>
            if negb (String.eqb (trim line) "") &&
               negb (startsWith line "data:") &&
               negb (startsWith line ":")
            then Some line else None
        end
    end.

(** The loop over the lines of one chunk, on [(responseText, hasContent)]. *)
Definition process_chunk (messageElement : nat) (chunk : string)
    (acc : string * bool) : C (string * bool) :=
  foldl
    (λ (m : C (string * bool)) line,
       acc ← m;
       match line_fragment line with
       | Some fragment =>
           let responseText := acc.1 +:+ fragment in
           _ ← set_textContent messageElement responseText;
           ret (responseText, true)
       | None => ret acc
       end)
    (ret acc) (split_lines chunk).

(** The [while (true)] loop over [reader.read()]. *)
Fixpoint read_loop (messageElement : nat) (chunks : list string) (ending : StreamEnd)
    (acc : string * bool) : C (string * bool) :=
  match chunks with
  | chunk :: rest =>
      acc ← process_chunk messageElement chunk acc;
      read_loop messageElement rest ending acc
  | [] =>
      match ending with
      | Done => ret acc
      | ReadFailed e => throw e
      end
  end.

Definition processStreamingResponse (response : HttpResponse) (messageElement : nat)
    (messageId : nat) : C unit :=
  try_catchM
    (acc ← read_loop messageElement (HttpResponse.chunks response)
             (HttpResponse.ending response) ("", false);
     let responseText := acc.1 in
     let hasContent := acc.2 in
     _ ← (if negb (String.eqb responseText "") then
            modify (λ st,
              set_chatHistory
                (chatHistory st ++
                 [{| ChatMessage.role := assistant; ChatMessage.content := responseText |}])
                st)
          else ret tt);
     if negb hasContent then throw (JSError "No response content received")
     else ret tt)
    (λ streamError, throw streamError).

(** *** Sending *)

Definition sendChatRequest : C HttpResponse :=
  λ st,
    let customSystemPrompt := trim (systemPromptInput st) in
    let requestBody :=
      {| RequestBody.messages := chatHistory st;
         RequestBody.systemPrompt :=
           if String.eqb customSystemPrompt "" then None else Some customSystemPrompt;
         RequestBody.ragSettings :=
           <["index" := VStr CONFIG.autoragIndex]> CONFIG.ragSettings |} in
    (fetch (length (requests st)) requestBody,
     set_requests (requests st ++ [requestBody]) st).

(** *** The retry controller *)

(** [error.message.includes(pattern)] *)
Definition message_includes (error : thrown) (pattern : string) : result bool :=
  match error with
  | JSError message => Ok (includes message pattern)
  | ThrownValue v =>
      message ← get_throw v "message";
      match message with
      | VStr s => Ok (includes s pattern)
      | VArr l =>
          Ok (existsb (λ x, match x with VStr s => String.eqb s pattern | _ => false end) l)
      | _ => Throw (JSError "error.message.includes is not a function")
      end
  end.

(** The chain of tests on the error's message: the text to show and whether
    to retry. *)
Definition classify (error : thrown) : result (string * bool) :=
  http503 ← message_includes error "HTTP 503";
  http502 ← message_includes error "HTTP 502";
  http429 ← message_includes error "HTTP 429";
  networkError ← message_includes error "NetworkError";
  failedToFetch ← message_includes error "Failed to fetch";
  timeout ← message_includes error "timeout";
  Ok (if (http503 : bool) || (http502 : bool) then (ERROR_MESSAGES.LLM_FAILURE, true)
      else if (http429 : bool) then (ERROR_MESSAGES.RATE_LIMITED, true)
      else if (networkError : bool) || (failedToFetch : bool)
           then (ERROR_MESSAGES.NETWORK_ERROR, true)
      else if (timeout : bool) then (ERROR_MESSAGES.TIMEOUT, false)
      else (ERROR_MESSAGES.UNKNOWN_ERROR, false)).

Definition handleChatError (error : thrown) (messageId : nat) : C unit :=
  verdict ← lift (classify error);
  let errorMessage := verdict.1 in
  let shouldRetry := verdict.2 in
  _ ← generateMessageId;
  _ ← addMessageToChat assistant errorMessage;
  attempts ← gets retryAttempts;
  if shouldRetry && (attempts <? maxRetryAttempts)%nat then
    _ ← modify (set_retryAttempts (S attempts));
    _ ← setTimeout ShowRetrying 1000;
    setTimeout Resend (2000 * Z.of_nat (S attempts))
  else
    modify (set_retryAttempts 0%nat).

Definition sendMessage : C unit :=
  message ← gets (λ st, trim (userInput st));
  processing ← gets isProcessing;
  if String.eqb message "" || processing then ret tt
  else
    _ ← setProcessingState true;
    messageId ← generateMessageId;
    _ ← addMessageToChat user message;
    _ ← modify (set_userInput "");
    _ ← modify (λ st,
          set_chatHistory
            (chatHistory st ++
             [{| ChatMessage.role := user; ChatMessage.content := message |}]) st);
    try_finally
      (try_catchM
         (assistantMessageId ← generateMessageId;
          assistantMessageEl ← createAssistantMessageElement assistantMessageId;
          response ← sendChatRequest;
          _ ← (if negb (HttpResponse.ok response) then
                 throw (JSError ("HTTP " +:+ pretty (HttpResponse.status response) +:+
                                 ": " +:+ HttpResponse.statusText response))
               else ret tt);
          _ ← processStreamingResponse response assistantMessageEl assistantMessageId;
          modify (set_retryAttempts 0%nat))
         (λ error, handleChatError error messageId))
      (setProcessingState false).

(** Running a pending [setTimeout] callback. *)
Definition fire (callback : Callback) : C unit :=
  match callback with
  | ShowRetrying =>
      attempts ← gets retryAttempts;
      _ ← generateMessageId;
      addMessageToChat assistant
        ("Retrying... (attempt " +:+ pretty attempts +:+ " of " +:+
         pretty maxRetryAttempts +:+ ")")
  | Resend => sendMessage
  end.

End Runtime.

End Client.


(** ** [index.ts]: the entry point *)

Module Router.
Import JS Types Worker.

(** What the handler reads of a request: the method, the path of its URL
    and the outcome of [await request.json()]. *)
Record Request : Type := {
  method : string;
  pathname : string;
  json : result jsval;
}.

(** [ASSETS_fetch] is the binding [env.ASSETS.fetch]. *)
Definition fetch (request : Request) (ASSETS_fetch : Request → result Response)
    (env : Env) (startTime now : Z) (requestId : string) : M Response :=
  if String.eqb (method request) "OPTIONS" then ret createCORSResponse
  else if String.eqb (pathname request) "/" ||
          negb (startsWith (pathname request) "/api/")
  then lift (ASSETS_fetch request)
  else if String.eqb (pathname request) "/api/chat" then
    if String.eqb (method request) "POST"
    then handleChatRequest (json request) env startTime now requestId
    else lift (createErrorResponse "Method not allowed" 405 None)
  else lift (createErrorResponse "Not found" 404 None).

End Router.


(** ** Vocabulary of the statements

    Names for what the properties below talk about.  The embedding above
    uses none of them. *)

Module Spec.
Import JS Types.

(** A message whose content is over the 50000-character limit. *)
Definition oversized (msg : ChatMessage) : bool :=
  50000 <? Z.of_nat (String.length (ChatMessage.content msg)).

(** A system prompt over the 10000-character limit. *)
Definition prompt_oversized (systemPrompt : option string) : bool :=
  match systemPrompt with
  | Some prompt => 10000 <? Z.of_nat (String.length prompt)
  | None => false
  end.

(** No element of [messages] carries the role ["user"]. *)
Definition lacks_user_role (messages : list jsval) : bool :=
  forallb
    (λ msg, match get msg "role" with
            | VStr role => negb (String.eqb role "user")
            | _ => true
            end)
    messages.

(** The search call as [searchAutoRAG] issues it: reading the settings
    throws when they are [null] or [undefined]; otherwise the binding
    answers. *)
Definition search_call (query : string) (ragSettings : jsval) (env : Worker.Env)
  : result jsval :=
  match ragSettings with
  | VUndef | VNull => Throw (JSError "Cannot read properties of null or undefined")
  | _ =>
      Worker.autorag_search env (get ragSettings "index")
        {| SearchOptions.query := query;
           SearchOptions.max_num_results := get ragSettings "maxResults";
           SearchOptions.score_threshold := get ragSettings "scoreThreshold";
           SearchOptions.rewrite_query := get ragSettings "rewriteQuery" |}
  end.

(** A search response with the structure [searchAutoRAG] asks for. *)
Definition well_formed (searchResult : jsval) : bool :=
  truthy searchResult &&
  truthy (get searchResult "data") &&
  isArray (get searchResult "data").

(** A document that is shape-valid and whose extracted text is not empty. *)
Definition has_text (doc : jsval) : bool :=
  isSearchResult doc && negb (String.eqb (Worker.textContent doc) "").

Definition score_of (doc : jsval) : float := as_number (get doc "score").

(** The scores of [documents] added up from the left, as a loop does. *)
Definition sum_scores (documents : list jsval) : float :=
  fold_left (λ total doc, (total + score_of doc)%float) documents 0%float.

(** The base system prompt of a request: the client's, or the default one
    when the client sent none or an empty one. *)
Definition base_prompt (context : RequestContext) : string :=
  Worker.or_default (RequestContext.systemPrompt context)
    Worker.CONFIG.defaultSystemPrompt.

(** An outcome of [env.AI.run] that counts as a failure of the call: it
    threw, or it answered with a status outside 200-299. *)
Definition failed (outcome : result Worker.Response) : bool :=
  match outcome with
  | Ok response => negb (Worker.Response.ok response)
  | Throw _ => true
  end.

(** The message of a failed primary call, as the pipeline records it. *)
Definition failure_message (outcome : result Worker.Response) : string :=
  match outcome with
  | Ok response =>
      "LLM API error: " +:+ pretty (Worker.Response.status response) +:+
      " " +:+ Worker.Response.statusText response
  | Throw e => message_or "Pipeline processing failed" e
  end.

(** No line of [chunks] contributes a text fragment. *)
Definition no_fragment (JSON_parse : string → result jsval) (ToString : jsval → string)
    (chunks : list string) : bool :=
  forallb
    (λ chunk,
       forallb
         (λ line, match Client.line_fragment JSON_parse ToString line with
                  | Some _ => false
                  | None => true
                  end)
         (split_lines chunk))
    chunks.

(** The page can send: there is text in the input and no exchange is in
    flight. *)
Definition can_send (st : Client.State) : bool :=
  negb (String.eqb (trim (Client.userInput st)) "") && negb (Client.isProcessing st).

(** The file name of a document that passed [isSearchResult]. *)
Definition filename_of (doc : jsval) : string := as_string (get doc "filename").

(** The lines of all chunks, in the order they are read. *)
Definition lines_of (chunks : list string) : list string :=
  flat_map split_lines chunks.

(** The text fragments the lines of [chunks] contribute, in order. *)
Definition fragments (JSON_parse : string → result jsval) (ToString : jsval → string)
    (chunks : list string) : list string :=
  omap (Client.line_fragment JSON_parse ToString) (lines_of chunks).

(** The fragments put together. *)
Definition text_of (fragments : list string) : string :=
  fold_left String.append fragments "".

(** The excerpt of a text kept with a source: the text itself up to 200
    characters, its first 200 characters and an ellipsis beyond. *)
Definition excerpt (text : string) : string :=
  if (200 <? String.length text)%nat then substring_to 200 text +:+ "..." else text.

(** The source kept for a document with text. *)
Definition source_of (doc : jsval) : Source :=
  {| Source.filename := as_string (get doc "filename");
     Source.score := as_number (get doc "score");
     Source.relevantText := excerpt (Worker.textContent doc) |}.

(** The search gave nothing usable: the call threw, or its answer is not
    well formed. *)
Definition search_failed (outcome : result jsval) : bool :=
  match outcome with
  | Ok searchResult => negb (well_formed searchResult)
  | Throw _ => true
  end.

(** The worker answers the request itself instead of handing it to the
    static assets. *)
Definition answered_by_worker (request : Router.Request) : bool :=
  String.eqb (Router.method request) "OPTIONS" ||
  negb (String.eqb (Router.pathname request) "/" ||
        negb (startsWith (Router.pathname request) "/api/")).

(** The response is one the worker made itself, with its CORS headers. *)
Definition allows_any_origin (response : Worker.Response) : bool :=
  match Worker.Headers_get "Access-Control-Allow-Origin" (Worker.Response.headers response) with
  | Some origin => String.eqb origin "*"
  | None => false
  end.

(** The page once element [messageElement] holds, as text, what was put
    together from [fragments]; nothing is written when there is no
    fragment. *)
Definition displayed (messageElement : nat) (fragments : list string) (text : string)
    (st : Client.State) : Client.State :=
  if (0 <? length fragments)%nat then
    Client.set_chatMessages
      (<[messageElement := ("assistant", text)]> (Client.chatMessages st)) st
  else st.

(** The page once the answer [text] is in the history; an empty answer is
    not recorded. *)
Definition recorded (text : string) (st : Client.State) : Client.State :=
  if String.eqb text "" then st
  else
    Client.set_chatHistory
      (Client.chatHistory st ++
       [{| ChatMessage.role := assistant; ChatMessage.content := text |}]) st.

(** The message a send takes from the input field. *)
Definition message_of (st : Client.State) : string := trim (Client.userInput st).

(** The request a send issues from the page [st]. *)
Definition request_of (st : Client.State) : Client.RequestBody :=
  {| Client.RequestBody.messages :=
       Client.chatHistory st ++
       [{| ChatMessage.role := user; ChatMessage.content := message_of st |}];
     Client.RequestBody.systemPrompt :=
       if String.eqb (trim (Client.systemPromptInput st)) "" then None
       else Some (trim (Client.systemPromptInput st));
     Client.RequestBody.ragSettings :=
       <["index" := VStr Client.CONFIG.autoragIndex]> Client.CONFIG.ragSettings |}.

(** The page at the moment the request has left it: locked, the input field
    cleared, the user's message in the history and written as the markup
    of a new element, an empty element waiting for the answer. *)
Definition sent (st : Client.State) : Client.State :=
  {| Client.userInput := "";
     Client.systemPromptInput := Client.systemPromptInput st;
     Client.isProcessing := true;
     Client.messageIdCounter := S (S (Client.messageIdCounter st));
     Client.retryAttempts := Client.retryAttempts st;
     Client.chatHistory :=
       Client.chatHistory st ++
       [{| ChatMessage.role := user; ChatMessage.content := message_of st |}];
     Client.chatMessages :=
       (Client.chatMessages st ++ [("user", message_of st)]) ++ [("assistant", "")];
     Client.timers := Client.timers st;
     Client.requests := Client.requests st ++ [request_of st] |}.


(** The entry of the context text for the document at [position], counted
    from 1. *)
Definition entry_of (position : nat) (doc : jsval) : string :=
  "[Document " +:+ pretty position +:+ ": " +:+ filename_of doc +:+
  " (Relevance: " +:+ toFixed 2 (score_of doc) +:+ ")]" +:+ nl +:+ Worker.textContent doc.

(** The documents with text, each with its position in the response, the
    first position being [first]. *)
Definition positioned (first : nat) (documents : list jsval) : list (nat * jsval) :=
  List.filter (λ entry, has_text entry.2) (zip (seq first (length documents)) documents).



(** The value can be written as a header. *)
Definition writable (value : string) : bool :=
  Worker.valid_value (Worker.normalize_value value).

(** The headers of a generated response with the four diagnostic headers
    written over them. *)
Definition diagnostics (context : RequestContext) (now : Z) (ragContext : RAGContext)
  : result Worker.Headers :=
  headers ←
    Worker.Headers_set "X-Processing-Time"
      (pretty (now - RequestContext.startTime context) +:+ "ms")
      (Worker.Headers_of
         [("Content-Type", "text/event-stream");
          ("Cache-Control", "no-cache");
          ("Connection", "keep-alive");
          ("Access-Control-Allow-Origin", "*");
          ("Access-Control-Allow-Methods", "GET, POST, OPTIONS");
          ("Access-Control-Allow-Headers", "Content-Type")]);
  headers ←
    Worker.Headers_set "X-RAG-Documents" (pretty (RAGContext.documentCount ragContext))
      headers;
  headers ←
    Worker.Headers_set "X-RAG-Average-Score"
      (toFixed 3 (RAGContext.averageScore ragContext)) headers;
  Worker.Headers_set "X-Request-ID" (RequestContext.requestId context) headers.

(** The headers of a fallback answer with the fallback and CORS headers
    written over them. *)
Definition fallback_headers (message requestId : string) (headers : Worker.Headers)
  : result Worker.Headers :=
  headers ← Worker.Headers_set "X-Fallback-Used" "true" headers;
  headers ← Worker.Headers_set "X-Original-Error" message headers;
  headers ← Worker.Headers_set "X-Request-ID" requestId headers;
  Worker.addCORSHeaders headers.

(** The error the primary attempt ends with, if any: that of the call, or
    that of writing the diagnostic headers. *)
Definition primary_error (first : result Worker.Response)
    (written : result Worker.Headers) : option thrown :=
  match first with
  | Throw e => Some e
  | Ok upstream =>
      if Worker.Response.ok upstream then
        match written with
        | Ok _ => None
        | Throw e => Some e
        end
      else Some (JSError (failure_message first))
  end.

(** A code unit that is neither HTTP white space nor NUL, and a string of
    such code units. *)
Definition visible (c : ascii) : bool :=
  negb (Worker.http_white c) && negb (Worker.forbidden c).

Fixpoint plain (s : string) : bool :=
  match s with
  | String c s' => visible c && plain s'
  | EmptyString => true
  end.

End Spec.


(** ** Sample inputs

    Concrete search results, settings and environments on which the
    properties below are exercised. *)

Module Samples.
Import JS Types.

(** An element of a document's [content] array. *)
Definition text_item (text : string) : jsval :=
  VObj {[ "id" := VStr "chunk"; "type" := VStr "text"; "text" := VStr text ]}.

(** A [SearchResult]. *)
Definition document (filename : string) (score : float) (content : list jsval) : jsval :=
  VObj {[ "file_id" := VStr ("id-" +:+ filename);
          "filename" := VStr filename;
          "score" := VNum score;
          "attributes" := VObj ∅;
          "content" := VArr content ]}.

(** A [SearchResponse]. *)
Definition response (documents : list jsval) : jsval :=
  VObj {[ "object" := VStr "vector_store.search_results.page";
          "search_query" := VStr "damage";
          "data" := VArr documents;
          "has_more" := VBool false;
          "next_page" := VNull ]}.

(** The settings the worker builds for a request without [ragSettings]. *)
Definition settings : jsval :=
  VObj (<["index" := VStr Worker.CONFIG.autoragIndex]> Worker.CONFIG.ragSettings).

(** An environment whose search gives [searchResult] and whose [n]-th call
    of [env.AI.run] gives the [n]-th element of [runs]. *)
Definition env_answering (searchResult : result jsval)
    (runs : list (result Worker.Response)) : Worker.Env :=
  {| Worker.autorag_search := λ _ _, searchResult;
     Worker.AI_run := λ n _ _, default (Throw (JSError "unreachable")) (runs !! n) |}.

(** A provider response with the given status and an event stream. *)
Definition upstream (status : Z) (statusText : string) : Worker.Response :=
  {| Worker.Response.status := status;
     Worker.Response.statusText := statusText;
     Worker.Response.headers := Worker.Headers_of [("Content-Type", "text/event-stream")];
     Worker.Response.body := Worker.Stream ["data: {}"] |}.

(** A [JSON.parse] that knows the texts the samples use. *)
Definition JSON_parse (text : string) : result jsval :=
  if String.eqb text "{}" then Ok (VObj ∅)
  else if String.eqb text "null" then Ok VNull
  else Throw (JSError "Unexpected token in JSON").

(** A conversion to strings that is right on strings, booleans, [null],
    [undefined] and plain objects; the samples convert nothing else. *)
Definition ToString (v : jsval) : string :=
  match v with
  | VStr s => s
  | VNull => "null"
  | VUndef => "undefined"
  | VBool true => "true"
  | VBool false => "false"
  | VObj _ => "[object Object]"
  | VNum _ | VArr _ => ""
  end.

(** A page on which the user has typed [text] and nothing has been sent. *)
Definition page (text : string) : Client.State :=
  {| Client.userInput := text;
     Client.systemPromptInput := Client.CONFIG.defaultSystemPrompt;
     Client.isProcessing := false;
     Client.messageIdCounter := 0;
     Client.retryAttempts := 0;
     Client.chatHistory := [];
     Client.chatMessages := [];
     Client.timers := [];
     Client.requests := [] |}.

(** A success response whose stream holds a comment, blank lines and an
    event without text. *)
Definition silent_response : Client.HttpResponse :=
  {| Client.HttpResponse.status := 200;
     Client.HttpResponse.statusText := "OK";
     Client.HttpResponse.chunks := [": keep-alive" +:+ nl +:+ nl; "data: {}" +:+ nl];
     Client.HttpResponse.ending := Client.Done |}.

(** The response of a worker whose two generation attempts failed. *)
Definition unavailable_response : Client.HttpResponse :=
  {| Client.HttpResponse.status := 503;
     Client.HttpResponse.statusText := "Service Unavailable";
     Client.HttpResponse.chunks := [];
     Client.HttpResponse.ending := Client.Done |}.

(** A network that answers every request with the same response. *)
Definition always (response : Client.HttpResponse) (n : nat) (body : Client.RequestBody)
  : result Client.HttpResponse :=
  Ok response.

(** A text longer than the 200 characters kept with a source. *)
Definition long_text : string := String.concat " " (replicate 40 "damage").

(** The event line that carries the text fragment [text]. *)
Definition event (text : string) : string :=
  "data: {" +:+ dquote +:+ "response" +:+ dquote +:+ ":" +:+ dquote +:+ text +:+
  dquote +:+ "}".

(** A [JSON.parse] that also knows the payload of these events. *)
Definition parse_event (text : string) : result jsval :=
  let opening := "{" +:+ dquote +:+ "response" +:+ dquote +:+ ":" +:+ dquote in
  if startsWith text opening && (15 <=? String.length text)%nat then
    Ok (VObj {[ "response" :=
                  VStr (substring_to (String.length text - 15) (substring_from 13 text)) ]})
  else JSON_parse text.

(** A success response that streams an answer in two chunks, between a
    comment and blank lines. *)
Definition answer_response : Client.HttpResponse :=
  {| Client.HttpResponse.status := 200;
     Client.HttpResponse.statusText := "OK";
     Client.HttpResponse.chunks :=
       [": ping" +:+ nl +:+ event "Water damage " +:+ nl;
        event "is covered." +:+ nl +:+ nl];
     Client.HttpResponse.ending := Client.Done |}.

(** The same stream, broken off after its first chunk. *)
Definition broken_response : Client.HttpResponse :=
  {| Client.HttpResponse.status := 200;
     Client.HttpResponse.statusText := "OK";
     Client.HttpResponse.chunks := [": ping" +:+ nl +:+ event "Water damage " +:+ nl];
     Client.HttpResponse.ending := Client.ReadFailed (JSError "network error") |}.

(** A page in the middle of a conversation, after one failed attempt. *)
Definition busy_page (text : string) : Client.State :=
  {| Client.userInput := text;
     Client.systemPromptInput := "  Answer as a claims adjuster.  ";
     Client.isProcessing := false;
     Client.messageIdCounter := 4;
     Client.retryAttempts := 1;
     Client.chatHistory :=
       [ChatMessage.mk assistant "Hello!"; ChatMessage.mk user "Hi"];
     Client.chatMessages := [("assistant", "Hello!"); ("user", "Hi")];
     Client.timers := [];
     Client.requests := [] |}.

End Samples.


(** * Properties *)

Import JS Types.

(** ** Tactics *)

(** Unfolds the operations of [Eff]. *)
Ltac run_effects :=
  cbv [try_catchM try_finally mbind Eff_bind bindE ret throw lift gets modify Worker.run].

(** Evaluates the lower-cased header names in the goal. *)
Ltac lower_names :=
  repeat match goal with
    | |- context [toLowerCase ?name] =>
        let lowered := eval vm_compute in (toLowerCase name) in
        change (toLowerCase name) with lowered
    end.

(** Case analysis on the answer of the call of [env.AI.run] in the goal. *)
Ltac case_run answer error :=
  match goal with
  | |- context [Worker.AI_run ?env ?n ?model ?options] =>
      destruct (Worker.AI_run env n model options) as [answer|error]
  end.

(** Proves [l = r] for a closed [l] by evaluating it first; [r] may hold
    existential variables. *)
Ltac evaluate_left :=
  match goal with
  | |- ?l = _ =>
      let v := eval vm_compute in l in
      apply (@eq_trans _ l v); [vm_compute; reflexivity | reflexivity]
  end.

(** ** Strings *)

Lemma prefix_append (s t : string) : String.prefix s (s +:+ t) = true.
Proof.
  induction s as [|c s IH]; simpl.
  - by destruct t.
  - destruct (ascii_dec c c) as [_|Hc]; [exact IH | by destruct Hc].
Qed.

Lemma or_else_empty (s : string) : Worker.or_else s "" = s.
Proof. unfold Worker.or_else. by destruct (String.eqb_spec s "") as [->|]. Qed.

(** ** The request context *)

Section Endpoint.

Variables (startTime : Z) (requestId : string).

Lemma last_filter_app {A : Type} (p : A → bool) (pre post : list A) (m : A) :
  p m = true →
  forallb (λ x, negb (p x)) post = true →
  last (List.filter p (pre ++ m :: post)) = Some m.
Proof.
  intros Hm Hpost. rewrite List.filter_app. simpl. rewrite Hm.
  assert (List.filter p post = []) as ->.
  { induction post as [|x post IH]; simpl in *; [done|].
    apply andb_prop in Hpost as [Hx Hpost].
    apply negb_true_iff in Hx. rewrite Hx. auto. }
  by rewrite last_snoc.
Qed.

Lemma filter_none {A : Type} (p : A → bool) (l : list A) :
  existsb p l = false → List.filter p l = [].
Proof.
  induction l as [|x l IH]; simpl; [done|].
  intros [Hx Hl]%orb_false_elim. rewrite Hx. auto.
Qed.

(** C9, as amended.  The query handed to the retrieval step is the content
    of the last user message of the request, whatever stands before or after
    it; without a user message it is the empty string.  (Nothing excludes
    that the last user message is itself empty.) *)
Theorem userMessage_is_last_user_message (chatRequest : ChatRequest) :
  let query :=
    RequestContext.userMessage (Worker.requestContext chatRequest startTime requestId) in
  (∀ pre m post,
     ChatRequest.messages chatRequest = pre ++ m :: post →
     Worker.is_user m = true →
     forallb (λ x, negb (Worker.is_user x)) post = true →
     query = ChatMessage.content m) ∧
  (existsb Worker.is_user (ChatRequest.messages chatRequest) = false → query = "").
Proof.
  simpl. unfold Worker.getUserMessage. split.
  - intros pre m post -> Hm Hpost.
    rewrite (last_filter_app _ _ _ _ Hm Hpost). apply or_else_empty.
  - intros Hnone. by rewrite (filter_none _ _ Hnone).
Qed.

(** C10.  Two requests that differ at most in what the client put under
    [ragSettings.index] get the same [ragSettings], and the index in them,
    the one [searchAutoRAG] reads, is the configured [autoragIndex]. *)
Theorem client_index_never_used (messages : list ChatMessage)
    (systemPrompt : option string) (settings1 settings2 : gmap string jsval) :
  delete "index" settings1 = delete "index" settings2 →
  let context1 :=
    Worker.requestContext
      (ChatRequest.mk messages systemPrompt (VObj settings1)) startTime requestId in
  let context2 :=
    Worker.requestContext
      (ChatRequest.mk messages systemPrompt (VObj settings2)) startTime requestId in
  context1 = context2 ∧
  get (VObj (RequestContext.ragSettings context1)) "index"
    = VStr Worker.CONFIG.autoragIndex.
Proof.
  intros Hsame. simpl. split.
  - unfold Worker.requestContext. simpl. f_equal.
    apply map_eq. intros k.
    destruct (decide (k = "index")) as [->|Hk].
    + by rewrite !lookup_insert_eq.
    + rewrite !lookup_insert_ne by done.
      rewrite !lookup_union.
      rewrite <- (lookup_delete_ne settings1 "index" k) by done.
      rewrite <- (lookup_delete_ne settings2 "index" k) by done.
      by rewrite Hsame.
  - by rewrite lookup_insert_eq.
Qed.

End Endpoint.

Lemma userMessage_is_last_user_message_witness :
  RequestContext.userMessage
    (Worker.requestContext
       (ChatRequest.mk
          [ChatMessage.mk user "first question";
           ChatMessage.mk assistant "an answer";
           ChatMessage.mk user "second question";
           ChatMessage.mk assistant "another answer"]
          None VUndef)
       0 "req_1")
  = "second question".
Proof.
  apply (proj1 (userMessage_is_last_user_message 0 "req_1" _)
           [ChatMessage.mk user "first question"; ChatMessage.mk assistant "an answer"]
           (ChatMessage.mk user "second question")
           [ChatMessage.mk assistant "another answer"]);
    reflexivity.
Defined.

Lemma client_index_never_used_witness :
  Worker.requestContext
    (ChatRequest.mk [ChatMessage.mk user "hello"] None
       (VObj {[ "index" := VStr "someone-elses-index"; "maxResults" := VNum 2%float ]}))
    0 "req_1"
  = Worker.requestContext
      (ChatRequest.mk [ChatMessage.mk user "hello"] None
         (VObj {[ "maxResults" := VNum 2%float ]}))
      0 "req_1".
Proof.
  apply (client_index_never_used 0 "req_1" [ChatMessage.mk user "hello"] None
           {[ "index" := VStr "someone-elses-index"; "maxResults" := VNum 2%float ]}
           {[ "maxResults" := VNum 2%float ]}).
  vm_compute. reflexivity.
Defined.

(** C9, as stated, fails: a request whose only user message is empty is
    accepted by the validator, and its query is the empty string although a
    user message exists. *)
Lemma empty_user_message_counterexample :
  let body :=
    VObj {[ "messages" :=
              VArr [VObj {[ "role" := VStr "user"; "content" := VStr "" ]}] ]} in
  ∃ chatRequest,
    ValidationResult.valid (Worker.validateChatRequest body) = true ∧
    ValidationResult.sanitizedInput (Worker.validateChatRequest body) = Some chatRequest ∧
    existsb Worker.is_user (ChatRequest.messages chatRequest) = true ∧
    RequestContext.userMessage (Worker.requestContext chatRequest 0 "req_1") = "".
Proof.
  eexists. split; [|split; [|split]]; [vm_compute; reflexivity ..].
Qed.

(** ** The prompt augmenter *)

(** C8.  There are five instruction lines, each a bullet on a line of its
    own and the same for every input, such that with retrieval context the
    prompt is the base prompt, then the knowledge-base block (the summary
    line and the whole context text), then the instruction block made of
    exactly these five lines. *)
Theorem enhanced_prompt_layout :
  ∃ bullets : list string,
    length bullets = 5%nat ∧
    Forall (λ b, startsWith b "- " = true ∧ split_lines b = [b]) bullets ∧
    ∀ (basePrompt : string) (ragContext : RAGContext) (includeInstructions : bool),
      RAGContext.hasContext ragContext = true →
      let enhanced :=
        Worker.buildEnhancedSystemPrompt basePrompt ragContext includeInstructions in
      let summary :=
        "Found " +:+ pretty (RAGContext.documentCount ragContext) +:+
        " relevant documents (avg. relevance: " +:+
        toFixed 2 (RAGContext.averageScore ragContext) +:+ ")" in
      EnhancedSystemPrompt.hasRAGContext enhanced = true ∧
      EnhancedSystemPrompt.contextSummary enhanced = summary ∧
      String.prefix basePrompt (EnhancedSystemPrompt.prompt enhanced) = true ∧
      EnhancedSystemPrompt.prompt enhanced =
        basePrompt +:+ nl +:+ nl +:+
        "KNOWLEDGE BASE CONTEXT:" +:+ nl +:+
        "You have access to relevant information from the knowledge base. " +:+
        summary +:+ ":" +:+ nl +:+ nl +:+
        RAGContext.contextText ragContext +:+ nl +:+ nl +:+
        "INSTRUCTIONS:" +:+ nl +:+
        join nl bullets.
Proof.
  exists
    ["- When the knowledge base context is relevant to the user's question, prioritize this information";
     "- Reference specific documents when using knowledge base information (e.g., " +:+
       dquote +:+ "according to [Document 1: filename]" +:+ dquote +:+ ")";
     "- If the knowledge base doesn't contain relevant information for the question, rely on your general knowledge";
     "- Be clear about when you're using knowledge base information vs. general knowledge";
     "- Provide accurate and helpful responses based on the best available information"].
  split; [reflexivity|].
  split; [repeat constructor|].
  intros basePrompt ragContext includeInstructions Hctx enhanced summary.
  subst enhanced summary.
  unfold Worker.buildEnhancedSystemPrompt. rewrite Hctx. simpl.
  split; [reflexivity|].
  split; [reflexivity|].
  split; [apply prefix_append | reflexivity].
Qed.

Lemma enhanced_prompt_layout_witness :
  let ragContext :=
    {| RAGContext.contextText := "[Document 1: claims.md (Relevance: 0.80)]" +:+ nl +:+ "Water damage";
       RAGContext.documentCount := 2;
       RAGContext.averageScore := ((0.8 + 0.4) / 2)%float;
       RAGContext.sources := [];
       RAGContext.hasContext := true |} in
  EnhancedSystemPrompt.contextSummary
    (Worker.buildEnhancedSystemPrompt "Be brief." ragContext true)
  = "Found 2 relevant documents (avg. relevance: 0.60)".
Proof.
  intros ragContext.
  destruct enhanced_prompt_layout as (bullets & _ & _ & Hlayout).
  destruct (Hlayout "Be brief." ragContext true eq_refl) as (_ & Hsummary & _).
  rewrite Hsummary. vm_compute. reflexivity.
Defined.

(** ** The request validator *)

(** The loop over the messages appends one entry per oversized message. *)
Lemma content_errors (entry : string) (messages : list ChatMessage) (errors : list string) :
  fold_left
    (λ errors msg, if Spec.oversized msg then errors ++ [entry] else errors)
    messages errors
  = errors ++ map (λ _, entry) (List.filter Spec.oversized messages).
Proof.
  revert errors. induction messages as [|msg messages IH]; intros errors; simpl.
  - by rewrite app_nil_r.
  - rewrite IH. destruct (Spec.oversized msg); simpl; [|done].
    by rewrite <- app_assoc.
Qed.

Lemma filter_same_entry {A : Type} (entry : string) (l : list A) :
  List.filter (String.eqb entry) (map (λ _, entry) l) = map (λ _, entry) l.
Proof.
  induction l as [|x l IH]; simpl; [done|].
  by rewrite String.eqb_refl, IH.
Qed.

(** The error list of a body that passes the structural guard, rule by rule
    and in the order the rules are checked. *)
Lemma validation_errors (body : jsval) :
  isChatRequest body = true →
  let request := toChatRequest body in
  ValidationResult.errors (Worker.validateChatRequest body)
  = (if (length (ChatRequest.messages request) =? 0)%nat
     then ["At least one message is required"] else [])
    ++ (if existsb Worker.is_user (ChatRequest.messages request)
        then [] else ["At least one user message is required"])
    ++ (if Spec.prompt_oversized (ChatRequest.systemPrompt request)
        then ["System prompt too long (max 10000 characters)"] else [])
    ++ map (λ _, "Message content too long (max 50000 characters)")
         (List.filter Spec.oversized (ChatRequest.messages request)).
Proof.
  intros Hguard. cbv zeta. unfold Worker.validateChatRequest. rewrite Hguard.
  cbn [negb]. generalize (toChatRequest body). intros [messages systemPrompt settings].
  cbn [ValidationResult.errors ChatRequest.messages ChatRequest.systemPrompt].
  rewrite (content_errors "Message content too long (max 50000 characters)").
  destruct (length messages =? 0)%nat; destruct (existsb Worker.is_user messages);
    destruct systemPrompt as [prompt|]; cbn [negb app Spec.prompt_oversized];
    try reflexivity.
  all: destruct (String.eqb_spec prompt "") as [->|Hne]; cbn [negb andb];
    [reflexivity|].
  all: destruct (10000 <? Z.of_nat (String.length prompt)); reflexivity.
Qed.

Lemma validation_verdict (body : jsval) :
  ValidationResult.valid (Worker.validateChatRequest body) = true
  ↔ ValidationResult.errors (Worker.validateChatRequest body) = [].
Proof.
  unfold Worker.validateChatRequest.
  destruct (isChatRequest body); simpl; [|split; discriminate].
  match goal with |- context [length ?l] => destruct l as [|? ?] end; simpl;
    split; first [done | discriminate].
Qed.

(** C6, as amended.  A body that fails the structural guard is rejected with
    the single entry for that; a body that passes it is rejected with an
    entry for every other rule it violates, one per oversized message, and in
    particular with the entry for a missing user message whatever else is
    wrong. *)
Theorem validator_reports_every_violation (body : jsval) :
  let verdict := Worker.validateChatRequest body in
  let errors := ValidationResult.errors verdict in
  (isChatRequest body = false →
     ValidationResult.valid verdict = false ∧ errors = ["Invalid request structure"]) ∧
  (isChatRequest body = true →
     let request := toChatRequest body in
     (ChatRequest.messages request = [] →
        "At least one message is required" ∈ errors) ∧
     (existsb Worker.is_user (ChatRequest.messages request) = false →
        "At least one user message is required" ∈ errors) ∧
     (∀ prompt, ChatRequest.systemPrompt request = Some prompt →
        10000 < Z.of_nat (String.length prompt) →
        "System prompt too long (max 10000 characters)" ∈ errors) ∧
     (length (List.filter (String.eqb "Message content too long (max 50000 characters)") errors)
      = length (List.filter Spec.oversized (ChatRequest.messages request))) ∧
     (ValidationResult.valid verdict = true ↔ errors = [])).
Proof.
  intros verdict errors. subst verdict errors. split.
  - intros Hguard. unfold Worker.validateChatRequest. by rewrite Hguard.
  - intros Hguard request.
    pose proof (validation_errors body Hguard) as Herrors.
    cbv zeta in Herrors. fold request in Herrors.
    split; [|split; [|split; [|split]]].
    + intros Hnone. rewrite Herrors, Hnone. simpl. set_solver.
    + intros Hnone. rewrite Herrors, Hnone. set_solver.
    + intros prompt Hprompt Hlong. rewrite Herrors, Hprompt. simpl.
      apply Z.ltb_lt in Hlong. rewrite Hlong. set_solver.
    + rewrite Herrors.
      rewrite !List.filter_app, filter_same_entry, !length_app, length_map.
      destruct (length (ChatRequest.messages request) =? 0)%nat;
        destruct (existsb Worker.is_user (ChatRequest.messages request));
        destruct (Spec.prompt_oversized (ChatRequest.systemPrompt request));
        reflexivity.
    + apply validation_verdict.
Qed.


Lemma validator_reports_every_violation_witness :
  let body :=
    VObj {[ "messages" := VArr [];
            "systemPrompt" := VStr (zeros (Z.to_nat 10001)) ]} in
  let errors := ValidationResult.errors (Worker.validateChatRequest body) in
  "At least one message is required" ∈ errors ∧
  "At least one user message is required" ∈ errors ∧
  "System prompt too long (max 10000 characters)" ∈ errors.
Proof.
  intros body errors.
  assert (isChatRequest body = true) as Hguard by (vm_compute; reflexivity).
  destruct (proj2 (validator_reports_every_violation body) Hguard)
    as (Hempty & Huser & Hprompt & _).
  split; [|split].
  - apply Hempty. vm_compute. reflexivity.
  - apply Huser. vm_compute. reflexivity.
  - apply (Hprompt (zeros (Z.to_nat 10001))); vm_compute; reflexivity.
Defined.

(** C6, as stated, fails: a body whose only message has an unknown role
    violates the role rule and has no user message, yet the error list does
    not hold the entry for the missing user message. *)
Lemma structural_rejection_counterexample :
  let body :=
    VObj {[ "messages" :=
              VArr [VObj {[ "role" := VStr "moderator"; "content" := VStr "hello" ]}] ]} in
  Spec.lacks_user_role (as_array (get body "messages")) = true ∧
  ValidationResult.valid (Worker.validateChatRequest body) = false ∧
  ValidationResult.errors (Worker.validateChatRequest body) = ["Invalid request structure"].
Proof.
  intros body. split; [|split]; vm_compute; reflexivity.
Qed.

(** ** The retrieval step *)

Section Retrieval.

Variables (query : string) (ragSettings : jsval) (env : Worker.Env).

(** What [searchAutoRAG] does with each outcome of the search call. *)
Lemma searchAutoRAG_cases :
  Worker.searchAutoRAG query ragSettings env =
  match Spec.search_call query ragSettings env with
  | Throw _ => Ok Worker.createEmptyRAGContext
  | Ok searchResult =>
      if Spec.well_formed searchResult
      then try_catch (Worker.buildRAGContext searchResult)
                     (λ _, Ok Worker.createEmptyRAGContext)
      else Ok Worker.createEmptyRAGContext
  end.
Proof.
  unfold Worker.searchAutoRAG, Spec.search_call, Spec.well_formed.
  destruct ragSettings; try reflexivity;
    cbn [get_throw mbind result_bind bind try_catch];
    match goal with
    | |- context [Worker.autorag_search env ?i ?o] =>
        destruct (Worker.autorag_search env i o) as [searchResult|e]
    end;
    try reflexivity;
    cbn [get_throw mbind result_bind bind try_catch];
    destruct (truthy searchResult), (truthy (get searchResult "data")),
      (isArray (get searchResult "data"));
    cbn [negb orb andb]; try reflexivity;
    by destruct (Worker.buildRAGContext searchResult).
Qed.

Lemma forEach_totalScore (documents : list jsval) (index : nat) (acc : Worker.Collected) :
  Worker.totalScore (Worker.forEach documents index acc)
  = fold_left (λ total doc, (total + Spec.score_of doc)%float)
      (List.filter Spec.has_text documents) (Worker.totalScore acc).
Proof.
  revert index acc.
  induction documents as [|doc documents IH]; intros index acc; simpl; [done|].
  rewrite IH. unfold Worker.visit, Spec.has_text.
  destruct (isSearchResult doc); simpl; [|done].
  by destruct (String.eqb (Worker.textContent doc) "").
Qed.

Lemma forEach_sources (documents : list jsval) (index : nat) (acc : Worker.Collected) :
  length (Worker.sources (Worker.forEach documents index acc))
  = (length (Worker.sources acc) + length (List.filter Spec.has_text documents))%nat.
Proof.
  revert index acc.
  induction documents as [|doc documents IH]; intros index acc; simpl; [lia|].
  rewrite IH. unfold Worker.visit, Spec.has_text.
  destruct (isSearchResult doc); simpl; [|done].
  destruct (String.eqb (Worker.textContent doc) ""); simpl; [done|].
  rewrite length_app. simpl. lia.
Qed.

(** The context built from a response whose [data] is an array. *)
Lemma buildRAGContext_array (searchResult : jsval) (documents : list jsval) :
  get searchResult "data" = VArr documents →
  ∃ context,
    Worker.buildRAGContext searchResult = Ok context ∧
    RAGContext.documentCount context = length documents ∧
    length (RAGContext.sources context) = length (List.filter Spec.has_text documents) ∧
    RAGContext.averageScore context =
      if (length documents =? 0)%nat then 0%float
      else (Spec.sum_scores (List.filter Spec.has_text documents)
            / of_nat (length documents))%float.
Proof.
  intros Hdata. unfold Worker.buildRAGContext.
  assert (get_throw searchResult "data" = Ok (VArr documents)) as ->.
  { destruct searchResult; simpl in Hdata |- *; try discriminate; by rewrite Hdata. }
  cbn [mbind result_bind bind truthy negb orb Worker.length_is_zero].
  destruct documents as [|doc documents].
  - eexists. split; [reflexivity|]. by simpl.
  - cbn [length Nat.eqb Nat.ltb Nat.leb].
    eexists. split; [reflexivity|].
    cbn [RAGContext.documentCount RAGContext.sources RAGContext.averageScore].
    split; [done|]. split.
    + by rewrite forEach_sources.
    + by rewrite forEach_totalScore.
Qed.

Lemma well_formed_array (searchResult : jsval) (documents : list jsval) :
  get searchResult "data" = VArr documents → Spec.well_formed searchResult = true.
Proof.
  intros Hdata. unfold Spec.well_formed. rewrite Hdata.
  destruct searchResult; simpl in Hdata; try discriminate; done.
Qed.

(** The retrieval step always returns a context. *)
Lemma searchAutoRAG_returns :
  ∃ context, Worker.searchAutoRAG query ragSettings env = Ok context.
Proof.
  rewrite searchAutoRAG_cases.
  destruct (Spec.search_call query ragSettings env) as [searchResult|e]; [|eauto].
  destruct (Spec.well_formed searchResult); [|eauto].
  destruct (Worker.buildRAGContext searchResult); simpl; eauto.
Qed.

(** C5.  The retrieval step returns a context on every input; when the
    search call throws, or answers with anything but an object holding a
    [data] array, that context is the empty one, with no document and no
    context. *)
Theorem searchAutoRAG_never_raises :
  ∃ context,
    Worker.searchAutoRAG query ragSettings env = Ok context ∧
    (∀ e, Spec.search_call query ragSettings env = Throw e →
          context = Worker.createEmptyRAGContext) ∧
    (∀ searchResult,
       Spec.search_call query ragSettings env = Ok searchResult →
       Spec.well_formed searchResult = false →
       context = Worker.createEmptyRAGContext) ∧
    RAGContext.documentCount Worker.createEmptyRAGContext = 0%nat ∧
    RAGContext.hasContext Worker.createEmptyRAGContext = false.
Proof.
  rewrite searchAutoRAG_cases.
  destruct (Spec.search_call query ragSettings env) as [searchResult|e].
  - destruct (Spec.well_formed searchResult) eqn:Hshape.
    + destruct (Worker.buildRAGContext searchResult) as [context|e];
        eexists; (split; [reflexivity|]);
        (split; [discriminate|]); (split; [|done]);
        intros ? [= <-]; congruence.
    + eexists. split; [reflexivity|]. repeat split; done.
  - eexists. split; [reflexivity|]. repeat split; done.
Qed.

(** C1, as amended.  For a response whose [data] is an array, the average
    score is the sum of the scores of the shape-valid documents whose text is
    not empty, divided by the length of the array; it is 0 for an empty
    array. *)
Theorem averageScore_of_documents_with_text (searchResult : jsval) (documents : list jsval) :
  Spec.search_call query ragSettings env = Ok searchResult →
  get searchResult "data" = VArr documents →
  ∃ context,
    Worker.searchAutoRAG query ragSettings env = Ok context ∧
    RAGContext.averageScore context =
      if (length documents =? 0)%nat then 0%float
      else (Spec.sum_scores (List.filter Spec.has_text documents)
            / of_nat (length documents))%float.
Proof.
  intros Hcall Hdata. rewrite searchAutoRAG_cases, Hcall.
  rewrite (well_formed_array _ _ Hdata).
  destruct (buildRAGContext_array _ _ Hdata) as (context & -> & _ & _ & Havg).
  by exists context.
Qed.

(** C2, as amended.  In every context the retrieval step returns, [sources]
    is no longer than [documentCount]: for a response whose [data] is an
    array, [documentCount] is the length of that array and [sources] has one
    entry per shape-valid document whose text is not empty. *)
Theorem documentCount_bounds_sources :
  ∃ context,
    Worker.searchAutoRAG query ragSettings env = Ok context ∧
    (length (RAGContext.sources context) ≤ RAGContext.documentCount context)%nat ∧
    (∀ searchResult documents,
       Spec.search_call query ragSettings env = Ok searchResult →
       get searchResult "data" = VArr documents →
       RAGContext.documentCount context = length documents ∧
       length (RAGContext.sources context)
         = length (List.filter Spec.has_text documents)).
Proof.
  rewrite searchAutoRAG_cases.
  destruct (Spec.search_call query ragSettings env) as [searchResult|e].
  - destruct (Spec.well_formed searchResult) eqn:Hshape.
    + unfold Spec.well_formed in Hshape.
      apply andb_prop in Hshape as [_ Harray].
      destruct (get searchResult "data") as [| | | | |documents|] eqn:Hdata;
        try discriminate.
      destruct (buildRAGContext_array _ _ Hdata) as (context & -> & Hcount & Hsources & _).
      exists context. split; [reflexivity|]. split.
      * rewrite Hsources, Hcount. apply List.filter_length_le.
      * intros ? ? [= <-]. rewrite Hdata. by intros [= <-].
    + exists Worker.createEmptyRAGContext. split; [reflexivity|]. split; [simpl; lia|].
      intros ? documents [= <-] Hdata.
      by rewrite (well_formed_array _ _ Hdata) in Hshape.
  - exists Worker.createEmptyRAGContext. split; [reflexivity|]. split; [simpl; lia|].
    intros ? ? [=].
Qed.

End Retrieval.

Lemma searchAutoRAG_never_raises_witness :
  Worker.searchAutoRAG "damage" Samples.settings
    (Samples.env_answering (Throw (JSError "AutoRAG unavailable")) [])
  = Ok Worker.createEmptyRAGContext.
Proof.
  destruct (searchAutoRAG_never_raises "damage" Samples.settings
              (Samples.env_answering (Throw (JSError "AutoRAG unavailable")) []))
    as (context & -> & Hthrow & _).
  f_equal. apply (Hthrow (JSError "AutoRAG unavailable")). reflexivity.
Defined.

Lemma averageScore_of_documents_with_text_witness :
  let documents :=
    [Samples.document "policy.md" 0.8 [Samples.text_item "Water damage is covered."];
     Samples.document "claims.md" 0.4 [Samples.text_item "File a claim"; Samples.text_item "within 30 days."]] in
  ∃ context,
    Worker.searchAutoRAG "damage" Samples.settings
      (Samples.env_answering (Ok (Samples.response documents)) []) = Ok context ∧
    RAGContext.averageScore context = ((0.8 + 0.4) / 2)%float.
Proof.
  intros documents.
  destruct (averageScore_of_documents_with_text "damage" Samples.settings
              (Samples.env_answering (Ok (Samples.response documents)) [])
              (Samples.response documents) documents)
    as (context & Hrun & Haverage); [reflexivity | reflexivity |].
  exists context. split; [exact Hrun|].
  rewrite Haverage. vm_compute. reflexivity.
Defined.

(** C1, as stated, fails: a shape-valid document without text adds nothing
    to the sum, so the average of two valid documents scored 0.5 and 0.25 is
    0.5 / 2 and not 0.75 / 2. *)
Lemma averageScore_counterexample :
  let documents :=
    [Samples.document "policy.md" 0.5 [Samples.text_item "Water damage is covered."];
     Samples.document "empty.md" 0.25 []] in
  ∃ context,
    Worker.searchAutoRAG "damage" Samples.settings
      (Samples.env_answering (Ok (Samples.response documents)) []) = Ok context ∧
    forallb isSearchResult documents = true ∧
    RAGContext.averageScore context = 0.25%float ∧
    (Spec.sum_scores (List.filter isSearchResult documents)
     / of_nat (length documents))%float = 0.375%float.
Proof.
  intros documents. eexists.
  split; [vm_compute; reflexivity|].
  split; [|split]; vm_compute; reflexivity.
Qed.

Lemma documentCount_bounds_sources_witness :
  let documents :=
    [Samples.document "policy.md" 0.8 [Samples.text_item "Water damage is covered."];
     VStr "not a document";
     Samples.document "empty.md" 0.4 [Samples.text_item "   "]] in
  ∃ context,
    Worker.searchAutoRAG "damage" Samples.settings
      (Samples.env_answering (Ok (Samples.response documents)) []) = Ok context ∧
    RAGContext.documentCount context = 3%nat ∧
    length (RAGContext.sources context) = 1%nat.
Proof.
  intros documents.
  destruct (documentCount_bounds_sources "damage" Samples.settings
              (Samples.env_answering (Ok (Samples.response documents)) []))
    as (context & Hrun & _ & Hshape).
  destruct (Hshape (Samples.response documents) documents) as [Hcount Hsources];
    [reflexivity | reflexivity |].
  exists context. split; [exact Hrun|].
  rewrite Hcount, Hsources. split; vm_compute; reflexivity.
Defined.

(** C2, as stated, fails: an element of [data] that is not a document is
    counted in [documentCount] and has no entry in [sources]. *)
Lemma documentCount_counterexample :
  let documents :=
    [Samples.document "policy.md" 0.8 [Samples.text_item "Water damage is covered."];
     VNull] in
  ∃ context,
    Worker.searchAutoRAG "damage" Samples.settings
      (Samples.env_answering (Ok (Samples.response documents)) []) = Ok context ∧
    RAGContext.documentCount context = 2%nat ∧
    length (RAGContext.sources context) = 1%nat.
Proof.
  intros documents. eexists.
  split; [vm_compute; reflexivity|].
  split; vm_compute; reflexivity.
Qed.

(** ** Headers *)

Lemma Headers_set_writable (name value : string) (h : Worker.Headers) :
  Spec.writable value = true →
  Worker.Headers_set name value h
  = Ok (<[toLowerCase name := Worker.normalize_value value]> h).
Proof. unfold Spec.writable, Worker.Headers_set. by intros ->. Qed.

Lemma Headers_set_refused (name value : string) (h : Worker.Headers) :
  Spec.writable value = false →
  Worker.Headers_set name value h = Throw Worker.invalid_header_value.
Proof. unfold Spec.writable, Worker.Headers_set. by intros ->. Qed.

(** What a successful write stores. *)
Lemma Headers_set_stored (name value : string) (h h' : Worker.Headers) :
  Worker.Headers_set name value h = Ok h' →
  h' = <[toLowerCase name := Worker.normalize_value value]> h.
Proof.
  unfold Worker.Headers_set. cbv zeta.
  destruct (Worker.valid_value _); [by intros [= <-] | done].
Qed.

(** The three CORS headers are literal and are always written. *)
Lemma addCORSHeaders_run (h : Worker.Headers) :
  Worker.addCORSHeaders h
  = Ok (<["access-control-allow-headers" := "Content-Type"]>
          (<["access-control-allow-methods" := "GET, POST, OPTIONS"]>
             (<["access-control-allow-origin" := "*"]> h))).
Proof. reflexivity. Qed.

(** An error response is always built. *)
Lemma createErrorResponse_run (message : string) (status : Z)
    (details : option (ProcessingError * option string)) :
  Worker.createErrorResponse message status details
  = Ok {| Worker.Response.status := status;
          Worker.Response.statusText := "";
          Worker.Response.headers :=
            Worker.Headers_of
              [("Content-Type", "application/json");
               ("Access-Control-Allow-Origin", "*");
               ("Access-Control-Allow-Methods", "GET, POST, OPTIONS");
               ("Access-Control-Allow-Headers", "Content-Type")];
          Worker.Response.body := Worker.ErrorJson message details |}.
Proof. reflexivity. Qed.


(** Whatever the fallback headers are, a relayed fallback answer carries the
    CORS headers. *)
Lemma fallback_headers_origin (message requestId : string) (h headers : Worker.Headers) :
  Spec.fallback_headers message requestId h = Ok headers →
  Worker.Headers_get "Access-Control-Allow-Origin" headers = Some "*".
Proof.
  unfold Spec.fallback_headers.
  destruct (Worker.Headers_set "X-Fallback-Used" "true" h) as [h1|]; [|done].
  cbn [mbind result_bind bind].
  destruct (Worker.Headers_set "X-Original-Error" message h1) as [h2|]; [|done].
  cbn [mbind result_bind bind].
  destruct (Worker.Headers_set "X-Request-ID" requestId h2) as [h3|]; [|done].
  cbn [mbind result_bind bind].
  rewrite addCORSHeaders_run. intros [= <-].
  unfold Worker.Headers_get. lower_names. by simplify_map_eq.
Qed.

(** ** Generation and fallback *)

(** The fallback attempt, in closed form: one call of [env.AI.run], logged,
    and always a response: the provider's answer under the fallback headers,
    or the 503 error response when the call fails or a header is refused. *)
Lemma handlePipelineFailure_run (chatRequest : ChatRequest) (error : ProcessingError)
    (env : Worker.Env) (log : Worker.Log) :
  let options := Worker.runOptions (Worker.fallbackMessages chatRequest error) in
  let outcome := Worker.AI_run env (length log) Worker.CONFIG.model options in
  let unavailable (fallbackError : string) :=
    Worker.createErrorResponse ERROR_MESSAGES.LLM_FAILURE 503
      (Some (error, Some fallbackError)) in
  Worker.handlePipelineFailure chatRequest error env log
  = (match outcome with
     | Ok fallback =>
         if Worker.Response.ok fallback then
           match
             Spec.fallback_headers (ProcessingError.message error)
               (RequestContext.requestId (ProcessingError.context error))
               (Worker.Response.headers fallback)
           with
           | Ok headers =>
               Ok {| Worker.Response.status := Worker.Response.status fallback;
                     Worker.Response.statusText := "";
                     Worker.Response.headers := headers;
                     Worker.Response.body := Worker.Response.body fallback |}
           | Throw e => unavailable (message_or "Unknown fallback error" e)
           end
         else
           unavailable
             ("Fallback LLM also failed: " +:+ pretty (Worker.Response.status fallback))
     | Throw e => unavailable (message_or "Unknown fallback error" e)
     end,
     log ++ [(options, outcome)]).
Proof.
  intros options outcome unavailable. subst options outcome unavailable.
  unfold Worker.handlePipelineFailure, Spec.fallback_headers. run_effects.
  case_run answer e; [|reflexivity].
  destruct (Worker.Response.ok answer); cbn [negb]; [|reflexivity].
  destruct (Worker.Headers_set "X-Fallback-Used" "true" _) as [h1|e1];
    cbn [mbind result_bind bind]; [|reflexivity].
  destruct (Worker.Headers_set "X-Original-Error" _ h1) as [h2|e2];
    cbn [mbind result_bind bind]; [|reflexivity].
  destruct (Worker.Headers_set "X-Request-ID" _ h2) as [h3|e3];
    cbn [mbind result_bind bind]; [|reflexivity].
  by destruct (Worker.addCORSHeaders h3).
Qed.

Section Pipeline.

Variables (chatRequest : ChatRequest) (context : RequestContext).
Variables (env : Worker.Env) (now : Z) (ragContext : RAGContext).

Hypothesis Hsearch :
  Worker.searchAutoRAG (RequestContext.userMessage context)
    (VObj (RequestContext.ragSettings context)) env = Ok ragContext.

Let primaryOptions : Worker.RunOptions :=
  Worker.runOptions
    (Worker.enhancedMessages chatRequest
       (Worker.buildEnhancedSystemPrompt (Spec.base_prompt context) ragContext true)).

Let fallbackOptions : Worker.RunOptions :=
  Worker.runOptions
    (ChatMessage.mk system (Spec.base_prompt context)
     :: List.filter Worker.not_system (ChatRequest.messages chatRequest)).

Let first : result Worker.Response :=
  Worker.AI_run env 0 Worker.CONFIG.model primaryOptions.

Let second : result Worker.Response :=
  Worker.AI_run env 1 Worker.CONFIG.model fallbackOptions.

Let written : result Worker.Headers := Spec.diagnostics context now ragContext.

(** The error handed to the fallback. *)
Let failure (e : thrown) : ProcessingError :=
  {| ProcessingError.stage := llm;
     ProcessingError.message := message_or "Pipeline processing failed" e;
     ProcessingError.context := context;
     ProcessingError.recoverable := true;
     ProcessingError.fallbackAction := Some "Use general knowledge without RAG context" |}.

(** The primary attempt succeeds: one call, and the provider's answer under
    headers of the worker's own. *)
Lemma pipeline_primary (upstream : Worker.Response) (headers : Worker.Headers) :
  first = Ok upstream →
  Worker.Response.ok upstream = true →
  written = Ok headers →
  Worker.processAutoRAGPipeline chatRequest context env now []
  = (Ok {| Worker.Response.status := Worker.Response.status upstream;
           Worker.Response.statusText := "";
           Worker.Response.headers := headers;
           Worker.Response.body := Worker.Response.body upstream |},
     [(primaryOptions, first)]).
Proof.
  intros Hfirst Hok. subst written. unfold Spec.diagnostics.
  unfold Worker.processAutoRAGPipeline, Worker.generateLLMResponse.
  run_effects. rewrite Hsearch. cbn [length].
  fold (Spec.base_prompt context). fold primaryOptions. fold first.
  rewrite Hfirst, Hok. cbn [negb app Worker.Response.headers].
  destruct (Worker.Headers_set "X-Processing-Time" _ _) as [h1|];
    cbn [mbind result_bind bind]; [|done].
  destruct (Worker.Headers_set "X-RAG-Documents" _ h1) as [h2|];
    cbn [mbind result_bind bind]; [|done].
  destruct (Worker.Headers_set "X-RAG-Average-Score" _ h2) as [h3|];
    cbn [mbind result_bind bind]; [|done].
  destruct (Worker.Headers_set "X-Request-ID" _ h3) as [h4|]; [|done].
  by intros [= <-].
Qed.

(** The primary attempt fails, at the call or at the headers: the fallback
    runs on the error, after the one call logged. *)
Lemma pipeline_failure (e : thrown) :
  Spec.primary_error first written = Some e →
  Worker.processAutoRAGPipeline chatRequest context env now []
  = Worker.handlePipelineFailure chatRequest (failure e) env [(primaryOptions, first)].
Proof.
  subst written. unfold Spec.primary_error, Spec.diagnostics.
  unfold Worker.processAutoRAGPipeline, Worker.generateLLMResponse.
  run_effects. rewrite Hsearch. cbn [length].
  fold (Spec.base_prompt context). fold primaryOptions. fold first.
  destruct first as [upstream|e0] eqn:Hcall; [|by intros [= <-]].
  destruct (Worker.Response.ok upstream) eqn:Hok; cbn [negb app Worker.Response.headers];
    [|by intros [= <-]].
  destruct (Worker.Headers_set "X-Processing-Time" _ _) as [h1|];
    cbn [mbind result_bind bind]; [|by intros [= <-]].
  destruct (Worker.Headers_set "X-RAG-Documents" _ h1) as [h2|];
    cbn [mbind result_bind bind]; [|by intros [= <-]].
  destruct (Worker.Headers_set "X-RAG-Average-Score" _ h2) as [h3|];
    cbn [mbind result_bind bind]; [|by intros [= <-]].
  destruct (Worker.Headers_set "X-Request-ID" _ h3) as [h4|]; [done | by intros [= <-]].
Qed.

(** A failed first call is an error of the primary attempt, and its message
    is the one handed on. *)
Lemma failed_call_error :
  Spec.failed first = true →
  ∃ e,
    Spec.primary_error first written = Some e ∧
    message_or "Pipeline processing failed" e = Spec.failure_message first.
Proof.
  unfold Spec.failed, Spec.primary_error.
  destruct first as [upstream|e]; [|by exists e].
  intros Hfailed. apply negb_true_iff in Hfailed. rewrite Hfailed. by eexists.
Qed.

(** Without a failed call, the only error of the primary attempt is a
    refused header. *)
Lemma passed_call_error :
  Spec.failed first = false →
  Spec.primary_error first written
  = match written with Ok _ => None | Throw e => Some e end.
Proof.
  unfold Spec.failed, Spec.primary_error.
  destruct first as [upstream|e]; [|done].
  intros Hfailed. apply negb_false_iff in Hfailed. by rewrite Hfailed.
Qed.

(** The fallback call is the second call, with the base prompt. *)
Lemma pipeline_fallback_run (e : thrown) :
  Spec.primary_error first written = Some e →
  Worker.processAutoRAGPipeline chatRequest context env now []
  = (match second with
     | Ok fallback =>
         if Worker.Response.ok fallback then
           match
             Spec.fallback_headers (message_or "Pipeline processing failed" e)
               (RequestContext.requestId context) (Worker.Response.headers fallback)
           with
           | Ok headers =>
               Ok {| Worker.Response.status := Worker.Response.status fallback;
                     Worker.Response.statusText := "";
                     Worker.Response.headers := headers;
                     Worker.Response.body := Worker.Response.body fallback |}
           | Throw e' =>
               Worker.createErrorResponse ERROR_MESSAGES.LLM_FAILURE 503
                 (Some (failure e, Some (message_or "Unknown fallback error" e')))
           end
         else
           Worker.createErrorResponse ERROR_MESSAGES.LLM_FAILURE 503
             (Some (failure e,
                    Some ("Fallback LLM also failed: " +:+
                          pretty (Worker.Response.status fallback))))
     | Throw e' =>
         Worker.createErrorResponse ERROR_MESSAGES.LLM_FAILURE 503
           (Some (failure e, Some (message_or "Unknown fallback error" e')))
     end,
     [(primaryOptions, first); (fallbackOptions, second)]).
Proof.
  intros Herror. rewrite (pipeline_failure e Herror), handlePipelineFailure_run.
  reflexivity.
Qed.

(** The log of the run: one call, or two when the primary attempt failed. *)
Lemma pipeline_log :
  (Worker.processAutoRAGPipeline chatRequest context env now []).2
  = match Spec.primary_error first written with
    | Some _ => [(primaryOptions, first); (fallbackOptions, second)]
    | None => [(primaryOptions, first)]
    end.
Proof.
  destruct (Spec.primary_error first written) as [e|] eqn:Herror.
  - by rewrite (pipeline_fallback_run e Herror).
  - unfold Spec.primary_error in Herror.
    destruct first as [upstream|e] eqn:Hcall; [|done].
    destruct (Worker.Response.ok upstream) eqn:Hok; [|done].
    destruct written as [headers|e] eqn:Hwritten; [|done].
    rewrite (pipeline_primary upstream headers) by done. cbn [snd]. by rewrite Hcall.
Qed.

(** The primary attempt fails and the fallback call fails too: the 503
    error response. *)
Lemma pipeline_unavailable (e : thrown) :
  Spec.primary_error first written = Some e →
  Spec.failed second = true →
  ∃ details,
    Worker.processAutoRAGPipeline chatRequest context env now []
    = (Worker.createErrorResponse ERROR_MESSAGES.LLM_FAILURE 503 (Some details),
       [(primaryOptions, first); (fallbackOptions, second)]).
Proof.
  intros Herror Hsecond. rewrite (pipeline_fallback_run e Herror).
  destruct second as [fallback|e']; [|by eexists].
  simpl in Hsecond. apply negb_true_iff in Hsecond. rewrite Hsecond. by eexists.
Qed.

(** The diagnostic headers keep the CORS headers of the generated response. *)
Lemma diagnostics_origin (headers : Worker.Headers) :
  written = Ok headers →
  Worker.Headers_get "Access-Control-Allow-Origin" headers = Some "*".
Proof.
  subst written. unfold Spec.diagnostics.
  destruct (Worker.Headers_set "X-Processing-Time" _ _) as [h1|] eqn:H1;
    cbn [mbind result_bind bind]; [|done].
  destruct (Worker.Headers_set "X-RAG-Documents" _ h1) as [h2|] eqn:H2;
    cbn [mbind result_bind bind]; [|done].
  destruct (Worker.Headers_set "X-RAG-Average-Score" _ h2) as [h3|] eqn:H3;
    cbn [mbind result_bind bind]; [|done].
  intros H4.
  apply Headers_set_stored in H1, H2, H3, H4. subst h1 h2 h3 headers.
  unfold Worker.Headers_get, Worker.Headers_of. cbn [fold_left fst snd].
  lower_names. by simplify_map_eq.
Qed.

(** The pipeline always answers: with a success status relayed from the
    provider or with 503, and with the CORS headers. *)
Lemma pipeline_response :
  ∃ response,
    (Worker.processAutoRAGPipeline chatRequest context env now []).1 = Ok response ∧
    Spec.allows_any_origin response = true ∧
    (Worker.Response.status response = 503 ∨
     200 ≤ Worker.Response.status response ≤ 299).
Proof.
  destruct (Spec.primary_error first written) as [e|] eqn:Herror.
  - rewrite (pipeline_fallback_run e Herror). cbn [fst].
    destruct second as [fallback|e']; [|rewrite createErrorResponse_run; by eauto].
    destruct (Worker.Response.ok fallback) eqn:Hok;
      [|rewrite createErrorResponse_run; by eauto].
    destruct (Spec.fallback_headers _ _ _) as [headers|e'] eqn:Hheaders;
      [|rewrite createErrorResponse_run; by eauto].
    eexists. split; [reflexivity|]. split.
    + unfold Spec.allows_any_origin. cbn [Worker.Response.headers].
      by rewrite (fallback_headers_origin _ _ _ _ Hheaders).
    + right. cbn [Worker.Response.status]. unfold Worker.Response.ok in Hok. lia.
  - unfold Spec.primary_error in Herror.
    destruct first as [upstream|e] eqn:Hcall; [|done].
    destruct (Worker.Response.ok upstream) eqn:Hok; [|done].
    destruct written as [headers|e] eqn:Hwritten; [|done].
    rewrite (pipeline_primary upstream headers) by done.
    eexists. split; [reflexivity|]. split.
    + unfold Spec.allows_any_origin. cbn [Worker.Response.headers].
      by rewrite (diagnostics_origin headers).
    + right. cbn [Worker.Response.status]. unfold Worker.Response.ok in Hok. lia.
Qed.

End Pipeline.

Section Fallback.

Variables (chatRequest : ChatRequest) (context : RequestContext).
Variables (env : Worker.Env) (now : Z).


End Fallback.



(** ** The stream consumer and the retry controller *)

Section Browser.

Variable JSON_parse : string → result jsval.
Variable ToString : jsval → string.
Variable fetch : nat → Client.RequestBody → result Client.HttpResponse.

Abbreviation line_fragment := (Client.line_fragment JSON_parse ToString).
Abbreviation process_chunk := (Client.process_chunk JSON_parse ToString).
Abbreviation read_loop := (Client.read_loop JSON_parse ToString).
Abbreviation processStreamingResponse := (Client.processStreamingResponse JSON_parse ToString).
Abbreviation sendMessage := (Client.sendMessage JSON_parse ToString fetch).
Abbreviation fire := (Client.fire JSON_parse ToString fetch).

Lemma bind_run {A B : Type} (m : Client.C A) (k : A → Client.C B) (st : Client.State) :
  (x ← m; k x) st
  = match m st with
    | (Ok a, st') => k a st'
    | (Throw e, st') => (Throw e, st')
    end.
Proof. reflexivity. Qed.

(** Lines without a fragment leave the text, the flag and the page alone. *)
Lemma lines_without_fragment (messageElement : nat) (lines : list string)
    (m : Client.C (string * bool)) (acc : string * bool) (st : Client.State) :
  forallb (λ line, match line_fragment line with Some _ => false | None => true end)
    lines = true →
  m st = (Ok acc, st) →
  foldl
    (λ (m : Client.C (string * bool)) line,
       acc ← m;
       match line_fragment line with
       | Some fragment =>
           let responseText := acc.1 +:+ fragment in
           _ ← Client.set_textContent messageElement responseText;
           ret (responseText, true)
       | None => ret acc
       end)
    m lines st
  = (Ok acc, st).
Proof.
  revert m. induction lines as [|line lines IH]; intros m Hnone Hm; simpl; [done|].
  simpl in Hnone. apply andb_prop in Hnone as [Hline Hlines].
  apply IH; [done|].
  run_effects. rewrite Hm.
  by destruct (line_fragment line).
Qed.

Lemma read_loop_without_fragment (messageElement : nat) (chunks : list string)
    (acc : string * bool) (st : Client.State) :
  Spec.no_fragment JSON_parse ToString chunks = true →
  read_loop messageElement chunks Client.Done acc st = (Ok acc, st).
Proof.
  induction chunks as [|chunk chunks IH]; intros Hnone; simpl; [done|].
  simpl in Hnone. apply andb_prop in Hnone as [Hchunk Hchunks].
  run_effects. unfold Client.process_chunk.
  rewrite (lines_without_fragment _ _ _ acc st Hchunk); [|done].
  by apply IH.
Qed.

(** A stream that ends without a fragment is an error of its own. *)
Lemma stream_without_fragment (response : Client.HttpResponse)
    (messageElement messageId : nat) (st : Client.State) :
  Client.HttpResponse.ending response = Client.Done →
  Spec.no_fragment JSON_parse ToString (Client.HttpResponse.chunks response) = true →
  processStreamingResponse response messageElement messageId st
  = (Throw (JSError "No response content received"), st).
Proof.
  intros Hdone Hnone. unfold Client.processStreamingResponse. run_effects.
  rewrite Hdone, (read_loop_without_fragment _ _ _ _ Hnone).
  reflexivity.
Qed.

(** What the retry controller does with that error: the generic message,
    no timer, a fresh attempt count. *)
Lemma no_content_not_retried (messageId : nat) (st : Client.State) :
  Client.handleChatError (JSError "No response content received") messageId st
  = (Ok tt,
     Client.set_retryAttempts 0
       (Client.set_chatMessages
          (Client.chatMessages st ++ [("assistant", ERROR_MESSAGES.UNKNOWN_ERROR)])
          (Client.set_messageIdCounter (S (Client.messageIdCounter st)) st))).
Proof. reflexivity. Qed.

(** C3, as amended.  A response with a success status whose stream ends
    without a text fragment makes the exchange fail with the error
    ["No response content received"]; the retry controller answers it with
    the generic error message and schedules no retry: the timers are as they
    were and the attempt count is 0. *)
Theorem empty_stream_fails_without_retry (st : Client.State) (response : Client.HttpResponse) :
  Spec.can_send st = true →
  (∀ body, fetch (length (Client.requests st)) body = Ok response) →
  Client.HttpResponse.ok response = true →
  Client.HttpResponse.ending response = Client.Done →
  Spec.no_fragment JSON_parse ToString (Client.HttpResponse.chunks response) = true →
  (∀ messageElement messageId page,
     processStreamingResponse response messageElement messageId page
     = (Throw (JSError "No response content received"), page)) ∧
  let st' := (sendMessage st).2 in
  (sendMessage st).1 = Ok tt ∧
  length (Client.requests st') = S (length (Client.requests st)) ∧
  last (Client.chatMessages st') = Some ("assistant", ERROR_MESSAGES.UNKNOWN_ERROR) ∧
  Client.timers st' = Client.timers st ∧
  Client.retryAttempts st' = 0%nat ∧
  Client.isProcessing st' = false.
Proof.
  intros Hsend Hfetch Hok Hdone Hnone. split.
  { intros. by apply stream_without_fragment. }
  unfold Spec.can_send in Hsend. apply andb_prop in Hsend as [Htext Hidle].
  apply negb_true_iff in Htext, Hidle.
  unfold Client.sendMessage. run_effects. rewrite Htext, Hidle.
  cbn [orb]. unfold Client.setProcessingState, Client.generateMessageId,
    Client.addMessageToChat, Client.createAssistantMessageElement,
    Client.sendChatRequest.
  run_effects. cbn [Client.requests Client.set_requests Client.set_chatMessages
    Client.set_messageIdCounter Client.set_chatHistory Client.set_userInput
    Client.set_isProcessing].
  rewrite Hfetch, Hok. cbn [negb].
  rewrite stream_without_fragment by done.
  rewrite no_content_not_retried. simpl.
  repeat split; try done.
  - rewrite length_app. simpl. lia.
  - by rewrite last_snoc.
Qed.

(** *** What an exchange leaves in the input field *)

Lemma lines_keep_input (messageElement : nat) (lines : list string)
    (m : Client.C (string * bool)) (st : Client.State) :
  Client.userInput (m st).2 = Client.userInput st →
  Client.userInput
    (foldl
       (λ (m : Client.C (string * bool)) line,
          acc ← m;
          match line_fragment line with
          | Some fragment =>
              let responseText := acc.1 +:+ fragment in
              _ ← Client.set_textContent messageElement responseText;
              ret (responseText, true)
          | None => ret acc
          end)
       m lines st).2
  = Client.userInput st.
Proof.
  revert m. induction lines as [|line lines IH]; intros m Hm; simpl; [done|].
  apply IH. run_effects. destruct (m st) as [[acc|e] st']; simpl in *; [|done].
  by destruct (line_fragment line).
Qed.

Lemma process_chunk_keeps_input (messageElement : nat) (chunk : string)
    (acc : string * bool) (st : Client.State) :
  Client.userInput (process_chunk messageElement chunk acc st).2 = Client.userInput st.
Proof. unfold Client.process_chunk. by apply lines_keep_input. Qed.

Lemma read_loop_keeps_input (messageElement : nat) (chunks : list string)
    (ending : Client.StreamEnd) (acc : string * bool) (st : Client.State) :
  Client.userInput (read_loop messageElement chunks ending acc st).2
  = Client.userInput st.
Proof.
  revert acc st. induction chunks as [|chunk chunks IH]; intros acc st; simpl.
  - by destruct ending.
  - rewrite bind_run.
    pose proof (process_chunk_keeps_input messageElement chunk acc st) as Hchunk.
    destruct (process_chunk messageElement chunk acc st) as [[acc'|e] st'];
      simpl in Hchunk; [|done].
    by rewrite IH.
Qed.

Lemma processStreamingResponse_keeps_input (response : Client.HttpResponse)
    (messageElement messageId : nat) (st : Client.State) :
  Client.userInput (processStreamingResponse response messageElement messageId st).2
  = Client.userInput st.
Proof.
  unfold Client.processStreamingResponse. run_effects.
  pose proof (read_loop_keeps_input messageElement (Client.HttpResponse.chunks response)
                (Client.HttpResponse.ending response) ("", false) st) as Hloop.
  destruct (read_loop _ _ _ _ st) as [[[responseText hasContent]|e] st'];
    simpl in *; [|done].
  by destruct (String.eqb responseText ""), hasContent.
Qed.

Lemma handleChatError_keeps_input (error : thrown) (messageId : nat) (st : Client.State) :
  Client.userInput (Client.handleChatError error messageId st).2 = Client.userInput st.
Proof.
  unfold Client.handleChatError. run_effects.
  destruct (Client.classify error) as [[shown retry]|e]; simpl; [|done].
  by destruct retry, (Client.retryAttempts st <? Client.maxRetryAttempts)%nat.
Qed.

(** A send on an empty input field does nothing at all. *)
Lemma sendMessage_without_text (st : Client.State) :
  trim (Client.userInput st) = "" → sendMessage st = (Ok tt, st).
Proof. intros Hempty. unfold Client.sendMessage. run_effects. by rewrite Hempty. Qed.

(** Whatever becomes of an exchange, it leaves the input field empty. *)
Lemma sendMessage_clears_input (st : Client.State) :
  Spec.can_send st = true → Client.userInput (sendMessage st).2 = "".
Proof.
  intros Hsend. unfold Spec.can_send in Hsend. apply andb_prop in Hsend as [Htext Hidle].
  apply negb_true_iff in Htext, Hidle.
  unfold Client.sendMessage. run_effects. rewrite Htext, Hidle. cbn [orb].
  unfold Client.setProcessingState, Client.generateMessageId, Client.addMessageToChat,
    Client.createAssistantMessageElement, Client.sendChatRequest.
  run_effects.
  match goal with
  | |- context [fetch ?n ?body] => destruct (fetch n body) as [response|e]
  end.
  - destruct (Client.HttpResponse.ok response); cbn [negb].
    + match goal with
      | |- context [processStreamingResponse ?r ?el ?id ?s] =>
          pose proof (processStreamingResponse_keeps_input r el id s) as Hstream;
          destruct (processStreamingResponse r el id s) as [[[]|e] st']
      end; simpl in Hstream |- *.
      * done.
      * match goal with
        | |- context [Client.handleChatError ?e ?id ?s] =>
            pose proof (handleChatError_keeps_input e id s) as Herror;
            destruct (Client.handleChatError e id s) as [[[]|e'] st'']
        end; simpl in Herror |- *; congruence.
    + match goal with
      | |- context [Client.handleChatError ?e ?id ?s] =>
          pose proof (handleChatError_keeps_input e id s) as Herror;
          destruct (Client.handleChatError e id s) as [[[]|e'] st'']
      end; simpl in Herror |- *; congruence.
  - match goal with
    | |- context [Client.handleChatError ?e ?id ?s] =>
        pose proof (handleChatError_keeps_input e id s) as Herror;
        destruct (Client.handleChatError e id s) as [[[]|e'] st'']
    end; simpl in Herror |- *; congruence.
Qed.

(** A failure classified as retryable, below the bound: one more attempt is
    counted, the notice is due after a second and the send pipeline after
    [2000 * attempts] milliseconds. *)
Lemma retryable_failure_schedules (error : thrown) (messageId : nat) (shown : string)
    (st : Client.State) :
  Client.classify error = Ok (shown, true) →
  (Client.retryAttempts st < Client.maxRetryAttempts)%nat →
  let st' := (Client.handleChatError error messageId st).2 in
  Client.retryAttempts st' = S (Client.retryAttempts st) ∧
  Client.timers st' =
    Client.timers st ++
    [(1000, Client.ShowRetrying);
     (2000 * Z.of_nat (S (Client.retryAttempts st)), Client.Resend)].
Proof.
  intros Hverdict Hbound. unfold Client.handleChatError. run_effects.
  rewrite Hverdict. simpl.
  apply Nat.ltb_lt in Hbound. rewrite Hbound. simpl.
  by rewrite <- app_assoc.
Qed.

(** C4: what the code does.  An exchange, however it ends, leaves the input
    field empty; so the callback the retry controller schedules sends
    nothing: the send pipeline reads the input field and returns at once,
    and the page is as it was. *)
Theorem retry_resends_nothing (st : Client.State) :
  Spec.can_send st = true →
  let st' := (sendMessage st).2 in
  Client.userInput st' = "" ∧
  fire Client.Resend st' = (Ok tt, st').
Proof.
  intros Hsend st'.
  pose proof (sendMessage_clears_input st Hsend) as Hempty. fold st' in Hempty.
  split; [done|].
  simpl. apply sendMessage_without_text. by rewrite Hempty.
Qed.

End Browser.

Lemma empty_stream_fails_without_retry_witness :
  let st' :=
    (Client.sendMessage Samples.JSON_parse Samples.ToString
       (Samples.always Samples.silent_response)
       (Samples.page "Is water damage covered?")).2 in
  last (Client.chatMessages st') = Some ("assistant", ERROR_MESSAGES.UNKNOWN_ERROR) ∧
  Client.timers st' = [] ∧
  Client.retryAttempts st' = 0%nat.
Proof.
  intros st'.
  destruct (empty_stream_fails_without_retry Samples.JSON_parse Samples.ToString
              (Samples.always Samples.silent_response)
              (Samples.page "Is water damage covered?") Samples.silent_response)
    as (_ & _ & _ & Hshown & Htimers & Hattempts & _);
    [reflexivity | reflexivity | reflexivity | reflexivity | reflexivity |].
  split; [exact Hshown|]. split; [exact Htimers | exact Hattempts].
Defined.

(** C3, as stated, fails: after a 200 response without any text fragment
    the exchange has failed with the no-content error, one request has been
    sent, and no callback is pending that could send another. *)
Lemma empty_stream_counterexample :
  let st := Samples.page "Is water damage covered?" in
  let outcome :=
    Client.sendMessage Samples.JSON_parse Samples.ToString
      (Samples.always Samples.silent_response) st in
  Client.HttpResponse.ok Samples.silent_response = true ∧
  Client.processStreamingResponse Samples.JSON_parse Samples.ToString
    Samples.silent_response 1 2 st
  = (Throw (JSError "No response content received"), st) ∧
  length (Client.requests outcome.2) = 1%nat ∧
  Client.timers outcome.2 = [].
Proof.
  intros st outcome. repeat split; vm_compute; reflexivity.
Qed.

Lemma retry_resends_nothing_witness :
  let fetch := Samples.always Samples.unavailable_response in
  let st' :=
    (Client.sendMessage Samples.JSON_parse Samples.ToString fetch
       (Samples.page "Is water damage covered?")).2 in
  let notice := Client.fire Samples.JSON_parse Samples.ToString fetch Client.ShowRetrying st' in
  let resent := Client.fire Samples.JSON_parse Samples.ToString fetch Client.Resend st' in
  Client.retryAttempts st' = 1%nat ∧
  Client.timers st' = [(1000, Client.ShowRetrying); (2000, Client.Resend)] ∧
  length (Client.requests st') = 1%nat ∧
  last (Client.chatMessages notice.2) = Some ("assistant", "Retrying... (attempt 1 of 3)") ∧
  length (Client.requests resent.2) = 1%nat.
Proof.
  intros fetch st' notice resent.
  destruct (retry_resends_nothing Samples.JSON_parse Samples.ToString fetch
              (Samples.page "Is water damage covered?") eq_refl)
    as [_ Hresent].
  fold st' in Hresent. subst resent. rewrite Hresent.
  repeat split; vm_compute; reflexivity.
Defined.


(** * Further properties of the worker *)

(** ** Validation *)





(** ** Values that are always written

    The decimal of an integer, a [toFixed] and what is put together from
    them hold neither white space nor a forbidden code unit: they are stored
    as they are. *)

Lemma visible_char (c : ascii) :
  Spec.visible c = true → Worker.http_white c = false ∧ Worker.forbidden c = false.
Proof.
  unfold Spec.visible. intros [Hwhite Hforbidden]%andb_prop.
  by apply negb_true_iff in Hwhite, Hforbidden.
Qed.

Lemma plain_stripStart (s : string) : Spec.plain s = true → Worker.stripStart s = s.
Proof.
  destruct s as [|c s]; [done|]. simpl. intros [Hc _]%andb_prop.
  by destruct (visible_char c Hc) as [-> _].
Qed.

Lemma plain_stripEnd (s : string) : Spec.plain s = true → Worker.stripEnd s = s.
Proof.
  induction s as [|c s IH]; [done|]. simpl. intros [Hc Hs]%andb_prop.
  rewrite IH by done. by destruct (visible_char c Hc) as [-> _].
Qed.

Lemma plain_valid (s : string) : Spec.plain s = true → Worker.valid_value s = true.
Proof.
  induction s as [|c s IH]; [done|]. simpl. intros [Hc Hs]%andb_prop.
  destruct (visible_char c Hc) as [_ ->]. by apply IH.
Qed.

Lemma plain_normal (s : string) : Spec.plain s = true → Worker.normalize_value s = s.
Proof.
  intros Hs. unfold Worker.normalize_value.
  by rewrite plain_stripStart, plain_stripEnd.
Qed.

Lemma plain_writable (s : string) : Spec.plain s = true → Spec.writable s = true.
Proof.
  intros Hs. unfold Spec.writable. rewrite plain_normal by done. by apply plain_valid.
Qed.

Lemma plain_append (s t : string) : Spec.plain (s +:+ t) = Spec.plain s && Spec.plain t.
Proof.
  induction s as [|c s IH]; [done|].
  change (String c s +:+ t) with (String c (s +:+ t)). simpl.
  by rewrite IH, andb_assoc.
Qed.

Lemma plain_pretty_N_go (x : N) (s : string) :
  Spec.plain s = true → Spec.plain (pretty_N_go x s) = true.
Proof.
  revert s. induction (N.lt_wf_0 x) as [x _ IH]; intros s Hs.
  destruct (decide (x = 0)%N) as [->|Hx]; [by rewrite pretty_N_go_0|].
  rewrite pretty_N_go_step by lia. apply IH; [apply N.div_lt; lia|].
  simpl. rewrite Hs, andb_true_r. unfold pretty_N_char. by repeat case_match.
Qed.

Lemma plain_pretty_N (x : N) : Spec.plain (pretty x) = true.
Proof.
  unfold pretty, pretty_N. case_decide; [done|]. by apply plain_pretty_N_go.
Qed.

Lemma plain_pretty_nat (n : nat) : Spec.plain (pretty n) = true.
Proof. apply (plain_pretty_N (N.of_nat n)). Qed.

Lemma plain_pretty_Z (z : Z) : Spec.plain (pretty z) = true.
Proof.
  destruct z as [|p|p]; [done | apply (plain_pretty_N (Npos p)) |].
  change (pretty (Z.neg p)) with ("-" +:+ pretty (Npos p)).
  rewrite plain_append. simpl. apply plain_pretty_N.
Qed.

Lemma plain_zeros (n : nat) : Spec.plain (zeros n) = true.
Proof. induction n as [|n IH]; [done | exact IH]. Qed.

Lemma plain_substring (n m : nat) (s : string) :
  Spec.plain s = true → Spec.plain (String.substring n m s) = true.
Proof.
  revert n m. induction s as [|c s IH]; intros n m Hs; [by destruct n, m|].
  simpl in Hs. apply andb_prop in Hs as [Hc Hs].
  destruct n as [|n]; [destruct m as [|m]; [done|] | by apply IH].
  simpl. rewrite Hc. by apply IH.
Qed.

Lemma plain_substring_from (n : nat) (s : string) :
  Spec.plain s = true → Spec.plain (substring_from n s) = true.
Proof.
  revert s. induction n as [|n IH]; intros [|c s] Hs; try done.
  simpl in Hs. apply andb_prop in Hs as [_ Hs]. by apply IH.
Qed.

Lemma plain_rev_app (s t : string) :
  Spec.plain (String.rev_app s t) = Spec.plain s && Spec.plain t.
Proof.
  revert t. induction s as [|c s IH]; intros t; [done|].
  simpl. rewrite IH. simpl.
  by destruct (Spec.visible c), (Spec.plain s), (Spec.plain t).
Qed.

Lemma plain_rev (s : string) : Spec.plain s = true → Spec.plain (String.rev s) = true.
Proof. intros Hs. unfold String.rev. by rewrite plain_rev_app, Hs. Qed.

Lemma plain_dropZeros (s : string) :
  Spec.plain s = true → Spec.plain (dropZeros s) = true.
Proof.
  induction s as [|c s IH]; [done|]. intros Hs.
  pose proof Hs as Htail. simpl in Htail. apply andb_prop in Htail as [_ Htail].
  destruct (Ascii.eqb_spec c "0") as [->|Hc]; [by apply IH|].
  replace (dropZeros (String c s)) with (String c s); [done|].
  destruct c as [[] [] [] [] [] [] [] []]; try reflexivity. by destruct Hc.
Qed.

Lemma plain_digits (n : Z) : Spec.plain (digits n) = true.
Proof. apply plain_pretty_N. Qed.

Lemma plain_fixed_point (f : nat) (n : Z) : Spec.plain (fixed_point f n) = true.
Proof.
  unfold fixed_point. destruct f as [|f]; [apply plain_digits|].
  assert (Spec.plain (zeros (S (S f) - String.length (digits n)) +:+ digits n) = true)
    as Hpadded by by rewrite plain_append, plain_zeros, plain_digits.
  rewrite !plain_append.
  unfold substring_to. rewrite plain_substring, plain_substring_from by done.
  reflexivity.
Qed.

Lemma plain_toString_large (m : positive) (e : Z) :
  Spec.plain (toString_large m e) = true.
Proof.
  unfold toString_large. cbv zeta.
  match goal with
  | |- context [String.rev (dropZeros (String.rev ?v))] =>
      pose proof (plain_rev _ (plain_dropZeros _ (plain_rev v (plain_digits _)))) as Hsig;
      destruct (String.rev (dropZeros (String.rev v))) as [|c [|c' rest]]
  end; [done | |];
    simpl in Hsig; apply andb_prop in Hsig as [Hc Hrest];
    rewrite !plain_append, plain_pretty_nat; simpl; rewrite Hc, ?Hrest; reflexivity.
Qed.

Lemma plain_toFixed (f : nat) (x : float) : Spec.plain (toFixed f x) = true.
Proof.
  unfold toFixed. destruct (Prim2SF x) as [sign|sign| |sign m e].
  - apply plain_fixed_point.
  - by destruct sign.
  - done.
  - rewrite plain_append.
    destruct (ge_1e21 m e); rewrite ?plain_toString_large, ?plain_fixed_point;
      by destruct sign.
Qed.

(** The diagnostic headers are written whenever the request identifier can
    be. *)
Lemma diagnostics_written (context : RequestContext) (now : Z) (ragContext : RAGContext) :
  Spec.writable (RequestContext.requestId context) = true →
  ∃ headers, Spec.diagnostics context now ragContext = Ok headers.
Proof.
  intros Hid. unfold Spec.diagnostics.
  rewrite (Headers_set_writable "X-Processing-Time")
    by (apply plain_writable; by rewrite plain_append, plain_pretty_Z).
  cbn [mbind result_bind bind].
  rewrite (Headers_set_writable "X-RAG-Documents")
    by (apply plain_writable, plain_pretty_nat).
  cbn [mbind result_bind bind].
  rewrite (Headers_set_writable "X-RAG-Average-Score")
    by (apply plain_writable, plain_toFixed).
  cbn [mbind result_bind bind].
  rewrite (Headers_set_writable "X-Request-ID") by done.
  by eexists.
Qed.

(** The diagnostic headers, once written, are the ten headers of a streamed
    answer. *)
Lemma diagnostics_stored (context : RequestContext) (now : Z) (ragContext : RAGContext)
    (headers : Worker.Headers) :
  Spec.diagnostics context now ragContext = Ok headers →
  headers =
    Worker.Headers_of
      [("Content-Type", "text/event-stream");
       ("Cache-Control", "no-cache");
       ("Connection", "keep-alive");
       ("Access-Control-Allow-Origin", "*");
       ("Access-Control-Allow-Methods", "GET, POST, OPTIONS");
       ("Access-Control-Allow-Headers", "Content-Type");
       ("X-Processing-Time", pretty (now - RequestContext.startTime context) +:+ "ms");
       ("X-RAG-Documents", pretty (RAGContext.documentCount ragContext));
       ("X-RAG-Average-Score", toFixed 3 (RAGContext.averageScore ragContext));
       ("X-Request-ID", RequestContext.requestId context)].
Proof.
  unfold Spec.diagnostics.
  destruct (Worker.Headers_set "X-Processing-Time" _ _) as [h1|] eqn:H1;
    cbn [mbind result_bind bind]; [|done].
  destruct (Worker.Headers_set "X-RAG-Documents" _ h1) as [h2|] eqn:H2;
    cbn [mbind result_bind bind]; [|done].
  destruct (Worker.Headers_set "X-RAG-Average-Score" _ h2) as [h3|] eqn:H3;
    cbn [mbind result_bind bind]; [|done].
  intros H4.
  apply Headers_set_stored in H1, H2, H3, H4. by subst h1 h2 h3 headers.
Qed.


(** ** What reaches the model *)

Lemma filter_not_system (messages : list ChatMessage) :
  forallb Worker.not_system (List.filter Worker.not_system messages) = true.
Proof.
  induction messages as [|msg messages IH]; simpl; [done|].
  destruct (Worker.not_system msg) eqn:Hmsg; simpl; [by rewrite Hmsg|done].
Qed.

(** X2.  Serving a request calls the model once, and a second time exactly
    when the first call failed, the request identifier being a valid header
    value; it never calls the model a third time.  The first call carries
    the prompt built from the base prompt and the retrieved context, the
    second the base prompt alone; in both, the client's own system messages
    are dropped and its other messages follow in their order, and the
    generation options are the configured ones. *)
Theorem upstream_calls (chatRequest : ChatRequest) (context : RequestContext)
    (env : Worker.Env) (now : Z) :
  let log := (Worker.processAutoRAGPipeline chatRequest context env now []).2 in
  let others := List.filter Worker.not_system (ChatRequest.messages chatRequest) in
  ∃ ragContext primary,
    Worker.searchAutoRAG (RequestContext.userMessage context)
      (VObj (RequestContext.ragSettings context)) env = Ok ragContext ∧
    log !! 0%nat = Some primary ∧
    primary.2 = Worker.AI_run env 0 Worker.CONFIG.model primary.1 ∧
    Worker.RunOptions.messages primary.1 =
      ChatMessage.mk system
        (EnhancedSystemPrompt.prompt
           (Worker.buildEnhancedSystemPrompt (Spec.base_prompt context) ragContext true))
      :: others ∧
    (Spec.failed primary.2 = true →
     ∃ fallback,
       log = [primary; fallback] ∧
       fallback.2 = Worker.AI_run env 1 Worker.CONFIG.model fallback.1 ∧
       Worker.RunOptions.messages fallback.1 =
         ChatMessage.mk system (Spec.base_prompt context) :: others) ∧
    (Spec.failed primary.2 = false →
     Worker.valid_value (Worker.normalize_value (RequestContext.requestId context)) = true →
     log = [primary]) ∧
    (length log ≤ 2)%nat ∧
    forallb Worker.not_system others = true ∧
    Forall
      (λ call,
         Worker.RunOptions.max_tokens call.1 = 1024 ∧
         Worker.RunOptions.stream call.1 = true)
      log.
Proof.
  intros log others. subst log others.
  destruct (searchAutoRAG_returns (RequestContext.userMessage context)
              (VObj (RequestContext.ragSettings context)) env) as [ragContext Hsearch].
  rewrite (pipeline_log chatRequest context env now ragContext Hsearch).
  exists ragContext.
  match goal with
  | |- context [Spec.primary_error ?first ?written] =>
      pose proof (passed_call_error chatRequest context env now ragContext) as Hpassed;
      destruct (Spec.primary_error first written) as [e|] eqn:Herror
  end.
  - eexists. split; [done|]. split; [reflexivity|]. split; [reflexivity|].
    split; [reflexivity|]. split; [intros _; eexists; split; [reflexivity|]; split; reflexivity|].
    split.
    { intros Hcall Hid. cbn [snd] in Hcall. specialize (Hpassed Hcall).
      destruct (diagnostics_written context now ragContext Hid) as [headers Hwritten].
      by rewrite Hwritten in Hpassed. }
    split; [simpl; lia|]. split; [apply filter_not_system|].
    by repeat constructor.
  - eexists. split; [done|]. split; [reflexivity|]. split; [reflexivity|].
    split; [reflexivity|]. split.
    { intros Hcall. cbn [snd] in Hcall.
      destruct (failed_call_error chatRequest context env now ragContext Hcall)
        as (e & Herror' & _).
      congruence. }
    split; [done|].
    split; [simpl; lia|]. split; [apply filter_not_system|].
    by repeat constructor.
Qed.

(** ** The headers of a streamed answer *)

(** X3.  When one call was enough, the answer relays the provider's status and
    body under headers of the worker's own: the event-stream and CORS
    headers and the four diagnostic ones.  None of the provider's headers is
    passed on, and there is no fallback header. *)
Theorem primary_answer_headers (chatRequest : ChatRequest) (context : RequestContext)
    (env : Worker.Env) (now : Z) (options : Worker.RunOptions)
    (answer : result Worker.Response) :
  let outcome := Worker.processAutoRAGPipeline chatRequest context env now [] in
  outcome.2 = [(options, answer)] →
  ∃ upstream ragContext response,
    answer = Ok upstream ∧
    Worker.Response.ok upstream = true ∧
    Worker.searchAutoRAG (RequestContext.userMessage context)
      (VObj (RequestContext.ragSettings context)) env = Ok ragContext ∧
    outcome.1 = Ok response ∧
    Worker.Response.status response = Worker.Response.status upstream ∧
    Worker.Response.body response = Worker.Response.body upstream ∧
    Worker.Response.headers response =
      Worker.Headers_of
        [("Content-Type", "text/event-stream");
         ("Cache-Control", "no-cache");
         ("Connection", "keep-alive");
         ("Access-Control-Allow-Origin", "*");
         ("Access-Control-Allow-Methods", "GET, POST, OPTIONS");
         ("Access-Control-Allow-Headers", "Content-Type");
         ("X-Processing-Time", pretty (now - RequestContext.startTime context) +:+ "ms");
         ("X-RAG-Documents", pretty (RAGContext.documentCount ragContext));
         ("X-RAG-Average-Score", toFixed 3 (RAGContext.averageScore ragContext));
         ("X-Request-ID", RequestContext.requestId context)] ∧
    Worker.Headers_get "X-Fallback-Used" (Worker.Response.headers response) = None.
Proof.
  intros outcome. subst outcome.
  destruct (searchAutoRAG_returns (RequestContext.userMessage context)
              (VObj (RequestContext.ragSettings context)) env) as [ragContext Hsearch].
  rewrite (pipeline_log chatRequest context env now ragContext Hsearch).
  match goal with
  | |- context [Spec.primary_error ?first ?written] =>
      destruct (Spec.primary_error first written) as [e|] eqn:Herror; [discriminate|];
      intros [= <- <-]; unfold Spec.primary_error in Herror;
      destruct first as [upstream|e] eqn:Hcall; [|discriminate];
      destruct (Worker.Response.ok upstream) eqn:Hok; [|discriminate];
      destruct written as [headers|e] eqn:Hwritten; [|discriminate]
  end.
  rewrite (pipeline_primary chatRequest context env now ragContext Hsearch upstream headers
             Hcall Hok Hwritten).
  apply diagnostics_stored in Hwritten. subst headers.
  exists upstream, ragContext. eexists.
  repeat split; try done.
Qed.

(** X4.  When the first call failed and the second failed too, the answer is the
    503 error response with the fixed message, as JSON and with the CORS
    headers. *)
Theorem both_attempts_failed (chatRequest : ChatRequest) (context : RequestContext)
    (env : Worker.Env) (now : Z) (primary fallback : Worker.RunOptions * result Worker.Response) :
  let outcome := Worker.processAutoRAGPipeline chatRequest context env now [] in
  outcome.2 = [primary; fallback] →
  Spec.failed fallback.2 = true →
  ∃ response details,
    outcome.1 = Ok response ∧
    Worker.Response.status response = 503 ∧
    Worker.Response.body response
      = Worker.ErrorJson "AI model temporarily unavailable. Please try again." (Some details) ∧
    Worker.Headers_get "Content-Type" (Worker.Response.headers response)
      = Some "application/json" ∧
    Spec.allows_any_origin response = true ∧
    Worker.Headers_get "X-Fallback-Used" (Worker.Response.headers response) = None.
Proof.
  intros outcome. subst outcome.
  destruct (searchAutoRAG_returns (RequestContext.userMessage context)
              (VObj (RequestContext.ragSettings context)) env) as [ragContext Hsearch].
  rewrite (pipeline_log chatRequest context env now ragContext Hsearch).
  match goal with
  | |- context [Spec.primary_error ?first ?written] =>
      destruct (Spec.primary_error first written) as [e|] eqn:Herror; [|discriminate]
  end.
  intros [= <- <-] Hsecond. simpl in Hsecond.
  destruct (pipeline_unavailable chatRequest context env now ragContext Hsearch e
              Herror Hsecond) as [details ->].
  rewrite createErrorResponse_run.
  eexists _, details. repeat split; reflexivity.
Qed.

Lemma primary_answer_headers_witness :
  let chatRequest := ChatRequest.mk [ChatMessage.mk user "Is water damage covered?"] None VUndef in
  let env :=
    Samples.env_answering
      (Ok (Samples.response
             [Samples.document "policy.md" 0.8 [Samples.text_item "Water damage is covered."];
              Samples.document "claims.md" 0.4 [Samples.text_item "File a claim."]]))
      [Ok (Samples.upstream 200 "OK")] in
  let outcome :=
    Worker.processAutoRAGPipeline chatRequest
      (Worker.requestContext chatRequest 1000 "req_1") env 1025 [] in
  ∃ response,
    outcome.1 = Ok response ∧
    Worker.Headers_get "X-RAG-Documents" (Worker.Response.headers response) = Some "2" ∧
    Worker.Headers_get "X-RAG-Average-Score" (Worker.Response.headers response) = Some "0.600" ∧
    Worker.Headers_get "X-Processing-Time" (Worker.Response.headers response) = Some "25ms" ∧
    Worker.Headers_get "X-Request-ID" (Worker.Response.headers response) = Some "req_1".
Proof.
  intros chatRequest env outcome.
  edestruct (primary_answer_headers chatRequest
               (Worker.requestContext chatRequest 1000 "req_1") env 1025)
    as (upstream & ragContext & response & _ & _ & Hsearch & Hrun & _ & _ & Hheaders & _);
    [evaluate_left|].
  exists response. split; [exact Hrun|].
  injection Hsearch as <-. rewrite Hheaders.
  repeat split; vm_compute; reflexivity.
Defined.

Lemma both_attempts_failed_witness :
  let chatRequest := ChatRequest.mk [ChatMessage.mk user "Is water damage covered?"] None VUndef in
  let env :=
    Samples.env_answering (Throw (JSError "AutoRAG unavailable"))
      [Ok (Samples.upstream 500 "Internal Server Error"); Throw (JSError "upstream timed out")] in
  let outcome :=
    Worker.processAutoRAGPipeline chatRequest
      (Worker.requestContext chatRequest 1000 "req_1") env 1025 [] in
  ∃ response,
    outcome.1 = Ok response ∧ Worker.Response.status response = 503.
Proof.
  intros chatRequest env outcome.
  edestruct (both_attempts_failed chatRequest
               (Worker.requestContext chatRequest 1000 "req_1") env 1025)
    as (response & details & Hrun & Hstatus & _);
    [reflexivity | reflexivity |].
  exists response. split; [exact Hrun | exact Hstatus].
Defined.

(** ** The chat endpoint *)

Lemma sanitized_input (body : jsval) :
  ValidationResult.sanitizedInput (Worker.validateChatRequest body)
  = if ValidationResult.valid (Worker.validateChatRequest body)
    then Some (toChatRequest body) else None.
Proof. unfold Worker.validateChatRequest. by destruct (isChatRequest body). Qed.

Lemma handleChatRequest_invalid (body : jsval) (env : Worker.Env)
    (startTime now : Z) (requestId : string) (log : Worker.Log) :
  ValidationResult.valid (Worker.validateChatRequest body) = false →
  Worker.handleChatRequest (Ok body) env startTime now requestId log
  = (Worker.createErrorResponse
       ("Invalid request: " +:+
        join ", " (ValidationResult.errors (Worker.validateChatRequest body)))
       400 None,
     log).
Proof.
  intros Hinvalid. unfold Worker.handleChatRequest. run_effects.
  by rewrite Hinvalid.
Qed.

(** X5.  A body the validator rejects is answered with status 400 and the list of
    its errors, whatever the environment: neither the search nor the model
    is reached, and no call is logged. *)
Theorem invalid_request_reaches_no_binding (body : jsval) (env env' : Worker.Env)
    (startTime now : Z) (requestId : string) (log : Worker.Log) :
  ValidationResult.valid (Worker.validateChatRequest body) = false →
  let outcome := Worker.handleChatRequest (Ok body) env startTime now requestId log in
  outcome = Worker.handleChatRequest (Ok body) env' startTime now requestId log ∧
  outcome.2 = log ∧
  ∃ response,
    outcome.1 = Ok response ∧
    Worker.Response.status response = 400 ∧
    Worker.Response.body response
      = Worker.ErrorJson
          ("Invalid request: " +:+
           join ", " (ValidationResult.errors (Worker.validateChatRequest body)))
          None.
Proof.
  intros Hinvalid outcome. subst outcome.
  rewrite !handleChatRequest_invalid by done. rewrite createErrorResponse_run.
  split; [done|]. split; [done|]. by eexists.
Qed.

Lemma invalid_request_reaches_no_binding_witness :
  let body := VObj {[ "messages" := VArr [] ]} in
  (Worker.handleChatRequest (Ok body)
     (Samples.env_answering (Ok (Samples.response [])) [Ok (Samples.upstream 200 "OK")])
     1000 1025 "req_1" []).1
  = Worker.createErrorResponse
      "Invalid request: At least one message is required, At least one user message is required"
      400 None.
Proof.
  intros body.
  destruct (invalid_request_reaches_no_binding body
              (Samples.env_answering (Ok (Samples.response [])) [Ok (Samples.upstream 200 "OK")])
              (Samples.env_answering (Throw (JSError "unused")) [])
              1000 1025 "req_1" [])
    as (Hsame & _ & _); [vm_compute; reflexivity|].
  rewrite Hsame. vm_compute. reflexivity.
Defined.

Lemma handleChatRequest_answer (body : result jsval) (env : Worker.Env)
    (startTime now : Z) (requestId : string) :
  ∃ response,
    (Worker.handleChatRequest body env startTime now requestId []).1 = Ok response ∧
    Spec.allows_any_origin response = true ∧
    match body with
    | Throw _ => Worker.Response.status response = 500
    | Ok body =>
        if ValidationResult.valid (Worker.validateChatRequest body)
        then Worker.Response.status response = 503 ∨
             200 ≤ Worker.Response.status response ≤ 299
        else Worker.Response.status response = 400
    end.
Proof.
  destruct body as [body|e].
  - destruct (ValidationResult.valid (Worker.validateChatRequest body)) eqn:Hvalid.
    + unfold Worker.handleChatRequest. run_effects.
      rewrite Hvalid, sanitized_input, Hvalid. cbn [negb].
      set (chatRequest := toChatRequest body).
      set (context := Worker.requestContext chatRequest startTime requestId).
      destruct (searchAutoRAG_returns (RequestContext.userMessage context)
                  (VObj (RequestContext.ragSettings context)) env) as [ragContext Hsearch].
      destruct (pipeline_response chatRequest context env now ragContext Hsearch)
        as (response & Hrun & Horigin & Hstatus).
      destruct (Worker.processAutoRAGPipeline chatRequest context env now [])
        as [answer log].
      simpl in Hrun. subst answer. by exists response.
    + rewrite handleChatRequest_invalid by done.
      eexists. split; [reflexivity|]. split; reflexivity.
  - eexists. split; [reflexivity|]. split; reflexivity.
Qed.



(** ** The entry point *)

(** X7.  A request that is not a preflight and whose path is [/] or outside
    [/api/] is handed to the static assets, and the model is not called.
    Every other answer is the worker's own and carries the CORS headers: the
    preflight answer for [OPTIONS] on any path, 404 for an unknown API path,
    405 for a method other than [POST] on [/api/chat]. *)
Theorem entry_point_routes (request : Router.Request)
    (ASSETS_fetch : Router.Request → result Worker.Response) (env : Worker.Env)
    (startTime now : Z) (requestId : string) :
  let outcome := Router.fetch request ASSETS_fetch env startTime now requestId [] in
  let preflight := String.eqb (Router.method request) "OPTIONS" in
  let chat := String.eqb (Router.pathname request) "/api/chat" in
  if Spec.answered_by_worker request then
    ∃ response,
      outcome.1 = Ok response ∧
      Spec.allows_any_origin response = true ∧
      (if preflight then response = Worker.createCORSResponse ∧ outcome.2 = []
       else if negb chat then Worker.Response.status response = 404 ∧ outcome.2 = []
       else if negb (String.eqb (Router.method request) "POST")
            then Worker.Response.status response = 405 ∧ outcome.2 = []
            else outcome =
                 Worker.handleChatRequest (Router.json request) env startTime now requestId [])
  else outcome = (ASSETS_fetch request, []).
Proof.
  intros outcome preflight chat. subst outcome preflight chat.
  unfold Spec.answered_by_worker, Router.fetch.
  destruct (String.eqb (Router.method request) "OPTIONS"); cbn [orb].
  { eexists. split; [reflexivity|]. split; [reflexivity | done]. }
  destruct (String.eqb (Router.pathname request) "/" ||
            negb (startsWith (Router.pathname request) "/api/")); cbn [negb]; [done|].
  destruct (String.eqb (Router.pathname request) "/api/chat"); cbn [negb].
  - destruct (String.eqb (Router.method request) "POST"); cbn [negb].
    + destruct (handleChatRequest_answer (Router.json request) env startTime now requestId)
        as (response & Hrun & Horigin & _).
      by exists response.
    + eexists. split; [reflexivity|]. split; [reflexivity | done].
  - eexists. split; [reflexivity|]. split; [reflexivity | done].
Qed.

(** ** Retrieval failures *)

Lemma failed_search_is_empty (query : string) (ragSettings : jsval) (env : Worker.Env) :
  Spec.search_failed (Spec.search_call query ragSettings env) = true →
  Worker.searchAutoRAG query ragSettings env = Ok Worker.createEmptyRAGContext.
Proof.
  intros Hfailed. rewrite searchAutoRAG_cases.
  destruct (Spec.search_call query ragSettings env) as [searchResult|e]; [|done].
  simpl in Hfailed. apply negb_true_iff in Hfailed. by rewrite Hfailed.
Qed.

(** X20.  When the search throws or answers with something malformed, the
    request is served all the same: the first call of the model carries the
    base prompt without any addition, and, the request identifier being a
    valid header value, an answer to it is relayed with a document count of 0
    and an average score of 0.000. *)
Theorem failed_retrieval_is_served (chatRequest : ChatRequest)
    (context : RequestContext) (env : Worker.Env) (now : Z) :
  Spec.search_failed
    (Spec.search_call (RequestContext.userMessage context)
       (VObj (RequestContext.ragSettings context)) env) = true →
  Worker.valid_value (Worker.normalize_value (RequestContext.requestId context)) = true →
  let outcome := Worker.processAutoRAGPipeline chatRequest context env now [] in
  ∃ primary,
    outcome.2 !! 0%nat = Some primary ∧
    primary.2 = Worker.AI_run env 0 Worker.CONFIG.model primary.1 ∧
    Worker.RunOptions.messages primary.1 =
      ChatMessage.mk system (Spec.base_prompt context)
      :: List.filter Worker.not_system (ChatRequest.messages chatRequest) ∧
    (Spec.failed primary.2 = false →
     ∃ upstream response,
       primary.2 = Ok upstream ∧
       outcome = (Ok response, [primary]) ∧
       Worker.Response.status response = Worker.Response.status upstream ∧
       Worker.Response.body response = Worker.Response.body upstream ∧
       Worker.Headers_get "X-RAG-Documents" (Worker.Response.headers response) = Some "0" ∧
       Worker.Headers_get "X-RAG-Average-Score" (Worker.Response.headers response)
         = Some "0.000").
Proof.
  intros Hfailed Hid outcome. subst outcome.
  pose proof (failed_search_is_empty _ _ _ Hfailed) as Hsearch.
  destruct (diagnostics_written context now Worker.createEmptyRAGContext Hid)
    as [headers Hwritten].
  pose proof (pipeline_primary chatRequest context env now _ Hsearch) as Hprimary.
  pose proof (passed_call_error chatRequest context env now Worker.createEmptyRAGContext)
    as Hpassed.
  rewrite (pipeline_log chatRequest context env now _ Hsearch).
  cbv zeta in Hprimary, Hpassed. rewrite Hwritten in Hpassed.
  match goal with
  | |- context [Spec.primary_error ?first ?written] =>
      destruct (Spec.primary_error first written) as [e|] eqn:Herror
  end.
  - eexists. split; [reflexivity|]. split; [reflexivity|]. split; [reflexivity|].
    intros Hcall. cbn [snd] in Hcall.
    rewrite Hwritten, (Hpassed Hcall) in Herror. discriminate.
  - eexists. split; [reflexivity|]. split; [reflexivity|]. split; [reflexivity|].
    intros Hcall. cbn [snd] in Hcall |- *.
    match type of Hcall with
    | Spec.failed ?first = false =>
        destruct first as [upstream|e] eqn:Hfirst; [|discriminate]
    end.
    simpl in Hcall. apply negb_false_iff in Hcall.
    exists upstream. eexists. split; [reflexivity|].
    split; [exact (Hprimary upstream headers eq_refl Hcall Hwritten)|].
    split; [reflexivity|]. split; [reflexivity|].
    apply diagnostics_stored in Hwritten. subst headers.
    split; vm_compute; reflexivity.
Qed.

Lemma failed_retrieval_is_served_witness :
  let chatRequest := ChatRequest.mk [ChatMessage.mk user "Is water damage covered?"] None VUndef in
  let env :=
    Samples.env_answering (Ok (VObj {[ "data" := VStr "not an array" ]}))
      [Ok (Samples.upstream 200 "OK")] in
  let outcome :=
    Worker.processAutoRAGPipeline chatRequest
      (Worker.requestContext chatRequest 1000 "req_1") env 1025 [] in
  ∃ response,
    outcome.1 = Ok response ∧
    Worker.Response.status response = 200 ∧
    Worker.Headers_get "X-RAG-Documents" (Worker.Response.headers response) = Some "0".
Proof.
  intros chatRequest env outcome.
  destruct (failed_retrieval_is_served chatRequest
              (Worker.requestContext chatRequest 1000 "req_1") env 1025)
    as (primary & Hcall & Hanswer & _ & Hserved);
    [vm_compute; reflexivity | vm_compute; reflexivity |].
  vm_compute in Hcall. injection Hcall as <-.
  destruct (Hserved eq_refl) as (upstream & response & Hfirst & Hrun & Hstatus & _ & Hcount & _).
  exists response. split; [subst outcome; by rewrite Hrun|]. split; [|exact Hcount].
  rewrite Hstatus. vm_compute in Hfirst. by injection Hfirst as <-.
Defined.

(** X21.  When the first call failed with a message that cannot be written
    as a header value, such as one that holds a line feed, a fallback answer
    is not relayed, successful as it is: the response is the 503 error
    response, without the fallback header. *)
Theorem unwritable_failure_discards_fallback (chatRequest : ChatRequest)
    (context : RequestContext) (env : Worker.Env) (now : Z)
    (primaryOptions fallbackOptions : Worker.RunOptions)
    (primary : result Worker.Response) (fallback : Worker.Response) :
  let outcome := Worker.processAutoRAGPipeline chatRequest context env now [] in
  outcome.2 = [(primaryOptions, primary); (fallbackOptions, Ok fallback)] →
  Spec.failed primary = true →
  Worker.Response.ok fallback = true →
  Worker.valid_value (Worker.normalize_value (Spec.failure_message primary)) = false →
  ∃ response details,
    outcome.1 = Ok response ∧
    Worker.Response.status response = 503 ∧
    Worker.Response.body response
      = Worker.ErrorJson "AI model temporarily unavailable. Please try again." (Some details) ∧
    Worker.Headers_get "X-Fallback-Used" (Worker.Response.headers response) = None ∧
    Worker.Headers_get "X-Original-Error" (Worker.Response.headers response) = None.
Proof.
  intros outcome. subst outcome.
  destruct (searchAutoRAG_returns (RequestContext.userMessage context)
              (VObj (RequestContext.ragSettings context)) env)
    as (ragContext & Hsearch).
  rewrite (pipeline_log chatRequest context env now ragContext Hsearch).
  match goal with
  | |- context [Spec.primary_error ?first ?written] =>
      destruct (Spec.primary_error first written) as [e|] eqn:Herror; [|discriminate];
      intros [= <- <- <- Hsecond] Hfailed Hok Hmessage;
      destruct (failed_call_error chatRequest context env now ragContext Hfailed)
        as (e' & Herror' & Hhanded)
  end.
  rewrite Herror in Herror'. injection Herror' as <-.
  rewrite (pipeline_fallback_run chatRequest context env now ragContext Hsearch e Herror).
  rewrite Hsecond, Hok, Hhanded. cbn [fst].
  unfold Spec.fallback_headers.
  rewrite (Headers_set_writable "X-Fallback-Used" "true") by reflexivity.
  cbn [mbind result_bind bind].
  rewrite (Headers_set_refused "X-Original-Error") by exact Hmessage.
  cbn [mbind result_bind bind]. rewrite createErrorResponse_run.
  eexists _, _. repeat split; reflexivity.
Qed.

Lemma unwritable_failure_discards_fallback_witness :
  let chatRequest := ChatRequest.mk [ChatMessage.mk user "Is water damage covered?"] None VUndef in
  let env :=
    Samples.env_answering (Ok (Samples.response []))
      [Throw (JSError ("connection reset" +:+ nl +:+ "by peer"));
       Ok (Samples.upstream 200 "OK")] in
  let outcome :=
    Worker.processAutoRAGPipeline chatRequest
      (Worker.requestContext chatRequest 1000 "req_1") env 1025 [] in
  ∃ response,
    outcome.1 = Ok response ∧
    length outcome.2 = 2%nat ∧
    Worker.Response.status response = 503.
Proof.
  intros chatRequest env outcome.
  edestruct (unwritable_failure_discards_fallback chatRequest
               (Worker.requestContext chatRequest 1000 "req_1") env 1025)
    as (response & details & Hrun & Hstatus & _);
    [evaluate_left | reflexivity | reflexivity | reflexivity |].
  exists response. split; [exact Hrun|]. split; [|exact Hstatus].
  vm_compute. reflexivity.
Defined.

(** ** The context built from the documents *)

Lemma length_append (s t : string) :
  String.length (s +:+ t) = (String.length s + String.length t)%nat.
Proof. induction s as [|c s IH]; simpl; [done | by rewrite IH]. Qed.

Lemma substring_to_length (n : nat) (s : string) :
  String.length (substring_to n s) = Nat.min n (String.length s).
Proof.
  unfold substring_to. revert s.
  induction n as [|n IH]; intros [|c s]; simpl; try done.
  by rewrite IH.
Qed.

Lemma substring_to_all (n : nat) (s : string) :
  (String.length s ≤ n)%nat → substring_to n s = s.
Proof.
  unfold substring_to. revert s.
  induction n as [|n IH]; intros [|c s] Hlength; simpl in *; try done; [lia|].
  rewrite IH; [done | lia].
Qed.

Lemma append_empty (s : string) : s +:+ "" = s.
Proof.
  induction s as [|c s IH]; [done|].
  change (String c s +:+ "") with (String c (s +:+ "")). by rewrite IH.
Qed.

(** The excerpt as [buildRAGContext] writes it. *)
Lemma excerpt_built (text : string) :
  substring_to 200 text +:+ (if (200 <? String.length text)%nat then "..." else "")
  = Spec.excerpt text.
Proof.
  unfold Spec.excerpt. destruct (200 <? String.length text)%nat eqn:Hlong; [done|].
  apply Nat.ltb_ge in Hlong. cbv iota. by rewrite append_empty, substring_to_all.
Qed.

Lemma excerpt_length (text : string) : (String.length (Spec.excerpt text) ≤ 203)%nat.
Proof.
  unfold Spec.excerpt.
  destruct (200 <? String.length text)%nat eqn:Hlong.
  - rewrite length_append, substring_to_length.
    change (String.length "...") with 3%nat. lia.
  - apply Nat.ltb_ge in Hlong. lia.
Qed.

(** What the loop over the documents collects: a source and a context entry
    for each document with text, in the order of the documents. *)
Lemma forEach_collects (documents : list jsval) (index : nat) (acc : Worker.Collected) :
  Worker.sources (Worker.forEach documents index acc)
  = Worker.sources acc ++ map Spec.source_of (List.filter Spec.has_text documents) ∧
  length (Worker.contextParts (Worker.forEach documents index acc))
  = (length (Worker.contextParts acc) + length (List.filter Spec.has_text documents))%nat ∧
  (Forall (λ part, (0 < String.length part)%nat) (Worker.contextParts acc) →
   Forall (λ part, (0 < String.length part)%nat)
     (Worker.contextParts (Worker.forEach documents index acc))).
Proof.
  revert index acc.
  induction documents as [|doc documents IH]; intros index acc; simpl.
  - rewrite app_nil_r. split; [done|]. split; [lia | done].
  - destruct (IH (S index) (Worker.visit acc index doc)) as (Hsources & Hparts & Hfull).
    rewrite Hsources, Hparts. clear IH Hsources Hparts.
    unfold Worker.visit, Spec.has_text in *.
    destruct (isSearchResult doc); simpl in *; [|done].
    destruct (String.eqb (Worker.textContent doc) ""); simpl in *; [done|].
    split; [rewrite <- app_assoc; unfold Spec.source_of; by rewrite <- excerpt_built|].
    split; [rewrite length_app; simpl; lia|].
    intros Hacc. apply Hfull. apply Forall_app. split; [done|].
    constructor; [simpl; lia | constructor].
Qed.

Lemma join_length (sep : string) (parts : list string) :
  Forall (λ part, (0 < String.length part)%nat) parts →
  ((0 <? String.length (join sep parts)) = (0 <? length parts))%nat.
Proof.
  intros Hparts. destruct Hparts as [|part parts Hpart _]; [done|].
  destruct part as [|c part]; [simpl in Hpart; lia|].
  by destruct parts.
Qed.

Section Built.

Variables (query : string) (ragSettings : jsval) (env : Worker.Env).

(** The context of a response whose [data] is an array, field by field. *)
Lemma searchAutoRAG_built (searchResult : jsval) (documents : list jsval) :
  Spec.search_call query ragSettings env = Ok searchResult →
  get searchResult "data" = VArr documents →
  ∃ context,
    Worker.searchAutoRAG query ragSettings env = Ok context ∧
    RAGContext.documentCount context = length documents ∧
    RAGContext.sources context = map Spec.source_of (List.filter Spec.has_text documents) ∧
    RAGContext.hasContext context = (0 <? length (List.filter Spec.has_text documents))%nat ∧
    RAGContext.hasContext context = (0 <? String.length (RAGContext.contextText context))%nat.
Proof.
  intros Hcall Hdata. rewrite searchAutoRAG_cases, Hcall, (well_formed_array _ _ Hdata).
  unfold Worker.buildRAGContext.
  assert (get_throw searchResult "data" = Ok (VArr documents)) as ->.
  { destruct searchResult; simpl in Hdata |- *; try discriminate; by rewrite Hdata. }
  cbn [mbind result_bind bind truthy negb orb Worker.length_is_zero].
  destruct documents as [|doc documents]; [by eexists|].
  cbn [length Nat.eqb]. eexists. split; [reflexivity|].
  cbn [RAGContext.documentCount RAGContext.sources RAGContext.hasContext
       RAGContext.contextText].
  match goal with
  | |- context [Worker.forEach ?docs ?i ?acc] =>
      destruct (forEach_collects docs i acc) as (Hsources & Hparts & Hfull)
  end.
  rewrite Hsources. split; [done|]. split; [done|]. split; [|done].
  rewrite join_length by (apply Hfull; constructor).
  by rewrite Hparts.
Qed.

(** X9.  The flag [hasContext] says whether there are sources, and a context
    that counts no document is the empty context: no text, no sources, an
    average score of 0. *)
Theorem context_iff_sources :
  ∃ context,
    Worker.searchAutoRAG query ragSettings env = Ok context ∧
    RAGContext.hasContext context = (0 <? length (RAGContext.sources context))%nat ∧
    RAGContext.hasContext context = (0 <? String.length (RAGContext.contextText context))%nat ∧
    (RAGContext.documentCount context = 0%nat → context = Worker.createEmptyRAGContext).
Proof.
  destruct (Spec.search_call query ragSettings env) as [searchResult|e] eqn:Hcall.
  - destruct (Spec.well_formed searchResult) eqn:Hshape.
    + pose proof Hshape as Harray. unfold Spec.well_formed in Harray.
      apply andb_prop in Harray as [_ Harray].
      destruct (get searchResult "data") as [| | | | |documents|] eqn:Hdata;
        try discriminate.
      destruct (searchAutoRAG_built _ _ Hcall Hdata)
        as (context & Hrun & Hcount & Hsources & Hflag & Htext).
      exists context. split; [exact Hrun|].
      rewrite Hsources, length_map. split; [done|]. split; [done|].
      rewrite Hcount. intros Hnone. destruct documents; [|discriminate].
      rewrite searchAutoRAG_cases, Hcall, Hshape in Hrun.
      unfold Worker.buildRAGContext in Hrun.
      destruct searchResult; simpl in Hdata; try discriminate.
      simpl in Hrun. rewrite Hdata in Hrun. simpl in Hrun. congruence.
    + exists Worker.createEmptyRAGContext.
      rewrite searchAutoRAG_cases, Hcall, Hshape. done.
  - exists Worker.createEmptyRAGContext. rewrite searchAutoRAG_cases, Hcall. done.
Qed.

(** X10.  The sources list one entry per shape-valid document with text, in the
    order of the response: its file name, its score, and its text cut to 200
    characters, with an ellipsis only when something was cut. *)
Theorem sources_follow_documents (searchResult : jsval) (documents : list jsval) :
  Spec.search_call query ragSettings env = Ok searchResult →
  get searchResult "data" = VArr documents →
  ∃ context,
    Worker.searchAutoRAG query ragSettings env = Ok context ∧
    let kept := List.filter Spec.has_text documents in
    map Source.filename (RAGContext.sources context) = map Spec.filename_of kept ∧
    map Source.score (RAGContext.sources context) = map Spec.score_of kept ∧
    map Source.relevantText (RAGContext.sources context)
      = map (λ doc, Spec.excerpt (Worker.textContent doc)) kept ∧
    Forall (λ source, (1 ≤ String.length (Source.relevantText source) ≤ 203)%nat)
      (RAGContext.sources context).
Proof.
  intros Hcall Hdata.
  destruct (searchAutoRAG_built _ _ Hcall Hdata) as (context & Hrun & _ & Hsources & _).
  exists context. split; [exact Hrun|]. cbv zeta. rewrite Hsources, !map_map.
  repeat split; try done.
  apply Forall_map, Forall_forall. intros doc Hdoc. simpl.
  apply list_elem_of_In, filter_In in Hdoc as [_ Htext].
  split; [|apply excerpt_length].
  unfold Spec.has_text in Htext. apply andb_prop in Htext as [_ Htext].
  apply negb_true_iff in Htext.
  unfold Spec.excerpt. destruct (Worker.textContent doc) as [|c text]; [done|].
  destruct (200 <? String.length (String c text))%nat; simpl; lia.
Qed.

End Built.

Lemma sources_follow_documents_witness :
  let documents :=
    [Samples.document "policy.md" 0.8 [Samples.text_item "Water damage is covered."];
     VNull;
     Samples.document "empty.md" 0.4 [];
     Samples.document "long.md" 0.5 [Samples.text_item Samples.long_text]] in
  ∃ context,
    Worker.searchAutoRAG "damage" Samples.settings
      (Samples.env_answering (Ok (Samples.response documents)) []) = Ok context ∧
    map Source.filename (RAGContext.sources context) = ["policy.md"; "long.md"] ∧
    map Source.relevantText (RAGContext.sources context)
      = ["Water damage is covered."; substring_to 200 Samples.long_text +:+ "..."].
Proof.
  intros documents.
  destruct (sources_follow_documents "damage" Samples.settings
              (Samples.env_answering (Ok (Samples.response documents)) [])
              (Samples.response documents) documents)
    as (context & Hrun & Hnames & _ & Htexts & _); [reflexivity | reflexivity |].
  exists context. split; [exact Hrun|].
  rewrite Hnames, Htexts. split; vm_compute; reflexivity.
Defined.

(** ** The numbering of the documents *)

Lemma forEach_parts (documents : list jsval) (index : nat) (acc : Worker.Collected) :
  Worker.contextParts (Worker.forEach documents index acc)
  = Worker.contextParts acc ++
    map (λ entry, Spec.entry_of entry.1 entry.2) (Spec.positioned (S index) documents).
Proof.
  revert index acc.
  induction documents as [|doc documents IH]; intros index acc.
  - cbn. by rewrite app_nil_r.
  - cbn [Worker.forEach]. rewrite IH. clear IH.
    unfold Spec.positioned. cbn [length seq zip zip_with List.filter snd].
    unfold Worker.visit, Spec.has_text.
    destruct (isSearchResult doc); cbn [negb andb]; [|done].
    cbn [truthy].
    destruct (String.eqb (Worker.textContent doc) ""); cbn [negb]; [done|].
    cbn [Worker.contextParts map fst snd]. rewrite <- app_assoc.
    unfold Spec.entry_of, Spec.filename_of, Spec.score_of.
    by rewrite Nat.add_1_r.
Qed.

(** X11.  The context text joins one entry per document with text, separated by
    blank lines.  An entry is headed by the position of its document in the
    response, counted from 1, whether or not the documents before it were
    kept: the numbers follow the response, not the list of sources. *)
Theorem context_numbers_documents_by_position (query : string) (ragSettings : jsval)
    (env : Worker.Env) (searchResult : jsval) (documents : list jsval) :
  Spec.search_call query ragSettings env = Ok searchResult →
  get searchResult "data" = VArr documents →
  ∃ context,
    Worker.searchAutoRAG query ragSettings env = Ok context ∧
    RAGContext.contextText context
      = join (nl +:+ nl)
          (map (λ entry, Spec.entry_of entry.1 entry.2) (Spec.positioned 1 documents)) ∧
    map snd (Spec.positioned 1 documents) = List.filter Spec.has_text documents ∧
    Forall (λ entry, documents !! (entry.1 - 1)%nat = Some entry.2)
      (Spec.positioned 1 documents).
Proof.
  intros Hcall Hdata. rewrite searchAutoRAG_cases, Hcall, (well_formed_array _ _ Hdata).
  unfold Worker.buildRAGContext.
  assert (get_throw searchResult "data" = Ok (VArr documents)) as ->.
  { destruct searchResult; simpl in Hdata |- *; try discriminate; by rewrite Hdata. }
  cbn [mbind result_bind bind truthy negb orb Worker.length_is_zero].
  assert (∀ first rest,
    map snd (Spec.positioned first rest) = List.filter Spec.has_text rest) as Hkept.
  { intros first rest. revert first. unfold Spec.positioned.
    induction rest as [|doc rest IH]; intros first; [done|].
    cbn [length seq zip zip_with List.filter snd].
    destruct (Spec.has_text doc); cbn [map snd]; by rewrite IH. }
  assert (∀ first rest,
    Forall (λ entry, rest !! (entry.1 - first)%nat = Some entry.2)
      (Spec.positioned first rest)) as Hplace.
  { intros first rest. revert first. unfold Spec.positioned.
    induction rest as [|doc rest IH]; intros first; [constructor|].
    cbn [length seq zip zip_with List.filter snd].
    assert (Forall (λ entry, (doc :: rest) !! (entry.1 - first)%nat = Some entry.2)
              (List.filter (λ entry, Spec.has_text entry.2)
                 (zip (seq (S first) (length rest)) rest))) as Hrest.
    { specialize (IH (S first)).
      rewrite Forall_forall in IH |- *. intros [position other] Hentry.
      pose proof Hentry as Hposition.
      apply list_elem_of_In, filter_In in Hposition as [Hposition _].
      apply list_elem_of_In, elem_of_zip_l, list_elem_of_In, in_seq in Hposition.
      specialize (IH _ Hentry). cbn [fst snd] in *.
      replace (position - first)%nat with (S (position - S first)) by lia.
      exact IH. }
    destruct (Spec.has_text doc); [|exact Hrest].
    constructor; [|exact Hrest]. cbn [fst snd]. by rewrite Nat.sub_diag. }
  destruct documents as [|doc documents].
  - eexists. split; [reflexivity|]. split; [done|]. split; [done | constructor].
  - cbn [length Nat.eqb]. eexists. split; [reflexivity|].
    cbn [RAGContext.contextText]. rewrite forEach_parts. cbn [Worker.contextParts app].
    split; [done|]. split; [apply Hkept | apply Hplace].
Qed.

Lemma context_numbers_documents_by_position_witness :
  let documents :=
    [Samples.document "empty.md" 0.4 [];
     Samples.document "policy.md" 0.8 [Samples.text_item "Water damage is covered."];
     VNull;
     Samples.document "claims.md" 0.5 [Samples.text_item "File a claim."]] in
  ∃ context,
    Worker.searchAutoRAG "damage" Samples.settings
      (Samples.env_answering (Ok (Samples.response documents)) []) = Ok context ∧
    RAGContext.contextText context
      = "[Document 2: policy.md (Relevance: 0.80)]" +:+ nl +:+ "Water damage is covered." +:+
        nl +:+ nl +:+
        "[Document 4: claims.md (Relevance: 0.50)]" +:+ nl +:+ "File a claim.".
Proof.
  intros documents.
  destruct (context_numbers_documents_by_position "damage" Samples.settings
              (Samples.env_answering (Ok (Samples.response documents)) [])
              (Samples.response documents) documents)
    as (context & Hrun & Htext & _); [reflexivity | reflexivity |].
  exists context. split; [exact Hrun|].
  rewrite Htext. vm_compute. reflexivity.
Defined.

(** ** The settings of the search *)

Lemma merged_setting (client : gmap string jsval) (key : string) (value : jsval) :
  key ≠ "index" →
  Worker.CONFIG.ragSettings !! key = Some value →
  get (VObj (<["index" := VStr Worker.CONFIG.autoragIndex]>
               (client ∪ Worker.CONFIG.ragSettings))) key
  = default value (client !! key).
Proof.
  intros Hkey Hdefault. cbn [get].
  rewrite lookup_insert_ne by done. rewrite lookup_union, Hdefault.
  by destruct (client !! key).
Qed.

(** X19.  The retrieval step of a request is one call of the search binding,
    on the configured index, with the last user message as its query; each
    of [maxResults], [scoreThreshold] and [rewriteQuery] is the value the
    client sent under [ragSettings], of whatever type, and the configured
    value only when the client sent none.  What that call gives decides the
    step: a result whose [data] is an array becomes the context built from
    it, and a failed call, another result, or a failure while building,
    becomes the empty context. *)
Theorem client_settings_reach_search (chatRequest : ChatRequest) (startTime : Z)
    (requestId : string) (env : Worker.Env) :
  let context := Worker.requestContext chatRequest startTime requestId in
  let client := spread (ChatRequest.ragSettings chatRequest) in
  let options :=
    {| SearchOptions.query := Worker.getUserMessage (ChatRequest.messages chatRequest);
       SearchOptions.max_num_results := default (VNum 5%float) (client !! "maxResults");
       SearchOptions.score_threshold := default (VNum 0.1%float) (client !! "scoreThreshold");
       SearchOptions.rewrite_query := default (VBool true) (client !! "rewriteQuery") |} in
  Worker.searchAutoRAG (RequestContext.userMessage context)
    (VObj (RequestContext.ragSettings context)) env
  = match Worker.autorag_search env (VStr "damagescan-rag-1") options with
    | Ok searchResult =>
        if truthy searchResult && truthy (get searchResult "data")
           && isArray (get searchResult "data")
        then match Worker.buildRAGContext searchResult with
             | Ok ragContext => Ok ragContext
             | Throw _ => Ok Worker.createEmptyRAGContext
             end
        else Ok Worker.createEmptyRAGContext
    | Throw _ => Ok Worker.createEmptyRAGContext
    end.
Proof.
  intros context client options.
  assert (Spec.search_call (RequestContext.userMessage context)
      (VObj (RequestContext.ragSettings context)) env
    = Worker.autorag_search env (VStr "damagescan-rag-1") options) as Hcall.
  { subst context options client.
    unfold Spec.search_call, Worker.requestContext.
    cbn [RequestContext.userMessage RequestContext.ragSettings].
    rewrite (merged_setting _ "maxResults" (VNum 5%float)) by done.
    rewrite (merged_setting _ "scoreThreshold" (VNum 0.1%float)) by done.
    rewrite (merged_setting _ "rewriteQuery" (VBool true)) by done.
    cbn [get]. by rewrite lookup_insert_eq. }
  rewrite searchAutoRAG_cases, Hcall.
  destruct (Worker.autorag_search env (VStr "damagescan-rag-1") options)
    as [searchResult|]; [|reflexivity].
  unfold Spec.well_formed.
  destruct (truthy searchResult && truthy (get searchResult "data")
            && isArray (get searchResult "data")); [|reflexivity].
  by destruct (Worker.buildRAGContext searchResult).
Qed.

(** ** The token estimate *)

Lemma estimateTokens_bounds (text : string) :
  (String.length text ≤ 4 * Worker.estimateTokens text < String.length text + 4)%nat.
Proof.
  unfold Worker.estimateTokens.
  pose proof (Nat.div_mod_eq (String.length text + 3) 4) as Hdiv.
  pose proof (Nat.mod_upper_bound (String.length text + 3) 4) as Hmod.
  lia.
Qed.

Lemma estimateTokens_mono (s t : string) :
  (String.length s ≤ String.length t)%nat →
  (Worker.estimateTokens s ≤ Worker.estimateTokens t)%nat.
Proof.
  intros Hlength. unfold Worker.estimateTokens.
  apply Nat.Div0.div_le_mono. lia.
Qed.

(** X12.  The token estimate of a built prompt is the length of the prompt it
    goes with, divided by four and rounded up; it is the estimate of the base
    prompt without retrieval context and never below it with context, where
    the prompt is longer than the base prompt by more than the context text. *)
Theorem token_estimate_covers_prompt (basePrompt : string) (ragContext : RAGContext)
    (includeInstructions : bool) :
  let enhanced :=
    Worker.buildEnhancedSystemPrompt basePrompt ragContext includeInstructions in
  let prompt := EnhancedSystemPrompt.prompt enhanced in
  let estimate := EnhancedSystemPrompt.tokenEstimate enhanced in
  (String.length prompt ≤ 4 * estimate < String.length prompt + 4)%nat ∧
  (Worker.estimateTokens basePrompt ≤ estimate)%nat ∧
  EnhancedSystemPrompt.hasRAGContext enhanced = RAGContext.hasContext ragContext ∧
  (if RAGContext.hasContext ragContext
   then (String.length basePrompt + String.length (RAGContext.contextText ragContext)
         < String.length prompt)%nat
   else prompt = basePrompt).
Proof.
  intros enhanced prompt estimate. subst enhanced prompt estimate.
  unfold Worker.buildEnhancedSystemPrompt.
  destruct (RAGContext.hasContext ragContext);
    cbn [negb EnhancedSystemPrompt.prompt EnhancedSystemPrompt.tokenEstimate
         EnhancedSystemPrompt.hasRAGContext].
  - split; [apply estimateTokens_bounds|].
    split; [apply estimateTokens_mono; rewrite length_append; lia|].
    split; [done|].
    rewrite !length_append. change (String.length nl) with 1%nat. lia.
  - split; [apply estimateTokens_bounds|]. done.
Qed.


(** * Further properties of the page *)

Section Page.

Variable JSON_parse : string → result jsval.
Variable ToString : jsval → string.
Variable fetch : nat → Client.RequestBody → result Client.HttpResponse.

Abbreviation line_fragment := (Client.line_fragment JSON_parse ToString).
Abbreviation process_chunk := (Client.process_chunk JSON_parse ToString).
Abbreviation read_loop := (Client.read_loop JSON_parse ToString).
Abbreviation processStreamingResponse := (Client.processStreamingResponse JSON_parse ToString).
Abbreviation sendMessage := (Client.sendMessage JSON_parse ToString fetch).
Abbreviation fire := (Client.fire JSON_parse ToString fetch).
Abbreviation fragments := (Spec.fragments JSON_parse ToString).

(** ** The stream consumer *)

(** Writing the text of an element twice leaves the second text. *)
Lemma displayed_twice (messageElement : nat) (first second : list string) (text : string)
    (st : Client.State) :
  Spec.displayed messageElement second
    (fold_left String.append second (fold_left String.append first text))
    (Spec.displayed messageElement first (fold_left String.append first text) st)
  = Spec.displayed messageElement (first ++ second)
      (fold_left String.append (first ++ second) text) st.
Proof.
  rewrite fold_left_app. unfold Spec.displayed.
  destruct first as [|a first]; [done|].
  destruct second as [|b second]; simpl; [done|].
  unfold Client.set_chatMessages. simpl. by rewrite list_insert_insert_eq.
Qed.

(** The loop over the lines of a chunk, in closed form. *)
Lemma lines_collect (messageElement : nat) (lines : list string)
    (m : Client.C (string * bool)) (acc : string * bool) (st st' : Client.State) :
  m st = (Ok acc, st') →
  foldl
    (λ (m : Client.C (string * bool)) line,
       acc ← m;
       match line_fragment line with
       | Some fragment =>
           let responseText := acc.1 +:+ fragment in
           _ ← Client.set_textContent messageElement responseText;
           ret (responseText, true)
       | None => ret acc
       end)
    m lines st
  = (Ok (fold_left String.append (omap line_fragment lines) acc.1,
         acc.2 || (0 <? length (omap line_fragment lines))%nat),
     Spec.displayed messageElement (omap line_fragment lines)
       (fold_left String.append (omap line_fragment lines) acc.1) st').
Proof.
  revert m acc st'.
  induction lines as [|line lines IH]; intros m acc st' Hm; simpl.
  - rewrite Hm, orb_false_r. by destruct acc.
  - destruct (line_fragment line) as [fragment|] eqn:Hline.
    + erewrite IH; last first.
      { run_effects. rewrite Hm. reflexivity. }
      cbn [fst snd orb length Nat.ltb Nat.leb fold_left]. rewrite orb_true_r.
      f_equal.
      change (Client.set_textContent messageElement (acc.1 +:+ fragment) st').2
        with (Spec.displayed messageElement [fragment]
                (fold_left String.append [fragment] acc.1) st').
      apply (displayed_twice messageElement [fragment]).
    + apply IH. run_effects. by rewrite Hm.
Qed.

(** The loop over the chunks, in closed form: the text is the text so far
    followed by the fragments in the order of the stream. *)
Lemma read_loop_collect (messageElement : nat) (chunks : list string)
    (ending : Client.StreamEnd) (acc : string * bool) (st : Client.State) :
  read_loop messageElement chunks ending acc st
  = (match ending with
     | Client.Done =>
         Ok (fold_left String.append (fragments chunks) acc.1,
             acc.2 || (0 <? length (fragments chunks))%nat)
     | Client.ReadFailed e => Throw e
     end,
     Spec.displayed messageElement (fragments chunks)
       (fold_left String.append (fragments chunks) acc.1) st).
Proof.
  revert acc st. induction chunks as [|chunk chunks IH]; intros acc st; simpl.
  - rewrite orb_false_r. by destruct ending, acc.
  - rewrite bind_run. unfold Client.process_chunk.
    pose proof (lines_collect messageElement (split_lines chunk) (ret acc) acc st st eq_refl)
      as Hlines.
    cbv zeta in Hlines. rewrite Hlines. clear Hlines.
    rewrite IH. cbn [fst snd].
    unfold Spec.fragments, Spec.lines_of. cbn [flat_map].
    rewrite omap_app, displayed_twice, fold_left_app, length_app.
    f_equal. destruct ending; [|done]. f_equal. f_equal.
    rewrite <- orb_assoc. f_equal.
    destruct (omap line_fragment (split_lines chunk)); [done|].
    by rewrite orb_true_l.
Qed.

(** The whole consumer, in closed form. *)
Lemma stream_run (response : Client.HttpResponse) (messageElement messageId : nat)
    (st : Client.State) :
  let found := fragments (Client.HttpResponse.chunks response) in
  let shown := Spec.displayed messageElement found (Spec.text_of found) st in
  processStreamingResponse response messageElement messageId st
  = match Client.HttpResponse.ending response with
    | Client.Done =>
        (if (0 <? length found)%nat then Ok tt
         else Throw (JSError "No response content received"),
         Spec.recorded (Spec.text_of found) shown)
    | Client.ReadFailed e => (Throw e, shown)
    end.
Proof.
  intros found shown. subst found shown.
  unfold Client.processStreamingResponse. run_effects.
  rewrite read_loop_collect. cbn [fst snd orb].
  unfold Spec.recorded, Spec.text_of.
  destruct (Client.HttpResponse.ending response); [|done].
  cbn [fst snd].
  destruct (String.eqb (fold_left String.append _ "") ""); cbn [negb];
    by destruct (0 <? length _)%nat.
Qed.

(** ** The retry controller *)

(** The controller on a failure whose message it can read. *)
Lemma handleChatError_run (error : thrown) (messageId : nat) (shown : string)
    (retry : bool) (st : Client.State) :
  Client.classify error = Ok (shown, retry) →
  Client.handleChatError error messageId st
  = (Ok tt,
     let told :=
       Client.set_chatMessages (Client.chatMessages st ++ [("assistant", shown)])
         (Client.set_messageIdCounter (S (Client.messageIdCounter st)) st) in
     if retry && (Client.retryAttempts st <? Client.maxRetryAttempts)%nat then
       Client.set_timers
         ((Client.timers st ++ [(1000, Client.ShowRetrying)]) ++
          [(2000 * Z.of_nat (S (Client.retryAttempts st)), Client.Resend)])
         (Client.set_retryAttempts (S (Client.retryAttempts st)) told)
     else Client.set_retryAttempts 0 told).
Proof.
  intros Hverdict. unfold Client.handleChatError. run_effects. rewrite Hverdict.
  cbn [fst snd]. unfold Client.generateMessageId, Client.addMessageToChat, Client.setTimeout.
  run_effects.
  cbn [Client.retryAttempts Client.set_chatMessages Client.set_messageIdCounter].
  by destruct retry, (Client.retryAttempts st <? Client.maxRetryAttempts)%nat.
Qed.

(** ** The send pipeline *)

(** A send from a page that can send, step by step. *)
Lemma sendMessage_run (st : Client.State) :
  Spec.can_send st = true →
  sendMessage st
  = match
      match fetch (length (Client.requests st)) (Spec.request_of st) with
      | Ok response =>
          if Client.HttpResponse.ok response then
            match
              processStreamingResponse response (S (length (Client.chatMessages st)))
                (S (S (Client.messageIdCounter st))) (Spec.sent st)
            with
            | (Ok _, st') => (Ok tt, Client.set_retryAttempts 0 st')
            | (Throw e, st') => (Throw e, st')
            end
          else
            (Throw (JSError ("HTTP " +:+ pretty (Client.HttpResponse.status response) +:+
                             ": " +:+ Client.HttpResponse.statusText response)),
             Spec.sent st)
      | Throw e => (Throw e, Spec.sent st)
      end
    with
    | (Ok _, st') => (Ok tt, Client.set_isProcessing false st')
    | (Throw e, st') =>
        ((Client.handleChatError e (S (Client.messageIdCounter st)) st').1,
         Client.set_isProcessing false
           (Client.handleChatError e (S (Client.messageIdCounter st)) st').2)
    end.
Proof.
  intros Hsend. unfold Spec.can_send in Hsend. apply andb_prop in Hsend as [Htext Hidle].
  apply negb_true_iff in Htext, Hidle.
  unfold Client.sendMessage. run_effects. rewrite Htext, Hidle. cbn [orb].
  unfold Client.setProcessingState, Client.generateMessageId, Client.addMessageToChat,
    Client.createAssistantMessageElement, Client.sendChatRequest.
  run_effects.
  cbn [Client.requests Client.set_requests Client.set_chatMessages Client.chatMessages
       Client.set_messageIdCounter Client.messageIdCounter Client.set_chatHistory
       Client.chatHistory Client.set_userInput Client.userInput Client.set_isProcessing
       Client.isProcessing Client.systemPromptInput Client.retryAttempts Client.timers].
  rewrite length_app. cbn [length]. rewrite Nat.add_1_r.
  match goal with
  | |- context [fetch _ ?body] => change body with (Spec.request_of st)
  end.
  match goal with
  | |- context [Client.set_requests ?sent ?page] =>
      change (Client.set_requests sent page) with (Spec.sent st)
  end.
  destruct (fetch _ _) as [response|e];
    [destruct (Client.HttpResponse.ok response); cbn [negb];
     [destruct (processStreamingResponse _ _ _ _) as [[[]|e] st']|]|];
    try reflexivity;
    match goal with
    | |- context [Client.handleChatError ?e ?id ?page] =>
        by destruct (Client.handleChatError e id page)
    end.
Qed.

(** What the consumer leaves alone, and what it may add to the history. *)
Lemma stream_frame (response : Client.HttpResponse) (messageElement messageId : nat)
    (st : Client.State) :
  let st' := (processStreamingResponse response messageElement messageId st).2 in
  Client.requests st' = Client.requests st ∧
  Client.retryAttempts st' = Client.retryAttempts st ∧
  Client.timers st' = Client.timers st ∧
  Client.messageIdCounter st' = Client.messageIdCounter st ∧
  Client.isProcessing st' = Client.isProcessing st ∧
  ∃ rest,
    Client.chatHistory st' = Client.chatHistory st ++ rest ∧
    (rest = [] ∨ ∃ text, rest = [ChatMessage.mk assistant text]).
Proof.
  rewrite stream_run. unfold Spec.recorded, Spec.displayed.
  destruct (Client.HttpResponse.ending response);
    destruct (0 <? length _)%nat; try destruct (String.eqb _ ""); cbn;
    repeat (split; [done|]);
    try (exists []; rewrite app_nil_r; split; [done | by left]);
    eexists; (split; [reflexivity | right; by eexists]).
Qed.

(** What the controller leaves alone, and the bound it keeps. *)
Lemma handleChatError_frame (error : thrown) (messageId : nat) (st : Client.State) :
  let st' := (Client.handleChatError error messageId st).2 in
  Client.requests st' = Client.requests st ∧
  Client.chatHistory st' = Client.chatHistory st ∧
  Client.isProcessing st' = Client.isProcessing st ∧
  (Client.messageIdCounter st ≤ Client.messageIdCounter st')%nat ∧
  ((Client.retryAttempts st ≤ Client.maxRetryAttempts)%nat →
   (Client.retryAttempts st' ≤ Client.maxRetryAttempts)%nat) ∧
  (∀ bound,
     (2000 * Z.of_nat Client.maxRetryAttempts ≤ bound)%Z →
     Forall (λ timer, (timer.1 ≤ bound)%Z) (Client.timers st) →
     Forall (λ timer, (timer.1 ≤ bound)%Z) (Client.timers st')).
Proof.
  destruct (Client.classify error) as [[shown retry]|e] eqn:Hverdict.
  - rewrite (handleChatError_run _ _ _ _ _ Hverdict). cbn [snd].
    destruct retry; cbn [andb]; [|cbn; repeat split; try done; lia].
    destruct (Client.retryAttempts st <? Client.maxRetryAttempts)%nat eqn:Hbound;
      [|cbn; repeat split; try done; lia].
    apply Nat.ltb_lt in Hbound. cbn.
    repeat split; try done; try lia.
    intros bound Hdelay Htimers. unfold Client.maxRetryAttempts in *.
    rewrite !Forall_app. repeat split; [done | |]; repeat constructor; simpl; lia.
  - unfold Client.handleChatError. run_effects. rewrite Hverdict. cbn.
    repeat split; done.
Qed.

(** A failure that is an [Error] always has a message to classify. *)
Lemma classify_error (message : string) :
  ∃ shown retry, Client.classify (JSError message) = Ok (shown, retry).
Proof.
  unfold Client.classify. cbn [Client.message_includes mbind result_bind bind].
  destruct (_ || _); [by eexists _, _|].
  destruct (includes message "HTTP 429"); [by eexists _, _|].
  destruct (_ || _); [by eexists _, _|].
  destruct (includes message "timeout"); by eexists _, _.
Qed.





(** ** Properties *)

(** X13.  The consumer shows in its element the fragments of the stream put
    together in their order, and touches no other element.  A stream that
    ends normally is an error only without any fragment, and its text goes
    to the history unless it is empty; the text of a stream that breaks off
    stays on display and out of the history, and the failure of the read is
    thrown on. *)
Theorem stream_puts_fragments_together (response : Client.HttpResponse)
    (messageElement messageId : nat) (st : Client.State) :
  (messageElement < length (Client.chatMessages st))%nat →
  let found := fragments (Client.HttpResponse.chunks response) in
  let text := Spec.text_of found in
  let outcome := processStreamingResponse response messageElement messageId st in
  outcome.1 =
    match Client.HttpResponse.ending response with
    | Client.Done =>
        if (0 <? length found)%nat then Ok tt
        else Throw (JSError "No response content received")
    | Client.ReadFailed e => Throw e
    end ∧
  Client.chatMessages outcome.2 !! messageElement =
    (if (0 <? length found)%nat then Some ("assistant", text)
     else Client.chatMessages st !! messageElement) ∧
  (∀ other, other ≠ messageElement →
     Client.chatMessages outcome.2 !! other = Client.chatMessages st !! other) ∧
  Client.chatHistory outcome.2 =
    Client.chatHistory st ++
    match Client.HttpResponse.ending response with
    | Client.Done =>
        if String.eqb text "" then [] else [ChatMessage.mk assistant text]
    | Client.ReadFailed _ => []
    end.
Proof.
  intros Helement found text outcome. subst outcome. rewrite stream_run.
  fold found. fold text. unfold Spec.recorded, Spec.displayed.
  destruct (Client.HttpResponse.ending response);
    destruct (0 <? length found)%nat; try destruct (String.eqb text ""); cbn;
    rewrite ?app_nil_r;
    (split; [done|]); (split; [by rewrite ?list_lookup_insert_eq|]);
    (split; [|done]); intros other Hother; by rewrite ?list_lookup_insert_ne.
Qed.



(** X15.  Whatever the network and the stream do, a send issues exactly one
    request, which carries the history up to and including the trimmed
    message of the user; afterwards the page is unlocked, the user's message
    is in the history, followed by at most one answer. *)
Theorem every_exchange_sends_one_request (st : Client.State) :
  Spec.can_send st = true →
  let outcome := sendMessage st in
  Client.requests outcome.2 = Client.requests st ++ [Spec.request_of st] ∧
  Client.isProcessing outcome.2 = false ∧
  (Client.messageIdCounter st + 2 ≤ Client.messageIdCounter outcome.2)%nat ∧
  ∃ rest,
    Client.chatHistory outcome.2 =
      Client.chatHistory st ++ ChatMessage.mk user (trim (Client.userInput st)) :: rest ∧
    (rest = [] ∨ ∃ text, rest = [ChatMessage.mk assistant text]).
Proof.
  intros Hsend outcome. subst outcome. rewrite (sendMessage_run _ Hsend).
  assert (∀ e page,
    Client.requests page = Client.requests (Spec.sent st) →
    Client.chatHistory page = Client.chatHistory (Spec.sent st) →
    Client.messageIdCounter page = Client.messageIdCounter (Spec.sent st) →
    let handled := Client.handleChatError e (S (Client.messageIdCounter st)) page in
    Client.requests (Client.set_isProcessing false handled.2)
      = Client.requests st ++ [Spec.request_of st] ∧
    Client.isProcessing (Client.set_isProcessing false handled.2) = false ∧
    (Client.messageIdCounter st + 2
     ≤ Client.messageIdCounter (Client.set_isProcessing false handled.2))%nat ∧
    ∃ rest,
      Client.chatHistory (Client.set_isProcessing false handled.2) =
        Client.chatHistory st ++ ChatMessage.mk user (trim (Client.userInput st)) :: rest ∧
      (rest = [] ∨ ∃ text, rest = [ChatMessage.mk assistant text])) as Hfailed.
  { intros e page Hrequests Hhistory Hcounter handled. subst handled.
    destruct (handleChatError_frame e (S (Client.messageIdCounter st)) page)
      as (Hr & Hh & _ & Hc & _).
    cbn [Client.requests Client.set_isProcessing Client.isProcessing
         Client.messageIdCounter Client.chatHistory].
    rewrite Hr, Hh, Hrequests, Hhistory. rewrite Hcounter in Hc. cbn in Hc |- *.
    split; [done|]. split; [done|]. split; [lia|].
    exists []. split; [done | by left]. }
  destruct (fetch _ _) as [response|e]; [|by apply Hfailed].
  destruct (Client.HttpResponse.ok response); [|by apply Hfailed].
  destruct (stream_frame response (S (length (Client.chatMessages st)))
              (S (S (Client.messageIdCounter st))) (Spec.sent st))
    as (Hr & _ & _ & Hc & _ & rest & Hh & Hrest).
  destruct (processStreamingResponse _ _ _ _) as [[[]|e] st']; cbn [snd] in *.
  - cbn [Client.requests Client.set_isProcessing Client.set_retryAttempts
         Client.isProcessing Client.messageIdCounter Client.chatHistory].
    rewrite Hr, Hc, Hh. cbn.
    split; [done|]. split; [done|]. split; [lia|].
    exists rest. by rewrite <- app_assoc.
  - destruct (handleChatError_frame e (S (Client.messageIdCounter st)) st')
      as (Hr' & Hh' & _ & Hc' & _).
    cbn [Client.requests Client.set_isProcessing Client.isProcessing
         Client.messageIdCounter Client.chatHistory fst snd].
    rewrite Hr', Hh', Hr, Hh. rewrite Hc in Hc'. cbn in Hc' |- *.
    split; [done|]. split; [done|]. split; [lia|].
    exists rest. by rewrite <- app_assoc.
Qed.


(** X17.  The attempt count never passes the bound of 3, whatever an exchange or
    a timer does, and no retry is ever scheduled later than 6 seconds
    ahead. *)
Theorem retry_budget_is_kept (st : Client.State) (callback : Client.Callback) :
  (Client.retryAttempts st ≤ Client.maxRetryAttempts)%nat →
  Forall (λ timer, (timer.1 ≤ 6000)%Z) (Client.timers st) →
  (Client.retryAttempts (sendMessage st).2 ≤ Client.maxRetryAttempts)%nat ∧
  Forall (λ timer, (timer.1 ≤ 6000)%Z) (Client.timers (sendMessage st).2) ∧
  (Client.retryAttempts (fire callback st).2 ≤ Client.maxRetryAttempts)%nat ∧
  Forall (λ timer, (timer.1 ≤ 6000)%Z) (Client.timers (fire callback st).2).
Proof.
  intros Hbound Htimers.
  assert ((Client.retryAttempts (sendMessage st).2 ≤ Client.maxRetryAttempts)%nat ∧
          Forall (λ timer, (timer.1 ≤ 6000)%Z) (Client.timers (sendMessage st).2))
    as Hsent.
  { destruct (Spec.can_send st) eqn:Hsend.
    - rewrite (sendMessage_run _ Hsend).
      assert (∀ e page,
        Client.retryAttempts page = Client.retryAttempts st →
        Client.timers page = Client.timers st →
        let handled := Client.handleChatError e (S (Client.messageIdCounter st)) page in
        (Client.retryAttempts (Client.set_isProcessing false handled.2)
         ≤ Client.maxRetryAttempts)%nat ∧
        Forall (λ timer, (timer.1 ≤ 6000)%Z)
          (Client.timers (Client.set_isProcessing false handled.2))) as Hfailed.
      { intros e page Hattempts Hpending handled. subst handled.
        destruct (handleChatError_frame e (S (Client.messageIdCounter st)) page)
          as (_ & _ & _ & _ & Hkept & Hdelays).
        cbn [Client.retryAttempts Client.timers Client.set_isProcessing].
        split; [apply Hkept; by rewrite Hattempts|].
        apply Hdelays; [done | by rewrite Hpending]. }
      destruct (fetch _ _) as [response|e]; [|by apply Hfailed].
      destruct (Client.HttpResponse.ok response); [|by apply Hfailed].
      destruct (stream_frame response (S (length (Client.chatMessages st)))
                  (S (S (Client.messageIdCounter st))) (Spec.sent st))
        as (_ & Hattempts & Hpending & _).
      destruct (processStreamingResponse _ _ _ _) as [[[]|e] st']; cbn [snd] in *.
      + cbn. rewrite Hpending. split; [lia | done].
      + by apply Hfailed.
    - assert (sendMessage st = (Ok tt, st)) as ->; [|done].
      unfold Spec.can_send in Hsend. unfold Client.sendMessage. run_effects.
      destruct (String.eqb (trim (Client.userInput st)) ""); [done|].
      by destruct (Client.isProcessing st). }
  split; [apply Hsent|]. split; [apply Hsent|].
  destruct callback; [by cbn | exact Hsent].
Qed.

(** X18.  A send rejects only when the failure of the exchange is a thrown value
    that is not an [Error] and whose message the controller cannot read; the
    rejection is then the error of that reading.  A failed request, a failure
    status, a broken stream or an empty answer never make it reject. *)
Theorem send_rejects_only_unreadable_failure (st : Client.State) (e : thrown) :
  (sendMessage st).1 = Throw e →
  ∃ value,
    Client.classify (ThrownValue value) = Throw e ∧
    (fetch (length (Client.requests st)) (Spec.request_of st) = Throw (ThrownValue value) ∨
     ∃ response,
       fetch (length (Client.requests st)) (Spec.request_of st) = Ok response ∧
       Client.HttpResponse.ending response = Client.ReadFailed (ThrownValue value)).
Proof.
  destruct (Spec.can_send st) eqn:Hsend; last first.
  { assert (sendMessage st = (Ok tt, st)) as ->; [|done].
    unfold Spec.can_send in Hsend. unfold Client.sendMessage. run_effects.
    destruct (String.eqb (trim (Client.userInput st)) ""); [done|].
    by destruct (Client.isProcessing st). }
  rewrite (sendMessage_run _ Hsend).
  assert (∀ failure page,
    (Client.handleChatError failure (S (Client.messageIdCounter st)) page).1 = Throw e →
    ∃ value, failure = ThrownValue value ∧ Client.classify failure = Throw e) as Hhandled.
  { intros failure page Hthrown.
    destruct (Client.classify failure) as [[shown retry]|e'] eqn:Hverdict.
    - by rewrite (handleChatError_run _ _ _ _ _ Hverdict) in Hthrown.
    - unfold Client.handleChatError in Hthrown. run_effects.
      rewrite Hverdict in Hthrown. cbn in Hthrown. injection Hthrown as ->.
      destruct failure as [message|value]; [|by exists value].
      destruct (classify_error message) as (shown & retry & Hok). congruence. }
  destruct (fetch _ _) as [response|failure] eqn:Hfetch.
  - destruct (Client.HttpResponse.ok response).
    + rewrite stream_run.
      destruct (Client.HttpResponse.ending response) as [|failure] eqn:Hending.
      * destruct (0 <? length _)%nat; cbn [fst snd]; [done|].
        intros Hthrown. apply Hhandled in Hthrown as (value & [=] & _).
      * cbn [fst snd]. intros Hthrown.
        apply Hhandled in Hthrown as (value & -> & Hverdict).
        exists value. split; [done|]. right. by exists response.
    + cbn [fst snd]. intros Hthrown. apply Hhandled in Hthrown as (value & [=] & _).
  - cbn [fst snd]. intros Hthrown. apply Hhandled in Hthrown as (value & -> & Hverdict).
    exists value. split; [done | by left].
Qed.

End Page.

Lemma stream_puts_fragments_together_witness :
  let st := Spec.sent (Samples.page "Is water damage covered?") in
  let outcome :=
    Client.processStreamingResponse Samples.parse_event Samples.ToString
      Samples.answer_response 1 2 st in
  outcome.1 = Ok tt ∧
  Client.chatMessages outcome.2 !! 1%nat = Some ("assistant", "Water damage is covered.") ∧
  Client.chatHistory outcome.2 =
    [ChatMessage.mk user "Is water damage covered?";
     ChatMessage.mk assistant "Water damage is covered."].
Proof.
  intros st outcome.
  destruct (stream_puts_fragments_together Samples.parse_event Samples.ToString
              Samples.answer_response 1 2 st)
    as (Hverdict & Hshown & _ & Hhistory); [vm_compute; lia|].
  fold outcome in Hverdict, Hshown, Hhistory.
  rewrite Hverdict, Hshown, Hhistory. repeat split; vm_compute; reflexivity.
Defined.


Lemma every_exchange_sends_one_request_witness :
  let st := Samples.busy_page "  Is water damage covered? " in
  let outcome :=
    Client.sendMessage Samples.JSON_parse Samples.ToString
      (λ _ _, Throw (JSError "Failed to fetch")) st in
  ∃ request,
    Client.requests outcome.2 = [request] ∧
    Client.RequestBody.messages request =
      [ChatMessage.mk assistant "Hello!"; ChatMessage.mk user "Hi";
       ChatMessage.mk user "Is water damage covered?"] ∧
    Client.RequestBody.systemPrompt request = Some "Answer as a claims adjuster." ∧
    Client.RequestBody.ragSettings request !! "index" = Some (VStr "damagescan-rag-1") ∧
    Client.isProcessing outcome.2 = false.
Proof.
  intros st outcome.
  destruct (every_exchange_sends_one_request Samples.JSON_parse Samples.ToString
              (λ _ _, Throw (JSError "Failed to fetch")) st)
    as (Hrequests & Hidle & _); [reflexivity|].
  fold outcome in Hrequests, Hidle.
  exists (Spec.request_of st). rewrite Hrequests, Hidle.
  repeat split; vm_compute; reflexivity.
Defined.


Lemma retry_budget_is_kept_witness :
  let st := Client.set_retryAttempts 3 (Samples.busy_page "Is water damage covered?") in
  let outcome :=
    Client.sendMessage Samples.JSON_parse Samples.ToString
      (Samples.always Samples.unavailable_response) st in
  (Client.retryAttempts outcome.2 ≤ Client.maxRetryAttempts)%nat ∧
  Forall (λ timer, (timer.1 ≤ 6000)%Z) (Client.timers outcome.2).
Proof.
  intros st outcome.
  destruct (retry_budget_is_kept Samples.JSON_parse Samples.ToString
              (Samples.always Samples.unavailable_response) st Client.Resend)
    as (Hattempts & Htimers & _); [vm_compute; lia | constructor |].
  split; [exact Hattempts | exact Htimers].
Defined.

Lemma send_rejects_only_unreadable_failure_witness :
  let fetch : nat → Client.RequestBody → result Client.HttpResponse :=
    λ _ _, Throw (ThrownValue VNull) in
  ∃ value,
    Client.classify (ThrownValue value)
      = Throw (JSError "Cannot read properties of null or undefined") ∧
    (fetch 0%nat (Spec.request_of (Samples.page "Is water damage covered?"))
       = Throw (ThrownValue value) ∨
     ∃ response,
       fetch 0%nat (Spec.request_of (Samples.page "Is water damage covered?")) = Ok response ∧
       Client.HttpResponse.ending response = Client.ReadFailed (ThrownValue value)).
Proof.
  intros fetch.
  apply (send_rejects_only_unreadable_failure Samples.JSON_parse Samples.ToString fetch
           (Samples.page "Is water damage covered?")).
  vm_compute. reflexivity.
Defined.

